(** * claude-memory: the observation store and the context digest

    A shallow embedding of the SQLite-backed [SessionStore]
    (services/database.js), of [generateContext]
    (services/context-generator.js), of the worker's routes and
    fallback observation and summary (services/worker-service.js) and
    of the response parser (sdk/parser.js), with the properties the
    specification states about them and further ones the code shows.

    Conventions.
    - A JavaScript string is a [string]; one character stands for one
      code unit, so [String.length] is the [.length] of the source.
    - A JavaScript value that is either a string or absent
      ([undefined]/[null]) is an [option string]; both absent forms are
      falsy and both are bound to SQL NULL by better-sqlite3.
    - SQLite integers and JavaScript integers are [Z].
    - [new Date()] is an input of every operation that reads the clock. *)

From Stdlib Require Import ZArith Lia Ascii.
From stdpp Require Import base option numbers list strings sorting.
From stdpp Require Import pretty gmap.

Local Open Scope Z_scope.

(** ** JavaScript primitives used by the sources *)

Module Js.

(** Truthiness of a string: only the empty string is falsy. *)
Definition truthy (s : string) : bool :=
  match s with EmptyString => false | String _ _ => true end.

(** Truthiness of a string-or-absent value. *)
Definition truthy_opt (v : option string) : bool :=
  match v with Some s => truthy s | None => false end.

(** [v || d] for a string-or-absent [v] and a string default [d]. *)
Definition or_str (v : option string) (d : string) : string :=
  match v with
  | Some s => if truthy s then s else d
  | None => d
  end.

(** [v || null] for a string-or-absent [v]. *)
Definition or_null (v : option string) : option string :=
  match v with
  | Some s => if truthy s then Some s else None
  | None => None
  end.

(** [v || []] for an array-or-absent [v]: every array is truthy. *)
Definition or_empty (v : option (list string)) : list string :=
  match v with Some xs => xs | None => [] end.

(** [n || d] for an integer-or-absent [n]: [0] is falsy. *)
Definition or_num (v : option Z) (d : Z) : Z :=
  match v with
  | Some n => if n =? 0 then d else n
  | None => d
  end.

(** [s.startsWith(p)]. *)
Fixpoint startsWith (s p : string) {struct p} : bool :=
  match p with
  | EmptyString => true
  | String a p' =>
      match s with
      | EmptyString => false
      | String b s' => if Ascii.eqb a b then startsWith s' p' else false
      end
  end.

(** [s.includes(t)]. *)
Fixpoint includes (s t : string) : bool :=
  startsWith s t ||
  match s with
  | EmptyString => false
  | String _ s' => includes s' t
  end.

(** [s.substring(n)] for [n >= 0]: the text from index [n] on, empty
    when [n] is past the end. *)
Fixpoint substring_from (n : nat) (s : string) : string :=
  match n, s with
  | O, _ => s
  | S _, EmptyString => EmptyString
  | S n', String _ s' => substring_from n' s'
  end.

(** [s.substring(0, n)]: the first [n] code units, or all of [s]. *)
Fixpoint substring_to (n : nat) (s : string) : string :=
  match n, s with
  | O, _ => EmptyString
  | S _, EmptyString => EmptyString
  | S n', String c s' => String c (substring_to n' s')
  end.

(** [Math.ceil(n / d)] on a non-negative integer [n] and [d > 0]. *)
Definition ceil_div (n d : Z) : Z := (n + d - 1) / d.

End Js.

(** ** Rows of the four tables (database.js, [initializeSchema]) *)

Inductive Status := active | completed | failed.

Module Session.
Record t := mk {
  id : Z;
  session_id : string;
  project : string;
  user_prompt : option string;
  prompt_counter : Z;
  started_at : string;
  started_at_epoch : Z;
  completed_at : option string;
  completed_at_epoch : option Z;
  status : Status
}.
End Session.

Module Observation.
Record t := mk {
  id : Z;
  session_id : string;
  project : string;
  type : string;
  title : option string;
  subtitle : option string;
  facts : option string;
  narrative : option string;
  concepts : option string;
  files_read : option string;
  files_modified : option string;
  prompt_number : option Z;
  discovery_tokens : Z;
  created_at : string;
  created_at_epoch : Z
}.
End Observation.

Module Summary.
Record t := mk {
  id : Z;
  session_id : string;
  project : string;
  request : option string;
  investigated : option string;
  learned : option string;
  completed : option string;
  next_steps : option string;
  notes : option string;
  prompt_number : option Z;
  discovery_tokens : Z;
  created_at : string;
  created_at_epoch : Z
}.
End Summary.

(** A row of the [observations_fts] index, written by the
    [observations_ai] trigger. *)
Module Fts.
Record t := mk {
  rowid : Z;
  title : option string;
  subtitle : option string;
  narrative : option string;
  facts : option string
}.
End Fts.

(** The database file: the tables in insertion order, and the entry of
    [sqlite_sequence] for the sessions table, the largest rowid an
    insert into it has ever been given.  The [user_prompts] table is
    written by [saveUserPrompt] only and read by nothing here. *)
Record Store := mkStore {
  sessions : list Session.t;
  observations : list Observation.t;
  observations_fts : list Fts.t;
  session_summaries : list Summary.t;
  sessions_seq : Z
}.

Definition empty_store : Store := mkStore [] [] [] [] 0.

(** The reading of the clock: [now.toISOString()] and [now.getTime()]. *)
Record Date := mkDate { toISOString : string; getTime : Z }.

(** ** The store monad: state that survives a thrown error

    better-sqlite3 runs every statement in its own implicit transaction,
    so a statement that throws leaves the effects of the statements
    before it in place. *)

Inductive SqlError :=
  | CheckConstraint      (* SQLITE_CONSTRAINT_CHECK *)
  | ForeignKeyConstraint (* SQLITE_CONSTRAINT_FOREIGNKEY *)
  | FtsSyntax.           (* fts5: syntax error in the MATCH expression *)

Inductive Outcome (A : Type) :=
  | Returned (a : A)
  | Thrown (e : SqlError).
Arguments Returned {A} a.
Arguments Thrown {A} e.

Definition Db (A : Type) : Type := Store -> Store * Outcome A.

#[export] Instance db_ret : MRet Db := fun A a st => (st, Returned a).

#[export] Instance db_bind : MBind Db := fun A B k m st =>
  match m st with
  | (st', Returned a) => k a st'
  | (st', Thrown e) => (st', Thrown e)
  end.

(** The rowid an [INTEGER PRIMARY KEY AUTOINCREMENT] column gives the
    next row: one more than the largest of [ids], the rowids of the
    table and, where inserts can be ignored, its [sqlite_sequence]
    entry.  Rows are never deleted and an insert that fails is rolled
    back, so for the observations, summaries and prompts the rowids of
    the table are enough. *)
Definition next_rowid (ids : list Z) : Z := 1 + foldr Z.max 0 ids.

(** ** Session operations *)

Definition find_session (sessionId : string) (l : list Session.t) : option Session.t :=
  List.find (fun s => String.eqb (Session.session_id s) sessionId) l.

(** The rowid the next insert into the sessions table is given. *)
Definition next_session_rowid (st : Store) : Z :=
  next_rowid (sessions_seq st :: (Session.id <$> sessions st)).

(** [INSERT OR IGNORE INTO sessions ...]: the statement takes the next
    rowid and records it in [sqlite_sequence]; the UNIQUE constraint on
    [session_id] then drops the row when the session exists, and the
    rowid is spent all the same.  The result is [result.changes]. *)
Definition insert_or_ignore_session (sessionId project userPrompt : string)
    (now : Date) : Db Z := fun st =>
  let id := next_session_rowid st in
  match find_session sessionId (sessions st) with
  | Some _ =>
      (mkStore (sessions st) (observations st) (observations_fts st)
         (session_summaries st) id, Returned 0)
  | None =>
      let row := Session.mk id sessionId project (Some userPrompt) 0
                   (toISOString now) (getTime now) None None active in
      (mkStore (sessions st ++ [row]) (observations st)
         (observations_fts st) (session_summaries st) id, Returned 1)
  end.

Definition update_sessions (f : Session.t -> Session.t) (sessionId : string) : Db unit :=
  fun st =>
  (mkStore
     ((fun s => if String.eqb (Session.session_id s) sessionId then f s else s)
        <$> sessions st)
     (observations st) (observations_fts st) (session_summaries st)
     (sessions_seq st),
   Returned tt).

(** [UPDATE sessions SET project = ?, user_prompt = ? WHERE session_id = ?]. *)
Definition set_project_prompt (project userPrompt : string) (s : Session.t) : Session.t :=
  Session.mk (Session.id s) (Session.session_id s) project (Some userPrompt)
    (Session.prompt_counter s) (Session.started_at s) (Session.started_at_epoch s)
    (Session.completed_at s) (Session.completed_at_epoch s) (Session.status s).

(** [UPDATE sessions SET prompt_counter = prompt_counter + 1 WHERE ...]. *)
Definition bump_counter (s : Session.t) : Session.t :=
  Session.mk (Session.id s) (Session.session_id s) (Session.project s)
    (Session.user_prompt s) (Session.prompt_counter s + 1) (Session.started_at s)
    (Session.started_at_epoch s) (Session.completed_at s)
    (Session.completed_at_epoch s) (Session.status s).

(** [UPDATE sessions SET status = 'completed', completed_at = ?,
    completed_at_epoch = ? WHERE ...]. *)
Definition complete (now : Date) (s : Session.t) : Session.t :=
  Session.mk (Session.id s) (Session.session_id s) (Session.project s)
    (Session.user_prompt s) (Session.prompt_counter s) (Session.started_at s)
    (Session.started_at_epoch s) (Some (toISOString now)) (Some (getTime now))
    completed.

(** [getSession(sessionId)]: the row, or absent. *)
Definition getSession (sessionId : string) : Db (option Session.t) := fun st =>
  (st, Returned (find_session sessionId (sessions st))).

(** [createSession(sessionId, project, userPrompt = '')]; the result is
    [session?.id]. *)
Definition createSession (sessionId project userPrompt : string) (now : Date)
    : Db (option Z) :=
  changes ← insert_or_ignore_session sessionId project userPrompt now;
  _ ← (if (changes =? 0) && Js.truthy project
       then update_sessions (set_project_prompt project userPrompt) sessionId
       else mret tt);
  session ← getSession sessionId;
  mret (Session.id <$> session).

(** [incrementPromptCounter(sessionId)]: [result?.prompt_counter || 1]. *)
Definition incrementPromptCounter (sessionId : string) : Db Z :=
  _ ← update_sessions bump_counter sessionId;
  result ← getSession sessionId;
  mret (Js.or_num (Session.prompt_counter <$> result) 1).

(** [getPromptCounter(sessionId)]: [result?.prompt_counter || 0]. *)
Definition getPromptCounter (sessionId : string) : Db Z :=
  result ← getSession sessionId;
  mret (Js.or_num (Session.prompt_counter <$> result) 0).

(** [markSessionCompleted(sessionId)]. *)
Definition markSessionCompleted (sessionId : string) (now : Date) : Db unit :=
  update_sessions (complete now) sessionId.

(** ** JSON text of string arrays

    [JSON.stringify] on an array of strings, as ECMAScript's
    QuoteJSONString defines it, and [JSON.parse] on the texts the store
    writes into its array columns for the string lists of an
    observation: arrays of strings.  The model covers these texts and
    the texts that are no JSON at all.  A JSON text of another shape
    (an array that holds a number or a nested array, say) is outside
    it: [parse] reports it like a text that does not parse, where the
    source would keep the array.  The properties below that depend on
    the parsed value speak of texts the store wrote. *)

Module Json.

Definition dquote : ascii := Eval cbv in ascii_of_N 34.
Definition backslash : ascii := Eval cbv in ascii_of_N 92.

Definition hex_digit (n : N) : ascii :=
  ascii_of_N (if (n <? 10)%N then 48 + n else 87 + n)%N.

Definition escaped (c : ascii) : string := String backslash (String c EmptyString).

(** One code unit inside a JSON string literal. *)
Definition quote_char (c : ascii) : string :=
  let n := N_of_ascii c in
  if (n =? 8)%N then escaped "b"
  else if (n =? 9)%N then escaped "t"
  else if (n =? 10)%N then escaped "n"
  else if (n =? 12)%N then escaped "f"
  else if (n =? 13)%N then escaped "r"
  else if (n =? 34)%N then escaped dquote
  else if (n =? 92)%N then escaped backslash
  else if (n <? 32)%N then
    String backslash (String "u" (String "0" (String "0"
      (String (hex_digit (n / 16)) (String (hex_digit (n mod 16)) EmptyString)))))
  else String c EmptyString.

Fixpoint quote_chars (s : string) : string :=
  match s with
  | EmptyString => EmptyString
  | String c s' => quote_char c +:+ quote_chars s'
  end.

(** [JSON.stringify(s)] for a string [s]. *)
Definition quote (s : string) : string :=
  String dquote (quote_chars s +:+ String dquote EmptyString).

(** [JSON.stringify(xs)] for an array of strings [xs]. *)
Definition stringify (xs : list string) : string :=
  "[" +:+ String.concat "," (quote <$> xs) +:+ "]".

Definition is_ws (c : ascii) : bool :=
  let n := N_of_ascii c in
  ((n =? 32) || (n =? 9) || (n =? 10) || (n =? 13))%N.

Fixpoint skip_ws (s : string) : string :=
  match s with
  | EmptyString => EmptyString
  | String c s' => if is_ws c then skip_ws s' else s
  end.

Definition hex_value (c : ascii) : option N :=
  let n := N_of_ascii c in
  if ((48 <=? n) && (n <=? 57))%N then Some (n - 48)%N
  else if ((97 <=? n) && (n <=? 102))%N then Some (n - 87)%N
  else if ((65 <=? n) && (n <=? 70))%N then Some (n - 55)%N
  else None.

(** The code unit of [\uXXXX]; code units above 255 are outside the
    model. *)
Definition unicode_escape (a b c d : ascii) : option ascii :=
  match hex_value a, hex_value b, hex_value c, hex_value d with
  | Some x, Some y, Some z, Some w =>
      let n := (((x * 16 + y) * 16 + z) * 16 + w)%N in
      if (n <? 256)%N then Some (ascii_of_N n) else None
  | _, _, _, _ => None
  end.

Definition single_escape (e : ascii) : option ascii :=
  let n := N_of_ascii e in
  if (n =? 34)%N then Some dquote
  else if (n =? 92)%N then Some backslash
  else if (n =? 47)%N then Some "/"%char
  else if (n =? 98)%N then Some (ascii_of_N 8)
  else if (n =? 102)%N then Some (ascii_of_N 12)
  else if (n =? 110)%N then Some (ascii_of_N 10)
  else if (n =? 114)%N then Some (ascii_of_N 13)
  else if (n =? 116)%N then Some (ascii_of_N 9)
  else None.

Definition cons_char (c : ascii) (r : option (string * string)) : option (string * string) :=
  match r with
  | Some (s, rest) => Some (String c s, rest)
  | None => None
  end.

(** The body of a string literal, after its opening quote: the decoded
    string and the text after the closing quote. *)
Fixpoint parse_chars (s : string) : option (string * string) :=
  match s with
  | EmptyString => None
  | String c s' =>
      if Ascii.eqb c dquote then Some (EmptyString, s')
      else if Ascii.eqb c backslash then
        match s' with
        | EmptyString => None
        | String e s'' =>
            if Ascii.eqb e "u" then
              match s'' with
              | String h1 (String h2 (String h3 (String h4 s4))) =>
                  match unicode_escape h1 h2 h3 h4 with
                  | Some u => cons_char u (parse_chars s4)
                  | None => None
                  end
              | _ => None
              end
            else
              match single_escape e with
              | Some u => cons_char u (parse_chars s'')
              | None => None
              end
        end
      else if (N_of_ascii c <? 32)%N then None
      else cons_char c (parse_chars s')
  end.

(** The elements after the first one, up to the closing bracket. *)
Fixpoint parse_elements (fuel : nat) (s : string) : option (list string * string) :=
  match fuel with
  | O => None
  | S fuel' =>
      match skip_ws s with
      | EmptyString => None
      | String c s' =>
          if Ascii.eqb c "]" then Some ([], s')
          else if Ascii.eqb c "," then
            match skip_ws s' with
            | EmptyString => None
            | String q s'' =>
                if Ascii.eqb q dquote then
                  match parse_chars s'' with
                  | Some (x, rest) =>
                      match parse_elements fuel' rest with
                      | Some (xs, r) => Some (x :: xs, r)
                      | None => None
                      end
                  | None => None
                  end
                else None
            end
          else None
      end
  end.

Definition at_end (r : list string * string) : option (list string) :=
  match skip_ws (snd r) with
  | EmptyString => Some (fst r)
  | String _ _ => None
  end.

(** [JSON.parse(s)] when [s] is the text of an array of strings;
    [None] stands for a SyntaxError or a value of another shape. *)
Definition parse (s : string) : option (list string) :=
  match skip_ws s with
  | EmptyString => None
  | String c s1 =>
      if Ascii.eqb c "[" then
        match skip_ws s1 with
        | EmptyString => None
        | String d s2 =>
            if Ascii.eqb d "]" then at_end ([], s2)
            else if Ascii.eqb d dquote then
              match parse_chars s2 with
              | Some (x, rest) =>
                  match parse_elements (String.length s) rest with
                  | Some (xs, r) => at_end (x :: xs, r)
                  | None => None
                  end
              | None => None
              end
            else None
        end
      else None
  end.

End Json.

(** ** Observation operations *)

(** The [observation] object handed to [storeObservation]. *)
Module ObservationFields.
Record t := mk {
  type : option string;
  title : option string;
  subtitle : option string;
  facts : option (list string);
  narrative : option string;
  concepts : option (list string);
  files_read : option (list string);
  files_modified : option (list string)
}.
End ObservationFields.

(** The six values the CHECK constraint of [observations.type] admits. *)
Definition observation_types : list string :=
  ["decision"; "bugfix"; "feature"; "refactor"; "discovery"; "change"].

Definition check_type (ty : string) : bool :=
  existsb (String.eqb ty) observation_types.

(** What the [observations_ai] trigger writes into the index. *)
Definition fts_of (o : Observation.t) : Fts.t :=
  Fts.mk (Observation.id o) (Observation.title o) (Observation.subtitle o)
    (Observation.narrative o) (Observation.facts o).

(** [INSERT INTO observations ... VALUES (...)]: the CHECK constraint on
    [type], the foreign key on [session_id] (PRAGMA foreign_keys = ON),
    then the row and, by the insert trigger, its index entry.  The
    result is [result.lastInsertRowid]. *)
Definition insert_observation (row : Z -> Observation.t) : Db Z := fun st =>
  let o := row (next_rowid (Observation.id <$> observations st)) in
  if negb (check_type (Observation.type o)) then (st, Thrown CheckConstraint)
  else match find_session (Observation.session_id o) (sessions st) with
       | None => (st, Thrown ForeignKeyConstraint)
       | Some _ =>
           (mkStore (sessions st) (observations st ++ [o])
              (observations_fts st ++ [fts_of o]) (session_summaries st)
              (sessions_seq st),
            Returned (Observation.id o))
       end.

(** [storeObservation(sessionId, project, observation, promptNumber = null,
    discoveryTokens = 0)]; the result is [{ id, createdAtEpoch }].  The
    clock is read twice: [now] by the function itself, [sessionNow] by
    the [createSession] it calls. *)
Definition storeObservation (sessionId project : string)
    (observation : ObservationFields.t) (promptNumber : option Z)
    (discoveryTokens : Z) (now sessionNow : Date) : Db (Z * Z) :=
  _ ← createSession sessionId project "" sessionNow;
  id ← insert_observation (fun id =>
         Observation.mk id sessionId project
           (Js.or_str (ObservationFields.type observation) "change")
           (Js.or_null (ObservationFields.title observation))
           (Js.or_null (ObservationFields.subtitle observation))
           (Some (Json.stringify (Js.or_empty (ObservationFields.facts observation))))
           (Js.or_null (ObservationFields.narrative observation))
           (Some (Json.stringify (Js.or_empty (ObservationFields.concepts observation))))
           (Some (Json.stringify (Js.or_empty (ObservationFields.files_read observation))))
           (Some (Json.stringify (Js.or_empty (ObservationFields.files_modified observation))))
           promptNumber discoveryTokens (toISOString now) (getTime now));
  mret (id, getTime now).

(** [ORDER BY key DESC]: SQLite leaves the order of rows with equal keys
    open; the model sorts by a merge sort. *)
Definition newer_first {A} (key : A -> Z) : relation A :=
  fun a b => key b <= key a.

#[export] Instance newer_first_dec {A} (key : A -> Z) (a b : A) :
  Decision (newer_first key a b) := Z_le_dec (key b) (key a).

Definition order_desc {A} (key : A -> Z) (l : list A) : list A :=
  merge_sort (newer_first key) l.

(** [LIMIT n]: a negative [n] means no limit. *)
Definition sql_limit {A} (n : Z) (l : list A) : list A :=
  if n <? 0 then l else take (Z.to_nat n) l.

(** [getRecentObservations(project, limit = 50)]. *)
Definition getRecentObservations (project : string) (limit : Z)
    : Db (list Observation.t) := fun st =>
  (st, Returned (sql_limit limit (order_desc Observation.created_at_epoch
     (List.filter (fun o => String.eqb (Observation.project o) project)
        (observations st))))).

(** [getObservationById(id)]: the row, or absent. *)
Definition getObservationById (id : Z) : Db (option Observation.t) := fun st =>
  (st, Returned (List.find (fun o => Observation.id o =? id) (observations st))).

(** ** Search (FTS5)

    The tokenizer and the query language of FTS5 belong to SQLite, not to
    this repository: [fts5 query] is the compiled MATCH expression, a
    predicate on index entries, or [None] when the engine rejects the
    query text. *)

Section Search.

Variable fts5 : string -> option (Fts.t -> bool).

(** [FROM observations o JOIN observations_fts fts ON o.id = fts.rowid
    WHERE observations_fts MATCH ?]. *)
Definition fts_join (matches : Fts.t -> bool) (st : Store) : list Observation.t :=
  o ← observations st;
  f ← observations_fts st;
  if (Observation.id o =? Fts.rowid f) && matches f then [o] else [].

(** [searchObservations(query, project = null, limit = 20)]. *)
Definition searchObservations (query : string) (project : option string)
    (limit : Z) : Db (list Observation.t) := fun st =>
  match fts5 query with
  | None => (st, Thrown FtsSyntax)
  | Some matches =>
      let joined := fts_join matches st in
      let scoped :=
        match project with
        | Some p =>
            if Js.truthy p
            then List.filter (fun o => String.eqb (Observation.project o) p) joined
            else joined
        | None => joined
        end in
      (st, Returned (sql_limit limit (order_desc Observation.created_at_epoch scoped)))
  end.

End Search.

(** ** Summary operations *)

(** The [summary] object handed to [storeSummary]. *)
Module SummaryFields.
Record t := mk {
  request : option string;
  investigated : option string;
  learned : option string;
  completed : option string;
  next_steps : option string;
  notes : option string
}.
End SummaryFields.

(** [INSERT INTO session_summaries ... VALUES (...)]. *)
Definition insert_summary (row : Z -> Summary.t) : Db Z := fun st =>
  let s := row (next_rowid (Summary.id <$> session_summaries st)) in
  match find_session (Summary.session_id s) (sessions st) with
  | None => (st, Thrown ForeignKeyConstraint)
  | Some _ =>
      (mkStore (sessions st) (observations st) (observations_fts st)
         (session_summaries st ++ [s]) (sessions_seq st),
       Returned (Summary.id s))
  end.

(** [storeSummary(sessionId, project, summary, promptNumber = null,
    discoveryTokens = 0)], with the two readings of the clock. *)
Definition storeSummary (sessionId project : string) (summary : SummaryFields.t)
    (promptNumber : option Z) (discoveryTokens : Z) (now sessionNow : Date)
    : Db (Z * Z) :=
  _ ← createSession sessionId project "" sessionNow;
  id ← insert_summary (fun id =>
         Summary.mk id sessionId project
           (Js.or_null (SummaryFields.request summary))
           (Js.or_null (SummaryFields.investigated summary))
           (Js.or_null (SummaryFields.learned summary))
           (Js.or_null (SummaryFields.completed summary))
           (Js.or_null (SummaryFields.next_steps summary))
           (Js.or_null (SummaryFields.notes summary))
           promptNumber discoveryTokens (toISOString now) (getTime now));
  mret (id, getTime now).

(** [getRecentSummaries(project, limit = 10)]. *)
Definition getRecentSummaries (project : string) (limit : Z)
    : Db (list Summary.t) := fun st =>
  (st, Returned (sql_limit limit (order_desc Summary.created_at_epoch
     (List.filter (fun s => String.eqb (Summary.project s) project)
        (session_summaries st))))).

(** ** The JavaScript view of a fetched row

    better-sqlite3 hands a TEXT column back as a string and NULL as
    [null]; no column comes back as an array. *)

Inductive JsValue :=
  | JsNull
  | JsNumber (n : Z)
  | JsString (s : string)
  | JsArray (xs : list string).

Definition js_text (v : option string) : JsValue :=
  match v with Some s => JsString s | None => JsNull end.

(** [Array.isArray(v)]. *)
Definition isArray (v : JsValue) : bool :=
  match v with JsArray _ => true | _ => false end.

(** ** Context generator (context-generator.js) *)

(** [parseJsonArray(str)]: [[]] for a falsy [str], for a text that does
    not parse and for a parsed value that is not an array; an array of
    strings otherwise (see [Json.parse] for the texts covered). *)
Definition parseJsonArray (str : option string) : list string :=
  if negb (Js.truthy_opt str) then []
  else match Json.parse (default EmptyString str) with
       | Some parsed => parsed
       | None => []
       end.

(** [extractFirstFile(filesJson, cwd = '')]. *)
Definition extractFirstFile (filesJson : option string) (cwd : string) : string :=
  match parseJsonArray filesJson with
  | [] => "(no file)"
  | file :: _ =>
      let file :=
        if Js.truthy cwd && Js.startsWith file cwd
        then Js.substring_from (String.length cwd + 1) file
        else file in
      if Js.truthy file then file else "(no file)"
  end.

(** The size of one observation in the context-economics block. *)
Definition length_or_0 (v : option string) : Z :=
  match v with Some s => Z.of_nat (String.length s) | None => 0 end.

Definition read_size (obs : Observation.t) : Z :=
  length_or_0 (Observation.title obs) + length_or_0 (Observation.subtitle obs) +
  length_or_0 (Observation.narrative obs) + length_or_0 (Observation.facts obs).

(** [observations.reduce((sum, obs) => sum + Math.ceil(size / 4), 0)]. *)
Definition totalReadTokens (observations : list Observation.t) : Z :=
  fold_left (fun sum obs => sum + Js.ceil_div (read_size obs) 4) observations 0.

(** [observations.reduce((sum, obs) => sum + (obs.discovery_tokens || 0), 0)]. *)
Definition totalDiscoveryTokens (observations : list Observation.t) : Z :=
  fold_left (fun sum obs => sum + Js.or_num (Some (Observation.discovery_tokens obs)) 0)
    observations 0.

Definition savings (observations : list Observation.t) : Z :=
  totalDiscoveryTokens observations - totalReadTokens observations.

(** [TYPE_ICON_MAP[type] || fallback], with the icons named rather than
    drawn. *)
Inductive Icon :=
  | RedCircle | PurpleCircle | Arrows | CheckMark | BlueCircle | Scales | Bullet.

Definition type_icon (ty : string) : Icon :=
  if String.eqb ty "bugfix" then RedCircle
  else if String.eqb ty "feature" then PurpleCircle
  else if String.eqb ty "refactor" then Arrows
  else if String.eqb ty "change" then CheckMark
  else if String.eqb ty "discovery" then BlueCircle
  else if String.eqb ty "decision" then Scales
  else Bullet.

(** The cells of a row of a day's table. *)
Record Cells := mkCells {
  cell_id : Z;
  cell_time : string;
  cell_icon : Icon;
  cell_title : string;
  cell_file : string
}.

Section Rendering.

(** [formatTime(isoString)] depends on the locale and time zone of the
    process. *)
Variable formatTime : string -> string.

Definition ditto : string := "″".

(** The body of the loop [for (const obs of dayObs)]; no second
    argument is passed to [extractFirstFile]. *)
Definition row_cells (lastTime : string) (obs : Observation.t) : Cells :=
  let time := formatTime (Observation.created_at obs) in
  mkCells (Observation.id obs)
    (if String.eqb time lastTime then ditto else time)
    (type_icon (Observation.type obs))
    (Js.or_str (Observation.title obs) "Untitled")
    (extractFirstFile (Observation.files_modified obs) "").

Fixpoint day_rows (lastTime : string) (dayObs : list Observation.t) : list Cells :=
  match dayObs with
  | [] => []
  | obs :: rest =>
      row_cells lastTime obs
        :: day_rows (formatTime (Observation.created_at obs)) rest
  end.

End Rendering.

(** ** Worker (worker-service.js) *)

(** [path.basename(p)] of POSIX Node: the last non-empty segment between
    slashes. *)
Fixpoint basename_scan (last cur p : string) : string :=
  match p with
  | EmptyString => if Js.truthy cur then cur else last
  | String c p' =>
      if Ascii.eqb c "/"
      then basename_scan (if Js.truthy cur then cur else last) EmptyString p'
      else basename_scan last (cur +:+ String c EmptyString) p'
  end.

Definition basename (p : string) : string := basename_scan EmptyString EmptyString p.

Module ToolInput.
Record t := mk {
  file_path : option string;
  target_file : option string;
  command : option string
}.
End ToolInput.

(** The queued tuple; [None] is [undefined]. *)
Module ToolUse.
Record t := mk {
  tool_name : option string;
  tool_input : option ToolInput.t
}.
End ToolUse.

(** [tool_name?.includes(t)]. *)
Definition name_includes (tool_name : option string) (t : string) : bool :=
  match tool_name with Some n => Js.includes n t | None => false end.

(** [tool_input?.field], as a truthy string or nothing. *)
Definition input_field (f : ToolInput.t -> option string) (i : option ToolInput.t)
    : option string :=
  Js.or_null (i ≫= f).

Definition skipTools : list string := ["Read"; "LS"; "Glob"].

(** [createSimpleObservation(obs)]; [None] is the [null] of a skipped
    tool. *)
Definition createSimpleObservation (obs : ToolUse.t) : option ObservationFields.t :=
  let tool_name := ToolUse.tool_name obs in
  let tool_input := ToolUse.tool_input obs in
  if existsb (name_includes tool_name) skipTools then None
  else
    let type :=
      if name_includes tool_name "Write" || name_includes tool_name "Edit"
      then "change"
      else if name_includes tool_name "Bash" then "change" else "change" in
    let files_modified :=
      match input_field ToolInput.file_path tool_input with
      | Some p => [p] | None => [] end ++
      match input_field ToolInput.target_file tool_input with
      | Some p => [p] | None => [] end in
    let title :=
      match input_field ToolInput.file_path tool_input with
      | Some p => "Modified " +:+ basename p
      | None =>
          match input_field ToolInput.command tool_input with
          | Some c => "Executed: " +:+ Js.substring_to 40 c
          | None => Js.or_str tool_name "Tool execution"
          end
      end in
    Some (ObservationFields.mk (Some type) (Some title)
            (Some ("Tool: " +:+ default "undefined" tool_name))
            (Some []) None (Some ["what-changed"]) (Some []) (Some files_modified)).

(** ** Derived definitions used by the statements *)

(** The store with its sessions table replaced. *)
Definition with_sessions (st : Store) (l : list Session.t) : Store :=
  mkStore l (observations st) (observations_fts st) (session_summaries st)
    (sessions_seq st).

(** The store with the [sqlite_sequence] entry of the sessions table
    replaced. *)
Definition with_seq (st : Store) (n : Z) : Store :=
  mkStore (sessions st) (observations st) (observations_fts st)
    (session_summaries st) n.

(** The row [INSERT OR IGNORE INTO sessions] adds for a new session id. *)
Definition new_session (st : Store) (sessionId project userPrompt : string)
    (now : Date) : Session.t :=
  Session.mk (next_session_rowid st) sessionId project
    (Some userPrompt) 0 (toISOString now) (getTime now) None None active.

(** The row-wise effect of [UPDATE sessions SET ... WHERE session_id = ?]. *)
Definition updated (f : Session.t -> Session.t) (sessionId : string)
    (l : list Session.t) : list Session.t :=
  (fun s => if String.eqb (Session.session_id s) sessionId then f s else s) <$> l.

(** The rows of a session id: the UNIQUE constraint keeps them at one. *)
Definition rows_of (sid : string) (l : list Session.t) : list Session.t :=
  List.filter (fun s => String.eqb (Session.session_id s) sid) l.

(** The row [storeObservation] binds to its INSERT. *)
Definition observation_row (st : Store) (sessionId project : string)
    (observation : ObservationFields.t) (promptNumber : option Z)
    (discoveryTokens : Z) (now : Date) : Observation.t :=
  Observation.mk (next_rowid (Observation.id <$> observations st)) sessionId project
    (Js.or_str (ObservationFields.type observation) "change")
    (Js.or_null (ObservationFields.title observation))
    (Js.or_null (ObservationFields.subtitle observation))
    (Some (Json.stringify (Js.or_empty (ObservationFields.facts observation))))
    (Js.or_null (ObservationFields.narrative observation))
    (Some (Json.stringify (Js.or_empty (ObservationFields.concepts observation))))
    (Some (Json.stringify (Js.or_empty (ObservationFields.files_read observation))))
    (Some (Json.stringify (Js.or_empty (ObservationFields.files_modified observation))))
    promptNumber discoveryTokens (toISOString now) (getTime now).

(** The row [storeSummary] binds to its INSERT. *)
Definition summary_row (st : Store) (sessionId project : string)
    (summary : SummaryFields.t) (promptNumber : option Z)
    (discoveryTokens : Z) (now : Date) : Summary.t :=
  Summary.mk (next_rowid (Summary.id <$> session_summaries st)) sessionId project
    (Js.or_null (SummaryFields.request summary))
    (Js.or_null (SummaryFields.investigated summary))
    (Js.or_null (SummaryFields.learned summary))
    (Js.or_null (SummaryFields.completed summary))
    (Js.or_null (SummaryFields.next_steps summary))
    (Js.or_null (SummaryFields.notes summary))
    promptNumber discoveryTokens (toISOString now) (getTime now).

(** The index mirrors the table, entry by entry, and no two
    observations share an id: the state the insert trigger and the
    primary key maintain. *)
Definition indexed (st : Store) : Prop :=
  observations_fts st = fts_of <$> observations st /\
  NoDup (Observation.id <$> observations st).

(** The store after a sequence of calls. *)
Definition exec {A} (m : Db A) (st : Store) : Store := fst (m st).

(** The value a call returns, [None] when it throws. *)
Definition result {A} (m : Db A) (st : Store) : option A :=
  match snd (m st) with Returned a => Some a | Thrown _ => None end.

(** The text after the first element: the other elements, each after
    a comma, and the closing bracket. *)
Fixpoint tail_text (xs : list string) : string :=
  match xs with
  | [] => "]"
  | x :: xs' => "," +:+ Json.quote x +:+ tail_text xs'
  end.

(** The estimate as the specification words it: one ceiling over the
    total size of the fetched observations. *)
Definition single_ceiling_estimate (observations : list Observation.t) : Z :=
  Js.ceil_div (foldr Z.add 0 (read_size <$> observations)) 4.

(** The estimate as a sum of one ceiling per observation. *)
Definition per_observation_estimate (observations : list Observation.t) : Z :=
  foldr Z.add 0 ((fun obs => Js.ceil_div (read_size obs) 4) <$> observations).

(** ** Data for the examples *)

(** Three readings of the clock, five seconds apart. *)
Definition clock0 : Date := mkDate "2025-01-01T00:00:00.000Z" 1735689600000.

Definition clock1 : Date := mkDate "2025-01-01T00:00:05.000Z" 1735689605000.

Definition clock2 : Date := mkDate "2025-01-01T00:00:10.000Z" 1735689610000.

(** An observation of a type the schema does not know. *)
Definition foo_observation : ObservationFields.t :=
  ObservationFields.mk (Some "foo") (Some "Fixed login bug") None None None None None None.

(** An observation with two facts. *)
Definition ab_observation : ObservationFields.t :=
  ObservationFields.mk (Some "bugfix") (Some "Fixed login bug") None
    (Some ["a"; "b"]) None None None None.

(** An observation whose text fields are empty strings. *)
Definition blank_observation : ObservationFields.t :=
  ObservationFields.mk (Some "feature") (Some EmptyString) (Some EmptyString)
    (Some ["a"]) (Some EmptyString) None None None.

(** An observation with a type and nothing else. *)
Definition bare_observation : ObservationFields.t :=
  ObservationFields.mk (Some "change") None None None None None None None.

(** An observation with a title and a narrative. *)
Definition narrated (title narrative : string) : ObservationFields.t :=
  ObservationFields.mk (Some "bugfix") (Some title) None None (Some narrative)
    None None None.

(** The summary of the specification's scenario. *)
Definition request_summary : SummaryFields.t :=
  SummaryFields.mk (Some "Fix authentication issue") None None
    (Some "Extended token lifetime") None None.

(** A project with two bare observations. *)
Definition two_bare_observations : Store :=
  exec (storeObservation "s1" "demo" bare_observation None 0 clock1 clock1)
    (exec (storeObservation "s1" "demo" bare_observation None 0 clock0 clock0) empty_store).

(** Two projects whose observations mention the same term. *)
Definition two_projects : Store :=
  exec (storeObservation "s1" "demo" (narrated "Renamed helper" "no change in behaviour")
          None 0 clock2 clock2)
    (exec (storeObservation "s2" "other" (narrated "Token refresh" "the token is refreshed")
             None 0 clock1 clock1)
       (exec (storeObservation "s1" "demo" (narrated "Fixed login bug" "extended token lifetime")
                None 0 clock0 clock0) empty_store)).

(** The observation of the specification's scenario, as fetched. *)
Definition auth_observation : Observation.t :=
  observation_row empty_store "s1" "demo"
    (ObservationFields.mk (Some "bugfix") (Some "Fixed login bug") None None None
       None None (Some ["/test/project/src/auth.js"]))
    None 0 clock0.

(** A stand-in engine for the examples: a non-empty query matches the
    index entries one of whose columns contains it. *)
Definition contains_term (q : string) (f : Fts.t) : bool :=
  existsb (fun col => match col with Some s => Js.includes s q | None => false end)
    [Fts.title f; Fts.subtitle f; Fts.narrative f; Fts.facts f].

Definition substring_engine (q : string) : option (Fts.t -> bool) :=
  if Js.truthy q then Some (contains_term q) else None.

(** [formatTime] in a process whose time zone is UTC: the hour and
    minute of the ISO text. *)
Definition utc_time (isoString : string) : string :=
  Js.substring_to 5 (Js.substring_from 11 isoString).

(** ** More of the store (database.js) *)

(** [getAllProjects()]: [SELECT DISTINCT project FROM sessions WHERE
    project IS NOT NULL AND project != '' ORDER BY project ASC], under
    SQLite's BINARY collation. *)
Definition getAllProjects : Db (list string) := fun st =>
  (st, Returned (merge_sort String.le
     (remove_dups (List.filter Js.truthy (Session.project <$> sessions st))))).

(** [getContextData(project, observationLimit = 50, summaryLimit = 10)]. *)
Definition getContextData (project : string) (observationLimit summaryLimit : Z)
    : Db (list Observation.t * list Summary.t) :=
  observations ← getRecentObservations project observationLimit;
  summaries ← getRecentSummaries project summaryLimit;
  mret (observations, summaries).

(** [n] calls of [incrementPromptCounter] in a row, with what each
    returned. *)
Fixpoint increments (n : nat) (sessionId : string) : Db (list Z) :=
  match n with
  | O => mret []
  | S n' =>
      v ← incrementPromptCounter sessionId;
      vs ← increments n' sessionId;
      mret (v :: vs)
  end.

(** The writing calls of the store, and a history of them from the
    empty database. *)
Inductive Call :=
  | CreateSession (sessionId project userPrompt : string) (now : Date)
  | IncrementPromptCounter (sessionId : string)
  | MarkSessionCompleted (sessionId : string) (now : Date)
  | StoreObservation (sessionId project : string) (observation : ObservationFields.t)
      (promptNumber : option Z) (discoveryTokens : Z) (now sessionNow : Date)
  | StoreSummary (sessionId project : string) (summary : SummaryFields.t)
      (promptNumber : option Z) (discoveryTokens : Z) (now sessionNow : Date).

Definition call (c : Call) (st : Store) : Store :=
  match c with
  | CreateSession sid p u now => exec (createSession sid p u now) st
  | IncrementPromptCounter sid => exec (incrementPromptCounter sid) st
  | MarkSessionCompleted sid now => exec (markSessionCompleted sid now) st
  | StoreObservation sid p o pn dt now snow =>
      exec (storeObservation sid p o pn dt now snow) st
  | StoreSummary sid p s pn dt now snow =>
      exec (storeSummary sid p s pn dt now snow) st
  end.

Definition history (cs : list Call) : Store :=
  foldl (fun st c => call c st) empty_store cs.

(** The calls that build [two_projects]. *)
Definition two_projects_calls : list Call :=
  [StoreObservation "s1" "demo" (narrated "Fixed login bug" "extended token lifetime")
     None 0 clock0 clock0;
   StoreObservation "s2" "other" (narrated "Token refresh" "the token is refreshed")
     None 0 clock1 clock1;
   StoreObservation "s1" "demo" (narrated "Renamed helper" "no change in behaviour")
     None 0 clock2 clock2].

(** The session a call is about. *)
Definition session_of (c : Call) : string :=
  match c with
  | CreateSession sid _ _ _ => sid
  | IncrementPromptCounter sid => sid
  | MarkSessionCompleted sid _ => sid
  | StoreObservation sid _ _ _ _ _ _ => sid
  | StoreSummary sid _ _ _ _ _ _ => sid
  end.

(** A session is active with no completion time, or completed with
    one. *)
Definition session_sound (s : Session.t) : Prop :=
  0 <= Session.prompt_counter s /\
  match Session.status s with
  | active => Session.completed_at s = None /\ Session.completed_at_epoch s = None
  | completed => is_Some (Session.completed_at s) /\ is_Some (Session.completed_at_epoch s)
  | failed => False
  end.

(** What the schema's constraints promise of a database. *)
Record consistent (st : Store) : Prop := mkConsistent {
  unique_session_ids : NoDup (Session.session_id <$> sessions st);
  unique_session_rowids : NoDup (Session.id <$> sessions st);
  index_in_sync : indexed st;
  unique_summary_rowids : NoDup (Summary.id <$> session_summaries st);
  observations_owned : forall o, o ∈ observations st ->
    is_Some (find_session (Observation.session_id o) (sessions st)) /\
    Observation.type o ∈ observation_types;
  summaries_owned : forall s, s ∈ session_summaries st ->
    is_Some (find_session (Summary.session_id s) (sessions st));
  sessions_sound : forall s, s ∈ sessions st -> session_sound s
}.

(** ** The whole digest (context-generator.js, [generateContext])

    The locale is a parameter: [formatDate] and [formatTime] format an
    ISO time, [dateValue] is the number [new Date(iso)] stands for in a
    subtraction, [toLocaleString] writes an integer with its grouping,
    and [roundPercent savings total] is
    [Math.round((savings / total) * 100)].  The icons and marks are the
    UTF-8 text of the source; nothing measures their length. *)

Module Text.

Definition newline : string := String (ascii_of_N 10) EmptyString.

(** [lines.join('\n')]. *)
Definition join_lines (lines : list string) : string := String.concat newline lines.

(** White space and line terminators among the code units below 256. *)
Definition is_space (c : ascii) : bool :=
  let n := N_of_ascii c in
  ((n =? 9) || (n =? 10) || (n =? 11) || (n =? 12) || (n =? 13) || (n =? 32)
   || (n =? 160))%N.

(** [s.trimEnd()]. *)
Fixpoint trimEnd (s : string) : string :=
  match s with
  | EmptyString => EmptyString
  | String c s' =>
      match trimEnd s' with
      | EmptyString => if is_space c then EmptyString else String c EmptyString
      | String d t => String c (String d t)
      end
  end.

(** [s.trimStart()]. *)
Fixpoint trimStart (s : string) : string :=
  match s with
  | EmptyString => EmptyString
  | String c s' => if is_space c then trimStart s' else s
  end.

(** [s.trim()]. *)
Definition trim (s : string) : string := trimEnd (trimStart s).

(** [array.sort(compare)]: the sort is stable, and [x] goes before [y]
    when [compare(x, y) < 0]. *)
Fixpoint sort_insert {A} (compare : A -> A -> Z) (x : A) (sorted : list A) : list A :=
  match sorted with
  | [] => [x]
  | y :: rest =>
      if compare x y <? 0 then x :: y :: rest
      else y :: sort_insert compare x rest
  end.

Definition sort {A} (compare : A -> A -> Z) (l : list A) : list A :=
  foldl (fun sorted x => sort_insert compare x sorted) [] l.

End Text.

(** The text of an icon, [TYPE_ICON_MAP] and its fallback. *)
Definition icon_text (i : Icon) : string :=
  match i with
  | RedCircle => "🔴"
  | PurpleCircle => "🟣"
  | Arrows => "🔄"
  | CheckMark => "✅"
  | BlueCircle => "🔵"
  | Scales => "⚖️"
  | Bullet => "•"
  end.

(** [observationsByDay]: a Map from the day label to the observations of
    that day, in insertion order. *)
Fixpoint day_insert (day : string) (obs : Observation.t)
    (days : list (string * list Observation.t)) : list (string * list Observation.t) :=
  match days with
  | [] => [(day, [obs])]
  | (d, l) :: rest =>
      if String.eqb d day then (d, l ++ [obs]) :: rest
      else (d, l) :: day_insert day obs rest
  end.

Section Digest.

Variable formatDate : string -> string.
Variable formatTime : string -> string.
Variable dateValue : string -> Z.
Variable toLocaleString : Z -> string.
Variable roundPercent : Z -> Z -> Z.

Definition observationsByDay (observations : list Observation.t)
    : list (string * list Observation.t) :=
  foldl (fun days obs => day_insert (formatDate (Observation.created_at obs)) obs days)
    [] observations.

(** [new Date(entry[1][0].created_at)]; no day of the Map is empty. *)
Definition first_date (entry : string * list Observation.t) : Z :=
  match snd entry with
  | obs :: _ => dateValue (Observation.created_at obs)
  | [] => 0
  end.

(** [sortedDays], each day with its observations sorted oldest first. *)
Definition sortedDays (observations : list Observation.t)
    : list (string * list Observation.t) :=
  (fun entry =>
     (fst entry,
      Text.sort (fun a b => Observation.created_at_epoch a - Observation.created_at_epoch b)
        (snd entry)))
  <$> Text.sort (fun a b => first_date b - first_date a) (observationsByDay observations).

(** One row of a table. *)
Definition row_line (c : Cells) : string :=
  "| #" +:+ pretty (cell_id c) +:+ " | " +:+ cell_time c +:+ " | " +:+
  icon_text (cell_icon c) +:+ " | " +:+ cell_title c +:+ " | " +:+ cell_file c +:+ " |".

(** The lines of one day. *)
Definition day_lines (entry : string * list Observation.t) : list string :=
  ["### " +:+ fst entry; ""; "| ID | Time | T | Title | File |";
   "|----|------|---|-------|------|"]
  ++ (row_line <$> day_rows formatTime "" (snd entry)) ++ [""].

(** The context-economics block. *)
Definition economics_lines (observations : list Observation.t) : list string :=
  ["📊 **Context Economics**:";
   "- Loading: " +:+ pretty (Z.of_nat (length observations)) +:+ " observations (~"
     +:+ toLocaleString (totalReadTokens observations) +:+ " tokens to read)";
   "- Work investment: ~" +:+ toLocaleString (totalDiscoveryTokens observations)
     +:+ " tokens spent on research, building, and decisions"]
  ++ (if 0 <? savings observations
      then ["- Your savings: ~" +:+ toLocaleString (savings observations) +:+ " tokens ("
              +:+ pretty (if 0 <? totalDiscoveryTokens observations
                          then roundPercent (savings observations)
                                 (totalDiscoveryTokens observations)
                          else 0)
              +:+ "% reduction from reuse)"]
      else [])
  ++ [""].

(** The block of the most recent summary. *)
Definition field_line (label : string) (v : option string) : list string :=
  match Js.or_null v with
  | Some text => ["- **" +:+ label +:+ ":** " +:+ text]
  | None => []
  end.

Definition summary_lines (summaries : list Summary.t) : list string :=
  match summaries with
  | [] => []
  | mostRecent :: _ =>
      ["---"; ""; "**📋 Last Session Summary**"; ""]
      ++ field_line "Request" (Summary.request mostRecent)
      ++ field_line "Completed" (Summary.completed mostRecent)
      ++ field_line "Next Steps" (Summary.next_steps mostRecent)
      ++ [""]
  end.

(** [Math.round(n / 1000)] for [0 <= n]. *)
Definition round_thousands (n : Z) : Z := (n + 500) / 1000.

(** The footer. *)
Definition footer_lines (observations : list Observation.t) : list string :=
  if (0 <? totalDiscoveryTokens observations) && (0 <? savings observations)
  then ["💰 Access " +:+ pretty (round_thousands (totalDiscoveryTokens observations))
          +:+ "k tokens of past research & decisions for just ~"
          +:+ toLocaleString (totalReadTokens observations)
          +:+ "t. Use the mem-search skill to access memories by ID."]
  else [].

Definition header_lines (project : string) : list string :=
  ["# [" +:+ project +:+ "] recent context"; "";
   "**Legend:** 🎯 session-request | 🔴 bugfix | 🟣 feature | 🔄 refactor | ✅ change | 🔵 discovery | ⚖️ decision";
   "";
   "💡 **Context Index:** This semantic index (titles, types, files, tokens) is usually sufficient to understand past work.";
   "";
   "When you need implementation details, rationale, or debugging context:";
   "- Use the mem-search skill to fetch full observations on-demand";
   "- Critical types (🔴 bugfix, ⚖️ decision) often need detailed fetching";
   "- Trust this index over re-reading code for past decisions and learnings";
   ""].

(** The [output] array when something was fetched. *)
Definition output_lines (project : string) (observations : list Observation.t)
    (summaries : list Summary.t) : list string :=
  header_lines project ++ economics_lines observations
  ++ (sortedDays observations ≫= day_lines)
  ++ summary_lines summaries ++ footer_lines observations.

Definition empty_state (project : string) : string :=
  "# [" +:+ project +:+ "] recent context" +:+ Text.newline +:+ Text.newline
  +:+ "No previous sessions found for this project yet.".

(** [generateContext(project)], with the [CONTEXT_OBSERVATIONS] setting
    as [parseInt] read it ([None] for NaN). *)
Definition generateContext (project : string) (CONTEXT_OBSERVATIONS : option Z)
    : Db string :=
  observations ← getRecentObservations project (Js.or_num CONTEXT_OBSERVATIONS 50);
  summaries ← getRecentSummaries project 10;
  mret (match observations, summaries with
        | [], [] => empty_state project
        | _, _ =>
            Text.trimEnd (Text.join_lines (output_lines project observations summaries))
        end).

End Digest.

(** The times a day's table shows, read back: a ditto mark stands for
    the time of the row above. *)
Fixpoint read_times (lastTime : string) (shown : list string) : list string :=
  match shown with
  | [] => []
  | t :: rest =>
      let time := if String.eqb t ditto then lastTime else t in
      time :: read_times time rest
  end.

(** The summary used by the examples as a stored row. *)
Definition empty_summary : SummaryFields.t :=
  SummaryFields.mk (Some EmptyString) None None (Some EmptyString) None None.

(** Ascending order by a key, the order [array.sort((a, b) => key(a) -
    key(b))] produces. *)
Definition ascending {A} (key : A -> Z) : relation A := fun a b => key a <= key b.

(** What the Map of days holds, as an invariant of the loop that fills
    it: distinct labels, no empty day, every observation under its own
    label. *)
Definition days_ok (formatDate : string -> string)
    (days : list (string * list Observation.t)) : Prop :=
  NoDup (fst <$> days) /\
  forall d l, (d, l) ∈ days ->
    l <> [] /\ forall o, o ∈ l -> formatDate (Observation.created_at o) = d.

(** Three observations of one day, the first two in the same minute. *)
Definition minute_apart : list Observation.t :=
  [observation_row empty_store "s1" "demo" bare_observation None 0 clock0;
   observation_row empty_store "s1" "demo" bare_observation None 0 clock1;
   observation_row empty_store "s1" "demo" bare_observation None 0
     (mkDate "2025-01-01T00:01:00.000Z" 1735689660000)].

(** [formatDate] read off the ISO text: its first ten code units. *)
Definition iso_day (isoString : string) : string := Js.substring_to 10 isoString.

(** What [getRecentObservations("demo", 50)] fetches from the two
    projects, and the newest of it. *)
Definition demo_fetched : list Observation.t :=
  Eval vm_compute in
    default [] (result (getRecentObservations "demo" 50) two_projects).

Definition demo_newest : Observation.t :=
  Eval vm_compute in
    List.hd (observation_row empty_store "s1" "demo" bare_observation None 0 clock0)
      demo_fetched.

(** ** The worker (worker-service.js)

    The worker holds the database, the [user_prompts] table that only
    it writes, and the in-memory queue of observations per session.
    Logging is left out, and so is [tool_response], a payload nothing
    reads. *)

Module UserPrompt.
Record t := mk {
  id : Z;
  session_id : string;
  prompt_number : Z;
  prompt_text : string;
  created_at : string;
  created_at_epoch : Z
}.
End UserPrompt.

(** An entry of [pendingObservations]. *)
Module Queued.
Record t := mk {
  tool : ToolUse.t;
  cwd : option string;
  timestamp : Z
}.
End Queued.

Record Worker := mkWorker {
  database : Store;
  user_prompts : list UserPrompt.t;
  pendingObservations : gmap string (list Queued.t)
}.

Definition new_worker : Worker := mkWorker empty_store [] ∅.

(** What a route answers. *)
Inductive Response :=
  | InitOk (dbId : option Z) (promptNumber : Z)   (* { success, dbId, promptNumber } *)
  | QueuedOk                                      (* { success: true, queued: true } *)
  | SuccessOk                                     (* { success: true } *)
  | SearchOk (results : list Observation.t) (count : nat)
  | BadRequest (error : string)                   (* status 400 *)
  | NotFound (error : string)                     (* status 404 *)
  | ServerError (e : SqlError).                   (* status 500, from the catch *)

(** A step of a route: the worker's state survives a thrown error. *)
Definition Route (A : Type) : Type := Worker -> Worker * Outcome A.

#[export] Instance route_ret : MRet Route := fun A a w => (w, Returned a).

#[export] Instance route_bind : MBind Route := fun A B k m w =>
  match m w with
  | (w', Returned a) => k a w'
  | (w', Thrown e) => (w', Thrown e)
  end.

(** A call of the store from a route. *)
Definition on_db {A} (m : Db A) : Route A := fun w =>
  let '(st, out) := m (database w) in
  (mkWorker st (user_prompts w) (pendingObservations w), out).

(** [try { ... } catch (error) { res.status(500) ... }]. *)
Definition respond (m : Route Response) (w : Worker) : Worker * Response :=
  match m w with
  | (w', Returned r) => (w', r)
  | (w', Thrown e) => (w', ServerError e)
  end.

(** [saveUserPrompt(sessionId, promptNumber, promptText)] (database.js):
    the INSERT with its foreign key on [session_id]. *)
Definition saveUserPrompt (sessionId : string) (promptNumber : Z) (promptText : string)
    (now : Date) : Route Z := fun w =>
  match find_session sessionId (sessions (database w)) with
  | None => (w, Thrown ForeignKeyConstraint)
  | Some _ =>
      let id := next_rowid (UserPrompt.id <$> user_prompts w) in
      (mkWorker (database w)
         (user_prompts w ++
            [UserPrompt.mk id sessionId promptNumber promptText
               (toISOString now) (getTime now)])
         (pendingObservations w),
       Returned id)
  end.

(** [if (!pendingObservations.has(id)) pendingObservations.set(id, [])]. *)
Definition ensure_queue (sessionId : string) : Route unit := fun w =>
  (mkWorker (database w) (user_prompts w)
     (match pendingObservations w !! sessionId with
      | Some _ => pendingObservations w
      | None => <[sessionId := []]> (pendingObservations w)
      end),
   Returned tt).

(** [pendingObservations.get(id).push(observation)], after
    [ensure_queue]. *)
Definition enqueue (sessionId : string) (observation : Queued.t) : Route unit := fun w =>
  (mkWorker (database w) (user_prompts w)
     (<[sessionId := default [] (pendingObservations w !! sessionId) ++ [observation]]>
        (pendingObservations w)),
   Returned tt).

(** [cwd ? path.basename(cwd) : 'unknown-project']. *)
Definition project_of_cwd (cwd : option string) : string :=
  match Js.or_null cwd with
  | Some dir => basename dir
  | None => "unknown-project"
  end.

(** [s.split('\n')[0]]. *)
Fixpoint first_line (s : string) : string :=
  match s with
  | EmptyString => EmptyString
  | String c s' =>
      if (N_of_ascii c =? 10)%N then EmptyString else String c (first_line s')
  end.

(** [createSimpleSummary(assistantMessage, userMessage)]; [None] is the
    [null] of an absent or empty assistant message. *)
Definition createSimpleSummary (assistantMessage userMessage : option string)
    : option SummaryFields.t :=
  match Js.or_null assistantMessage with
  | None => None
  | Some assistant =>
      let firstLine :=
        Js.substring_to 100 (first_line (Js.or_str userMessage assistant)) in
      Some (SummaryFields.mk (Some firstLine) None None
              (Some (Js.substring_to 200 assistant)) None None)
  end.

(** [processObservation(sessionId, project, obs, promptNumber)]: its
    own [try]/[catch] swallows what the store throws. *)
Definition processObservation (sessionId project : string) (obs : ToolUse.t)
    (promptNumber : Z) (now sessionNow : Date) : Route unit := fun w =>
  match createSimpleObservation obs with
  | None => (w, Returned tt)
  | Some observation =>
      let '(w', _) :=
        on_db (storeObservation sessionId project observation (Some promptNumber) 0
                 now sessionNow) w in
      (w', Returned tt)
  end.

(** [POST /api/sessions/init]. *)
Definition init_route (sessionId project userPrompt : option string)
    (now promptNow : Date) : Worker -> Worker * Response :=
  respond (
    match Js.or_null sessionId, Js.or_null project with
    | Some sid, Some proj =>
        dbId ← on_db (createSession sid proj (Js.or_str userPrompt "") now);
        promptNumber ← on_db (incrementPromptCounter sid);
        _ ← match Js.or_null userPrompt with
            | Some text => _ ← saveUserPrompt sid promptNumber text promptNow; mret tt
            | None => mret tt
            end;
        _ ← ensure_queue sid;
        mret (InitOk dbId promptNumber)
    | _, _ => mret (BadRequest "sessionId and project are required")
    end).

(** [POST /api/sessions/observations].  The clock is read when the
    session is created ([createNow]), for the queue entry
    ([timestamp]), and twice by [storeObservation]. *)
Definition observations_route (claudeSessionId : option string) (obs : ToolUse.t)
    (cwd : option string) (createNow : Date) (timestamp : Z) (now sessionNow : Date)
    : Worker -> Worker * Response :=
  respond (
    match Js.or_null claudeSessionId with
    | None => mret (BadRequest "claudeSessionId is required")
    | Some sid =>
        session ← on_db (getSession sid);
        _ ← match session with
            | Some _ => mret None
            | None => on_db (createSession sid (project_of_cwd cwd) "" createNow)
            end;
        let project :=
          Js.or_str (Session.project <$> session) (project_of_cwd cwd) in
        let promptNumber := Js.or_num (Session.prompt_counter <$> session) 1 in
        _ ← ensure_queue sid;
        _ ← enqueue sid (Queued.mk obs cwd timestamp);
        _ ← processObservation sid project obs promptNumber now sessionNow;
        mret QueuedOk
    end).

(** [POST /api/sessions/summarize]. *)
Definition summarize_route (claudeSessionId last_user_message
    last_assistant_message : option string) (now sessionNow completedNow : Date)
    : Worker -> Worker * Response :=
  respond (
    match Js.or_null claudeSessionId with
    | None => mret (BadRequest "claudeSessionId is required")
    | Some sid =>
        session ← on_db (getSession sid);
        match session with
        | None => mret (NotFound "Session not found")
        | Some s =>
            _ ← match createSimpleSummary last_assistant_message last_user_message with
                | Some summary =>
                    _ ← on_db (storeSummary sid (Session.project s) summary
                                 (Some (Session.prompt_counter s)) 0 now sessionNow);
                    mret tt
                | None => mret tt
                end;
            _ ← on_db (markSessionCompleted sid completedNow);
            mret SuccessOk
        end
    end).

(** [GET /api/search], with [limit] as [parseInt] read it. *)
Definition search_route (fts5 : string -> option (Fts.t -> bool))
    (q project : option string) (limit : option Z) : Worker -> Worker * Response :=
  respond (
    match Js.or_null q with
    | None => mret (BadRequest "Query parameter q is required")
    | Some query =>
        results ← on_db (searchObservations fts5 query project (Js.or_num limit 20));
        mret (SearchOk results (length results))
    end).

(** The requests that write, and the worker after a sequence of them
    from a fresh start. *)
Inductive Request :=
  | Init (sessionId project userPrompt : option string) (now promptNow : Date)
  | Observe (claudeSessionId : option string) (obs : ToolUse.t) (cwd : option string)
      (createNow : Date) (timestamp : Z) (now sessionNow : Date)
  | Summarize (claudeSessionId last_user_message last_assistant_message : option string)
      (now sessionNow completedNow : Date).

Definition serve (r : Request) (w : Worker) : Worker :=
  match r with
  | Init sid p u now pnow => fst (init_route sid p u now pnow w)
  | Observe sid obs cwd cnow ts now snow =>
      fst (observations_route sid obs cwd cnow ts now snow w)
  | Summarize sid u a now snow cnow => fst (summarize_route sid u a now snow cnow w)
  end.

Definition served (rs : list Request) : Worker :=
  foldl (fun w r => serve r w) new_worker rs.

(** The queue of a session after [ensure_queue]. *)
Definition ensured (sid : string) (q : gmap string (list Queued.t))
    : gmap string (list Queued.t) :=
  match q !! sid with Some _ => q | None => <[sid := []]> q end.

(** What holds of a worker however it got there: the database keeps
    its constraints, every logged prompt and every queue belongs to a
    session, and every stored observation is a fallback one. *)
Record worker_sound (w : Worker) : Prop := mkWorkerSound {
  database_consistent : consistent (database w);
  prompts_owned : forall p, p ∈ user_prompts w ->
    is_Some (find_session (UserPrompt.session_id p) (sessions (database w))) /\
    UserPrompt.prompt_text p <> EmptyString /\ 0 < UserPrompt.prompt_number p;
  unique_prompt_rowids : NoDup (UserPrompt.id <$> user_prompts w);
  queues_owned : forall sid, is_Some (pendingObservations w !! sid) ->
    is_Some (find_session sid (sessions (database w)));
  observations_simple : forall o, o ∈ observations (database w) ->
    Observation.type o = "change" /\
    exists n, Observation.prompt_number o = Some n /\ 0 < n
}.

(** A worker after one init request, and the session it holds. *)
Definition started_worker : Worker :=
  fst (init_route (Some "s1") (Some "demo") (Some "Fix the login bug") clock0 clock0
         new_worker).

Definition started_session : Session.t :=
  Session.mk 1 "s1" "demo" (Some "Fix the login bug") 1
    (toISOString clock0) (getTime clock0) None None active.

(** The tool uses posted for a session, oldest first: the requests to
    the observations route that name it. *)
Definition posted (x : string) (rs : list Request) : list Queued.t :=
  omap (fun r =>
          match r with
          | Observe sid obs cwd _ ts _ _ =>
              if decide (Js.or_null sid = Some x)
              then Some (Queued.mk obs cwd ts) else None
          | _ => None
          end) rs.

(** Whether a queued tool use gives an observation. *)
Definition kept (q : Queued.t) : bool :=
  match createSimpleObservation (Queued.tool q) with Some _ => true | None => false end.

(** The observation rows of a session. *)
Definition rows_for (x : string) (st : Store) : list Observation.t :=
  List.filter (fun o => String.eqb (Observation.session_id o) x) (observations st).

(** ** The response parser (sdk/parser.js)

    The regular expressions of the source are literal tags around a
    lazy [[\s\S]*?] (or [.*?] with the [s] flag) or around a run of
    characters other than [<]; each is embedded as the scan that finds
    its leftmost match.  A loop on a global expression goes on from the
    end of the last match; its fuel is the length of the text, which
    every match shortens. *)

Module Parser.

Definition lt : ascii := Eval cbv in ascii_of_N 60.

(** The leftmost occurrence of [tag] in [s]: the text before it and the
    text after it. *)
Fixpoint find (tag s : string) {struct s} : option (string * string) :=
  if Js.startsWith s tag
  then Some (EmptyString, Js.substring_from (String.length tag) s)
  else
    match s with
    | EmptyString => None
    | String c s' =>
        match find tag s' with
        | Some (before, after) => Some (String c before, after)
        | None => None
        end
    end.

(** The leftmost match of [open], a lazy run of any characters and
    [close] in [s]: the run and the text after the match. *)
Definition lazy_block (open close s : string) : option (string * string) :=
  match find open s with
  | Some (_, after) => find close after
  | None => None
  end.

(** The longest run of characters other than [<] at the start of [s],
    and the rest. *)
Fixpoint run (s : string) : string * string :=
  match s with
  | EmptyString => (EmptyString, EmptyString)
  | String c s' =>
      if Ascii.eqb c lt then (EmptyString, s)
      else let '(body, rest) := run s' in (String c body, rest)
  end.

(** [open], a run of characters other than [<] (of at least [least]
    characters) and [close], matched at the start of [s]: the run and
    the text after the match. *)
Definition element_here (open close : string) (least : nat) (s : string)
    : option (string * string) :=
  if Js.startsWith s open then
    let '(body, rest) := run (Js.substring_from (String.length open) s) in
    if Js.startsWith rest close && (least <=? String.length body)%nat
    then Some (body, Js.substring_from (String.length close) rest)
    else None
  else None.

(** Its leftmost match in [s]. *)
Fixpoint element (open close : string) (least : nat) (s : string) {struct s}
    : option (string * string) :=
  match element_here open close least s with
  | Some r => Some r
  | None =>
      match s with
      | EmptyString => None
      | String _ s' => element open close least s'
      end
  end.

Definition tag (name : string) : string := "<" +:+ name +:+ ">".
Definition end_tag (name : string) : string := "</" +:+ name +:+ ">".

(** The names the parser builds its expressions from: [extractField]
    and [extractArrayElements] are private to the module and called
    with these names only, by [parseObservations] and [parseSummary].
    None holds a character with a meaning in a regular expression, so
    the expression built from a name matches the name letter by
    letter. *)
Module Name.
Inductive t :=
  | type | title | subtitle | narrative
  | request | investigated | learned | completed | next_steps | notes
  | facts | fact | concepts | concept | files_read | files_modified | file.

Definition text (n : t) : string :=
  match n with
  | type => "type" | title => "title" | subtitle => "subtitle"
  | narrative => "narrative" | request => "request"
  | investigated => "investigated" | learned => "learned"
  | completed => "completed" | next_steps => "next_steps" | notes => "notes"
  | facts => "facts" | fact => "fact" | concepts => "concepts"
  | concept => "concept" | files_read => "files_read"
  | files_modified => "files_modified" | file => "file"
  end.
End Name.

(** [extractField(content, fieldName)]. *)
Definition extractField (content : string) (fieldName : Name.t) : option string :=
  match element (tag (Name.text fieldName)) (end_tag (Name.text fieldName)) 0
          content with
  | None => None
  | Some (body, _) =>
      let trimmed := Text.trim body in
      if String.eqb trimmed EmptyString then None else Some trimmed
  end.

(** The loop on [elementRegex.exec(arrayContent)]. *)
Fixpoint elements (fuel : nat) (elementName : Name.t) (s : string) : list string :=
  match fuel with
  | O => []
  | S fuel' =>
      match element (tag (Name.text elementName)) (end_tag (Name.text elementName))
              1 s with
      | Some (body, rest) => Text.trim body :: elements fuel' elementName rest
      | None => []
      end
  end.

(** [extractArrayElements(content, arrayName, elementName)]. *)
Definition extractArrayElements (content : string) (arrayName elementName : Name.t)
    : list string :=
  match lazy_block (tag (Name.text arrayName)) (end_tag (Name.text arrayName))
          content with
  | None => []
  | Some (arrayContent, _) =>
      elements (String.length arrayContent) elementName arrayContent
  end.

Definition validTypes : list string :=
  ["bugfix"; "feature"; "refactor"; "change"; "discovery"; "decision"].

(** [array.includes(x)] on strings. *)
Definition includes (l : list string) (x : string) : bool := existsb (String.eqb x) l.

(** The body of the loop of [parseObservations]: the observation of one
    block. *)
Definition parseObservation (content : string) : ObservationFields.t :=
  let type := extractField content Name.type in
  let title := extractField content Name.title in
  let subtitle := extractField content Name.subtitle in
  let narrative := extractField content Name.narrative in
  let facts := extractArrayElements content Name.facts Name.fact in
  let concepts := extractArrayElements content Name.concepts Name.concept in
  let files_read := extractArrayElements content Name.files_read Name.file in
  let files_modified := extractArrayElements content Name.files_modified Name.file in
  let finalType :=
    match Js.or_null type with
    | Some t => if includes validTypes (Text.trim t) then Text.trim t else "change"
    | None => "change"
    end in
  ObservationFields.mk (Some finalType) title subtitle (Some facts) narrative
    (Some concepts) (Some files_read) (Some files_modified).

(** The loop on [observationRegex.exec(text)]: the captured texts. *)
Fixpoint observation_blocks (fuel : nat) (text : string) : list string :=
  match fuel with
  | O => []
  | S fuel' =>
      match lazy_block "<observation>" "</observation>" text with
      | Some (content, rest) => content :: observation_blocks fuel' rest
      | None => []
      end
  end.

(** [parseObservations(text)]. *)
Definition parseObservations (text : string) : list ObservationFields.t :=
  parseObservation <$> observation_blocks (String.length text) text.

End Parser.

(** A response with two blocks, the first with a type outside the
    enumeration. *)
Definition two_blocks : string :=
  "Noted. <observation><type>hotfix</type><title> Fixed login </title>"
  +:+ "<facts><fact>tokens expire</fact><fact> </fact></facts></observation>"
  +:+ "<observation><type> bugfix </type><title></title></observation>".

(** * Properties *)

#[local] Arguments String.append !_ _ / : simpl nomatch.

(** ** Strings *)

Section StringFacts.

Lemma app_assoc_s (a b c : string) : (a +:+ b) +:+ c = a +:+ b +:+ c.
Proof.
  induction a as [|x a IH]; [reflexivity|].
  cbn [String.append]. now rewrite IH.
Qed.

Lemma app_empty_r (a : string) : a +:+ EmptyString = a.
Proof.
  induction a as [|x a IH]; [reflexivity|].
  cbn [String.append]. now rewrite IH.
Qed.

Lemma length_app_s (a b : string) :
  String.length (a +:+ b) = (String.length a + String.length b)%nat.
Proof.
  induction a as [|x a IH]; [reflexivity|].
  cbn [String.append String.length]. now rewrite IH.
Qed.

Lemma truthy_true (s : string) : Js.truthy s = true <-> s <> EmptyString.
Proof. destruct s; simpl; split; intros; congruence. Qed.

Lemma truthy_false (s : string) : Js.truthy s = false <-> s = EmptyString.
Proof. destruct s; simpl; split; intros; congruence. Qed.

Lemma startsWith_app (p r : string) : Js.startsWith (p +:+ r) p = true.
Proof.
  induction p as [|x p IH]; simpl; [reflexivity|].
  now rewrite Ascii.eqb_refl.
Qed.

Lemma startsWith_spec (s p : string) :
  Js.startsWith s p = true <-> exists r, s = p +:+ r.
Proof.
  split.
  - revert s. induction p as [|x p IH]; intros s H.
    + now exists s.
    + destruct s as [|y s]; simpl in H; [discriminate|].
      destruct (Ascii.eqb_spec x y) as [->|]; [|discriminate].
      destruct (IH _ H) as [r ->]. now exists r.
  - intros [r ->]. apply startsWith_app.
Qed.

Lemma includes_spec (s t : string) :
  Js.includes s t = true <-> exists a b, s = a +:+ t +:+ b.
Proof.
  split.
  - induction s as [|x s IH]; simpl; intros H.
    + apply orb_true_iff in H as [H|H]; [|discriminate].
      apply startsWith_spec in H as [r Hr]. now exists EmptyString, r.
    + apply orb_true_iff in H as [H|H].
      * apply startsWith_spec in H as [r Hr]. now exists EmptyString, r.
      * destruct (IH H) as (a & b & ->). now exists (String x a), b.
  - intros (a & b & ->). induction a as [|x a IH]; simpl.
    + pose proof (startsWith_app t b) as H.
      destruct (t +:+ b); simpl; now rewrite H.
    + rewrite IH. apply orb_true_r.
Qed.

Lemma substring_from_app (a b : string) :
  Js.substring_from (String.length a) (a +:+ b) = b.
Proof. induction a as [|x a IH]; simpl; [now destruct b | exact IH]. Qed.

Lemma substring_split (n : nat) (s : string) :
  s = Js.substring_to n s +:+ Js.substring_from n s.
Proof.
  revert s. induction n as [|n IH]; intros [|x s]; simpl; try reflexivity.
  now rewrite <- IH.
Qed.

Lemma length_substring_to (n : nat) (s : string) :
  String.length (Js.substring_to n s) = Nat.min n (String.length s).
Proof.
  revert s. induction n as [|n IH]; intros [|x s]; simpl; try reflexivity.
  now rewrite IH.
Qed.

End StringFacts.

(** ** JSON: what [stringify] writes, [parse] reads back *)

Section JsonRoundTrip.

Import Json.

Lemma parse_quote_char (c : ascii) (s : string) :
  parse_chars (quote_char c +:+ s) = cons_char c (parse_chars s).
Proof.
  destruct c as [[] [] [] [] [] [] [] []]; reflexivity.
Qed.

Lemma parse_quote_chars (s rest : string) :
  parse_chars (quote_chars s +:+ String dquote rest) = Some (s, rest).
Proof.
  induction s as [|c s IH]; [reflexivity|].
  cbn [quote_chars].
  now rewrite app_assoc_s, parse_quote_char, IH.
Qed.

Lemma parse_quote (x rest : string) :
  parse_chars (quote_chars x +:+ String dquote EmptyString +:+ rest) = Some (x, rest).
Proof. apply parse_quote_chars. Qed.

Lemma concat_tail (x : string) (xs : list string) :
  String.concat "," (quote <$> (x :: xs)) +:+ "]" = quote x +:+ tail_text xs.
Proof.
  revert x. induction xs as [|y xs IH]; intros x.
  - reflexivity.
  - change (String.concat "," (quote <$> x :: y :: xs))
      with (quote x +:+ "," +:+ String.concat "," (quote <$> y :: xs)).
    rewrite !app_assoc_s, IH. reflexivity.
Qed.

Lemma parse_tail (xs : list string) (fuel : nat) (rest : string) :
  (length xs < fuel)%nat ->
  parse_elements fuel (tail_text xs +:+ rest) = Some (xs, rest).
Proof.
  revert fuel. induction xs as [|x xs IH]; intros fuel Hf.
  - destruct fuel; [simpl in Hf; lia|]. reflexivity.
  - destruct fuel; [simpl in Hf; lia|].
    cbn [tail_text]. unfold quote.
    rewrite !app_assoc_s.
    cbn [parse_elements String.append].
    change (skip_ws (String "," ?s)) with (String "," s).
    cbn match. rewrite !app_assoc_s.
    change (Ascii.eqb "," "]") with false.
    change (Ascii.eqb "," ",") with true. cbn match.
    change (skip_ws (String dquote ?s)) with (String dquote s).
    cbn match. rewrite Ascii.eqb_refl.
    rewrite parse_quote, IH; [reflexivity | simpl in Hf; lia].
Qed.

Lemma length_tail_text (xs : list string) :
  (length xs < String.length (tail_text xs))%nat.
Proof.
  induction xs as [|x xs IH]; cbn [tail_text length]; [simpl; lia|].
  rewrite !length_app_s. simpl. lia.
Qed.

(** [JSON.parse(JSON.stringify(xs))] is [xs], for every array of
    strings. *)
Lemma parse_stringify (xs : list string) : parse (stringify xs) = Some xs.
Proof.
  destruct xs as [|x xs]; [reflexivity|].
  unfold stringify. rewrite concat_tail. unfold quote, parse.
  cbn [String.append].
  change (skip_ws (String "[" ?s)) with (String "[" s).
  cbn match. change (Ascii.eqb "[" "[") with true. cbn match.
  change (skip_ws (String dquote ?s)) with (String dquote s).
  cbn match. change (Ascii.eqb dquote "]") with false.
  rewrite Ascii.eqb_refl. rewrite app_assoc_s.
  rewrite parse_quote.
  rewrite <- (app_empty_r (tail_text xs)) at 2.
  rewrite parse_tail; [reflexivity|].
  pose proof (length_tail_text xs).
  cbn [String.length]. rewrite !length_app_s. lia.
Qed.

Lemma stringify_truthy (xs : list string) : Js.truthy (stringify xs) = true.
Proof. reflexivity. Qed.

Lemma parseJsonArray_stringify (xs : list string) :
  parseJsonArray (Some (stringify xs)) = xs.
Proof.
  unfold parseJsonArray. cbn [Js.truthy_opt]. rewrite stringify_truthy.
  cbn [negb]. change (default EmptyString (Some ?x)) with x.
  now rewrite parse_stringify.
Qed.

End JsonRoundTrip.

(** ** The sessions table *)

Section SessionFacts.

Lemma bind_run {A B} (m : Db A) (k : A -> Db B) (st : Store) :
  (m ≫= k) st =
  match m st with
  | (st', Returned a) => k a st'
  | (st', Thrown e) => (st', Thrown e)
  end.
Proof. reflexivity. Qed.

Lemma find_session_id (sid : string) (l : list Session.t) (s : Session.t) :
  find_session sid l = Some s -> Session.session_id s = sid.
Proof.
  unfold find_session. intros H. apply find_some in H as [_ H].
  now apply String.eqb_eq.
Qed.

Lemma find_session_app_new (sid : string) (l : list Session.t) (row : Session.t) :
  find_session sid l = None -> Session.session_id row = sid ->
  find_session sid (l ++ [row]) = Some row.
Proof.
  unfold find_session. intros Hn Hr. induction l as [|x l IH]; simpl in *.
  - now rewrite Hr, String.eqb_refl.
  - destruct (String.eqb (Session.session_id x) sid); [discriminate | auto].
Qed.

Lemma find_session_app_old (sid : string) (l : list Session.t)
    (row s : Session.t) :
  find_session sid l = Some s -> find_session sid (l ++ [row]) = Some s.
Proof.
  unfold find_session. induction l as [|x l IH]; simpl; [discriminate|].
  destruct (String.eqb (Session.session_id x) sid); auto.
Qed.

Lemma find_session_app_other (sid sid' : string) (l : list Session.t)
    (row : Session.t) :
  Session.session_id row = sid' -> sid <> sid' ->
  find_session sid (l ++ [row]) = find_session sid l.
Proof.
  unfold find_session. intros Hr Hne. induction l as [|x l IH]; simpl.
  - rewrite Hr. destruct (String.eqb_spec sid' sid); congruence.
  - destruct (String.eqb (Session.session_id x) sid); auto.
Qed.

(** An update that keeps [session_id] acts on the row that [getSession]
    finds. *)
Lemma find_session_updated (f : Session.t -> Session.t) (sid : string)
    (l : list Session.t) :
  (forall s, Session.session_id (f s) = Session.session_id s) ->
  find_session sid (updated f sid l) = f <$> find_session sid l.
Proof.
  intros Hf. unfold find_session, updated.
  induction l as [|x l IH]; simpl; [reflexivity|].
  destruct (String.eqb (Session.session_id x) sid) eqn:E.
  - now rewrite Hf, E.
  - now rewrite E.
Qed.

Lemma updated_none (f : Session.t -> Session.t) (sid : string)
    (l : list Session.t) :
  find_session sid l = None -> updated f sid l = l.
Proof.
  unfold find_session, updated.
  induction l as [|x l IH]; simpl; [reflexivity|].
  destruct (String.eqb (Session.session_id x) sid); [discriminate|].
  intros H. f_equal. now apply IH.
Qed.

Lemma length_updated (f : Session.t -> Session.t) (sid : string)
    (l : list Session.t) : length (updated f sid l) = length l.
Proof. unfold updated. now rewrite length_fmap. Qed.

Lemma with_sessions_same (st : Store) : with_sessions st (sessions st) = st.
Proof. now destruct st. Qed.

(** [createSession] on a session id the table does not hold. *)
Lemma createSession_new (st : Store) (sid project prompt : string) (now : Date) :
  find_session sid (sessions st) = None ->
  createSession sid project prompt now st =
    (with_seq (with_sessions st (sessions st ++ [new_session st sid project prompt now]))
       (next_session_rowid st),
     Returned (Some (next_session_rowid st))).
Proof.
  intros Hn. unfold createSession.
  rewrite bind_run. unfold insert_or_ignore_session. cbv zeta. rewrite Hn.
  cbn [Z.eqb andb]. rewrite bind_run. unfold mret at 1, db_ret at 1.
  rewrite bind_run. unfold getSession. cbn [sessions].
  fold (new_session st sid project prompt now).
  rewrite (find_session_app_new sid _ (new_session st sid project prompt now) Hn eq_refl).
  reflexivity.
Qed.

(** [createSession] on a session id the table holds. *)
Lemma createSession_existing (st : Store) (sid project prompt : string)
    (now : Date) (s : Session.t) :
  find_session sid (sessions st) = Some s ->
  createSession sid project prompt now st =
    (with_seq
       (if Js.truthy project
        then with_sessions st (updated (set_project_prompt project prompt) sid (sessions st))
        else st)
       (next_session_rowid st),
     Returned (Some (Session.id s))).
Proof.
  intros Hs. unfold createSession.
  rewrite bind_run. unfold insert_or_ignore_session. cbv zeta. rewrite Hs.
  cbn [Z.eqb andb]. destruct (Js.truthy project).
  - rewrite bind_run. unfold update_sessions. rewrite bind_run.
    unfold getSession. cbn [sessions].
    fold (updated (set_project_prompt project prompt) sid (sessions st)).
    rewrite find_session_updated by reflexivity. rewrite Hs. reflexivity.
  - rewrite bind_run. unfold mret at 1, db_ret at 1. rewrite bind_run.
    unfold getSession. cbn [sessions]. rewrite Hs. now destruct st.
Qed.

(** After [createSession] the session is there, whatever was there
    before. *)
Lemma createSession_ensures (st : Store) (sid project prompt : string) (now : Date) :
  exists st' id s,
    createSession sid project prompt now st = (st', Returned (Some id)) /\
    find_session sid (sessions st') = Some s /\ Session.id s = id /\
    observations st' = observations st /\
    observations_fts st' = observations_fts st /\
    session_summaries st' = session_summaries st.
Proof.
  destruct (find_session sid (sessions st)) as [s|] eqn:E.
  - rewrite (createSession_existing _ _ _ _ _ _ E).
    destruct (Js.truthy project).
    + eexists _, (Session.id s), (set_project_prompt project prompt s).
      split; [reflexivity|].
      cbn [with_seq with_sessions sessions observations observations_fts
           session_summaries].
      rewrite find_session_updated by reflexivity. rewrite E.
      repeat split; reflexivity.
    + eexists _, (Session.id s), s. split; [reflexivity|].
      cbn [with_seq sessions observations observations_fts session_summaries].
      repeat split; [exact E | reflexivity..].
  - rewrite (createSession_new _ _ _ _ _ E).
    eexists _, (next_session_rowid st), (new_session st sid project prompt now).
    split; [reflexivity|].
    cbn [with_seq with_sessions sessions observations observations_fts
         session_summaries].
    rewrite (find_session_app_new sid _ (new_session st sid project prompt now) E eq_refl).
    repeat split; reflexivity.
Qed.

(** [incrementPromptCounter] on a session the table holds. *)
Lemma incrementPromptCounter_existing (st : Store) (sid : string) (s : Session.t) :
  find_session sid (sessions st) = Some s ->
  incrementPromptCounter sid st =
    (with_sessions st (updated bump_counter sid (sessions st)),
     Returned (Js.or_num (Some (Session.prompt_counter s + 1)) 1)) /\
  find_session sid (updated bump_counter sid (sessions st)) = Some (bump_counter s).
Proof.
  intros Hs.
  assert (find_session sid (updated bump_counter sid (sessions st))
          = Some (bump_counter s)) as Hf
    by (rewrite find_session_updated by reflexivity; now rewrite Hs).
  split; [|exact Hf].
  unfold incrementPromptCounter. rewrite bind_run. unfold update_sessions.
  rewrite bind_run. unfold getSession. cbn [sessions].
  fold (updated bump_counter sid (sessions st)). rewrite Hf. reflexivity.
Qed.

(** [incrementPromptCounter] on a session id the table does not hold:
    nothing changes and the fallback is returned. *)
Lemma incrementPromptCounter_missing (st : Store) (sid : string) :
  find_session sid (sessions st) = None ->
  incrementPromptCounter sid st = (st, Returned 1).
Proof.
  intros Hn. unfold incrementPromptCounter. rewrite bind_run.
  unfold update_sessions. rewrite bind_run. unfold getSession. cbn [sessions].
  fold (updated bump_counter sid (sessions st)).
  rewrite (updated_none _ _ _ Hn), Hn.
  fold (with_sessions st (sessions st)). rewrite with_sessions_same.
  reflexivity.
Qed.

End SessionFacts.

(** ** The observations and summaries tables *)

Section TableFacts.

Lemma next_rowid_above (ids : list Z) (x : Z) : In x ids -> x < next_rowid ids.
Proof.
  unfold next_rowid. induction ids as [|y ids IH]; simpl; [tauto|].
  intros [->|H]; [lia|]. specialize (IH H). lia.
Qed.

Lemma find_fresh {A} (key : A -> Z) (l : list A) (row : A) :
  key row = next_rowid (key <$> l) ->
  List.find (fun r => key r =? key row) (l ++ [row]) = Some row.
Proof.
  intros Hk.
  assert (forall r, In r l -> key r <> key row) as Hfresh.
  { intros r Hr. rewrite Hk.
    pose proof (next_rowid_above (key <$> l) (key r)) as H.
    assert (In (key r) (key <$> l)) as Hin by (apply in_map_iff; eauto).
    specialize (H Hin). lia. }
  clear Hk. induction l as [|x l IH]; simpl.
  - now rewrite Z.eqb_refl.
  - destruct (Z.eqb_spec (key x) (key row)) as [E|_].
    + exfalso. apply (Hfresh x); [now left | exact E].
    + apply IH. intros r Hr. apply Hfresh. now right.
Qed.

Lemma check_type_spec (ty : string) :
  check_type ty = true <-> ty ∈ observation_types.
Proof.
  unfold check_type. rewrite existsb_exists, list_elem_of_In. split.
  - intros (x & Hx & E). apply String.eqb_eq in E. now subst.
  - intros H. exists ty. split; [exact H | apply String.eqb_refl].
Qed.

(** [storeObservation], statement by statement: the session is
    ensured first; then the CHECK constraint decides. *)
Lemma storeObservation_run (st : Store) (sid project : string)
    (obs : ObservationFields.t) (pn : option Z) (dt : Z) (now now1 : Date) :
  exists st0 id0 s,
    createSession sid project "" now1 st = (st0, Returned (Some id0)) /\
    find_session sid (sessions st0) = Some s /\
    storeObservation sid project obs pn dt now now1 st =
      if check_type (Js.or_str (ObservationFields.type obs) "change")
      then (mkStore (sessions st0)
              (observations st ++ [observation_row st sid project obs pn dt now])
              (observations_fts st ++ [fts_of (observation_row st sid project obs pn dt now)])
              (session_summaries st) (sessions_seq st0),
            Returned (next_rowid (Observation.id <$> observations st), getTime now))
      else (mkStore (sessions st0) (observations st) (observations_fts st)
              (session_summaries st) (sessions_seq st0), Thrown CheckConstraint).
Proof.
  destruct (createSession_ensures st sid project "" now1)
    as (st0 & id0 & s & Hc & Hs & _ & Ho & Hf & Hm).
  exists st0, id0, s. split; [exact Hc|]. split; [exact Hs|].
  unfold storeObservation. rewrite bind_run, Hc, bind_run.
  unfold insert_observation. rewrite Ho, Hf, Hm.
  fold (observation_row st sid project obs pn dt now).
  cbn [Observation.type observation_row Observation.session_id Observation.id].
  destruct (check_type (Js.or_str (ObservationFields.type obs) "change")).
  - cbn [negb]. rewrite Hs. reflexivity.
  - cbn [negb]. destruct st0; cbn in *; subst. reflexivity.
Qed.

(** [storeSummary], statement by statement. *)
Lemma storeSummary_run (st : Store) (sid project : string)
    (sm : SummaryFields.t) (pn : option Z) (dt : Z) (now now1 : Date) :
  exists st0 id0 s,
    createSession sid project "" now1 st = (st0, Returned (Some id0)) /\
    find_session sid (sessions st0) = Some s /\
    storeSummary sid project sm pn dt now now1 st =
      (mkStore (sessions st0) (observations st) (observations_fts st)
         (session_summaries st ++ [summary_row st sid project sm pn dt now])
         (sessions_seq st0),
       Returned (next_rowid (Summary.id <$> session_summaries st), getTime now)).
Proof.
  destruct (createSession_ensures st sid project "" now1)
    as (st0 & id0 & s & Hc & Hs & _ & Ho & Hf & Hm).
  exists st0, id0, s. split; [exact Hc|]. split; [exact Hs|].
  unfold storeSummary. rewrite bind_run, Hc, bind_run.
  unfold insert_summary. rewrite Ho, Hf, Hm.
  fold (summary_row st sid project sm pn dt now).
  cbn [Summary.session_id summary_row Summary.id]. rewrite Hs. reflexivity.
Qed.

(** The row just stored is the one [getObservationById] finds. *)
Lemma getObservationById_stored (st : Store) (l : list Session.t)
    (row : Observation.t) (fts : list Fts.t) (seq : Z) :
  Observation.id row = next_rowid (Observation.id <$> observations st) ->
  getObservationById (next_rowid (Observation.id <$> observations st))
    (mkStore l (observations st ++ [row]) fts (session_summaries st) seq)
  = (mkStore l (observations st ++ [row]) fts (session_summaries st) seq,
     Returned (Some row)).
Proof.
  intros Hid. unfold getObservationById. cbn [observations].
  rewrite <- Hid. now rewrite (find_fresh Observation.id _ row Hid).
Qed.

End TableFacts.

(** ** Storing and fetching an observation *)

Section StoreAndFetch.

Variables (st : Store) (sid project : string) (obs : ObservationFields.t)
          (pn : option Z) (dt : Z) (now now1 : Date).

(** An observation whose type passes the CHECK constraint is stored,
    and [getObservationById] on the returned id fetches the row that
    was bound. *)
Lemma storeObservation_fetch :
  check_type (Js.or_str (ObservationFields.type obs) "change") = true ->
  exists st',
    storeObservation sid project obs pn dt now now1 st =
      (st', Returned (next_rowid (Observation.id <$> observations st), getTime now)) /\
    getObservationById (next_rowid (Observation.id <$> observations st)) st' =
      (st', Returned (Some (observation_row st sid project obs pn dt now))) /\
    is_Some (find_session sid (sessions st')) /\
    session_summaries st' = session_summaries st.
Proof.
  intros Hty.
  destruct (storeObservation_run st sid project obs pn dt now now1)
    as (st0 & id0 & s & _ & Hs & Hrun).
  rewrite Hty in Hrun. eexists. split; [exact Hrun|].
  split; [now apply getObservationById_stored|].
  cbn [sessions session_summaries]. rewrite Hs. eauto.
Qed.

(** An observation whose type fails the CHECK constraint is not
    stored; the session ensured before the INSERT stays. *)
Lemma storeObservation_reject :
  check_type (Js.or_str (ObservationFields.type obs) "change") = false ->
  exists st',
    storeObservation sid project obs pn dt now now1 st = (st', Thrown CheckConstraint) /\
    observations st' = observations st /\
    observations_fts st' = observations_fts st /\
    session_summaries st' = session_summaries st /\
    is_Some (find_session sid (sessions st')).
Proof.
  intros Hty.
  destruct (storeObservation_run st sid project obs pn dt now now1)
    as (st0 & id0 & s & _ & Hs & Hrun).
  rewrite Hty in Hrun. eexists. split; [exact Hrun|].
  cbn [sessions observations observations_fts session_summaries].
  rewrite Hs. eauto.
Qed.

(** An absent or empty type is stored as "change". *)
Lemma storeObservation_default_type :
  Js.truthy_opt (ObservationFields.type obs) = false ->
  Observation.type (observation_row st sid project obs pn dt now) = "change" /\
  check_type (Js.or_str (ObservationFields.type obs) "change") = true.
Proof.
  cbn [observation_row Observation.type].
  destruct (ObservationFields.type obs) as [[|c t]|]; cbn; intros H;
    try discriminate; split; reflexivity.
Qed.

End StoreAndFetch.

(** ** Claims about the store *)

(** C1, as amended.  For every observation whose type field is a
    non-empty string outside the six enum values, [storeObservation]
    does not coerce the type: the INSERT fails on the CHECK constraint
    of [observations.type], the call throws, and no observation row and
    no index entry is written (the session ensured before the INSERT
    stays).  Only an absent or empty type is stored as "change", and
    then [getObservationById] on the returned id yields type "change". *)
Theorem storeObservation_unknown_type_throws (st : Store) (sid project : string)
    (obs : ObservationFields.t) (pn : option Z) (dt : Z) (now now1 : Date) (t : string) :
  ObservationFields.type obs = Some t ->
  t <> EmptyString ->
  t ∉ observation_types ->
  (exists st',
     storeObservation sid project obs pn dt now now1 st = (st', Thrown CheckConstraint) /\
     observations st' = observations st /\
     observations_fts st' = observations_fts st /\
     is_Some (find_session sid (sessions st'))) /\
  (forall untyped, Js.truthy_opt (ObservationFields.type untyped) = false ->
     exists st' id row,
       storeObservation sid project untyped pn dt now now1 st
         = (st', Returned (id, getTime now)) /\
       getObservationById id st' = (st', Returned (Some row)) /\
       Observation.type row = "change").
Proof.
  intros Ht Hne Hout. split.
  - assert (check_type (Js.or_str (ObservationFields.type obs) "change") = false) as Hty.
    { rewrite Ht. cbn [Js.or_str]. apply truthy_true in Hne. rewrite Hne.
      destruct (check_type t) eqn:E; [|reflexivity].
      apply check_type_spec in E. contradiction. }
    destruct (storeObservation_reject st sid project obs pn dt now now1 Hty)
      as (st' & H1 & H2 & H3 & _ & H5).
    exists st'. auto.
  - intros untyped Hun.
    destruct (storeObservation_default_type st sid project untyped pn dt now Hun)
      as [Hrow Hty].
    destruct (storeObservation_fetch st sid project untyped pn dt now now1 Hty)
      as (st' & Hs & Hg & _).
    exists st', (next_rowid (Observation.id <$> observations st)),
      (observation_row st sid project untyped pn dt now).
    auto.
Qed.

Lemma storeObservation_unknown_type_throws_witness :
  (exists st',
     storeObservation "s1" "demo" foo_observation None 0 clock0 clock0 empty_store
       = (st', Thrown CheckConstraint) /\
     observations st' = observations empty_store /\
     observations_fts st' = observations_fts empty_store /\
     is_Some (find_session "s1" (sessions st'))) /\
  (forall untyped, Js.truthy_opt (ObservationFields.type untyped) = false ->
     exists st' id row,
       storeObservation "s1" "demo" untyped None 0 clock0 clock0 empty_store
         = (st', Returned (id, getTime clock0)) /\
       getObservationById id st' = (st', Returned (Some row)) /\
       Observation.type row = "change").
Proof.
  apply (storeObservation_unknown_type_throws empty_store "s1" "demo"
           foo_observation None 0 clock0 clock0 "foo").
  - reflexivity.
  - discriminate.
  - intros H. apply check_type_spec in H. vm_compute in H. discriminate.
Defined.

Example storeObservation_untyped :
  fmap (M := option) Observation.type
    (mjoin (result (getObservationById 1)
              (exec (storeObservation "s1" "demo"
                       (ObservationFields.mk (Some EmptyString) (Some "Fixed login bug")
                          None None None None None None)
                       None 0 clock0 clock0) empty_store)))
  = Some "change".
Proof. vm_compute. reflexivity. Qed.

(** C1 as stated fails: with type "foo" the call does not succeed, so
    there is no returned id and no row of type "change" to fetch. *)
Lemma storeObservation_foo_not_coerced :
  ~ exists st' id epoch row,
      storeObservation "s1" "demo" foo_observation None 0 clock0 clock0 empty_store
        = (st', Returned (id, epoch)) /\
      getObservationById id st' = (st', Returned (Some row)) /\
      Observation.type row = "change".
Proof.
  intros (st' & id & epoch & row & H & _). vm_compute in H. discriminate.
Qed.

Section OneRow.

Lemma rows_of_none (sid : string) (l : list Session.t) :
  find_session sid l = None -> rows_of sid l = [].
Proof.
  unfold find_session, rows_of. induction l as [|x l IH]; simpl; [reflexivity|].
  destruct (String.eqb (Session.session_id x) sid); [discriminate | exact IH].
Qed.

Lemma rows_of_app (sid : string) (l1 l2 : list Session.t) :
  rows_of sid (l1 ++ l2) = rows_of sid l1 ++ rows_of sid l2.
Proof. apply List.filter_app. Qed.

Lemma rows_of_updated (f : Session.t -> Session.t) (sid : string)
    (l : list Session.t) :
  (forall s, Session.session_id (f s) = Session.session_id s) ->
  rows_of sid (updated f sid l) = f <$> rows_of sid l.
Proof.
  intros Hf. unfold rows_of, updated.
  induction l as [|x l IH]; simpl; [reflexivity|].
  destruct (String.eqb (Session.session_id x) sid) eqn:E.
  - rewrite Hf, E. simpl. f_equal. exact IH.
  - rewrite E. exact IH.
Qed.

End OneRow.

(** C2, the defect.  Creating a session and then calling [createSession]
    again with the same id, a non-empty project and an empty prompt (as
    [storeObservation] and [storeSummary] do) leaves exactly one row and
    returns the same internal id, but the UPDATE is gated on [project]
    alone and writes both columns: the stored prompt becomes the empty
    string, whatever it was. *)
Theorem createSession_empty_prompt_overwrites (st : Store)
    (sid project prompt : string) (now now' : Date) :
  find_session sid (sessions st) = None ->
  project <> EmptyString ->
  exists st1 st2 id s1 s2,
    createSession sid project prompt now st = (st1, Returned (Some id)) /\
    createSession sid project "" now' st1 = (st2, Returned (Some id)) /\
    rows_of sid (sessions st1) = [s1] /\
    rows_of sid (sessions st2) = [s2] /\
    Session.id s1 = id /\ Session.id s2 = id /\
    Session.user_prompt s1 = Some prompt /\
    Session.user_prompt s2 = Some EmptyString.
Proof.
  intros Hn Hp. apply truthy_true in Hp.
  pose (s1 := new_session st sid project prompt now).
  assert (find_session sid (sessions st ++ [s1]) = Some s1) as H1
    by (apply find_session_app_new; [exact Hn | reflexivity]).
  eexists _, _, (Session.id s1), s1, (set_project_prompt project "" s1).
  split; [apply createSession_new; exact Hn|].
  split.
  { rewrite (createSession_existing _ sid project "" now' s1) by exact H1.
    rewrite Hp. reflexivity. }
  assert (rows_of sid (sessions st ++ [s1]) = [s1]) as Hrows.
  { rewrite rows_of_app, (rows_of_none _ _ Hn). unfold rows_of. simpl.
    now rewrite String.eqb_refl. }
  cbn [with_seq with_sessions sessions]. fold s1.
  rewrite rows_of_updated by reflexivity. rewrite Hrows.
  repeat split; reflexivity.
Qed.

Lemma createSession_empty_prompt_overwrites_witness :
  exists st1 st2 id s1 s2,
    createSession "s1" "demo" "Fix the login bug" clock0 empty_store
      = (st1, Returned (Some id)) /\
    createSession "s1" "demo" "" clock1 st1 = (st2, Returned (Some id)) /\
    rows_of "s1" (sessions st1) = [s1] /\
    rows_of "s1" (sessions st2) = [s2] /\
    Session.id s1 = id /\ Session.id s2 = id /\
    Session.user_prompt s1 = Some "Fix the login bug" /\
    Session.user_prompt s2 = Some EmptyString.
Proof.
  apply (createSession_empty_prompt_overwrites empty_store "s1" "demo"
           "Fix the login bug" clock0 clock1).
  - reflexivity.
  - discriminate.
Defined.

(** C4.  On a freshly created session three sequential calls of
    [incrementPromptCounter] return 1, 2 and 3; on a session id without
    a row the call changes nothing and returns the fallback 1. *)
Theorem incrementPromptCounter_sequence (st : Store) (sid project prompt : string)
    (now : Date) :
  find_session sid (sessions st) = None ->
  incrementPromptCounter sid st = (st, Returned 1) /\
  exists st0 id st1 st2 st3,
    createSession sid project prompt now st = (st0, Returned (Some id)) /\
    incrementPromptCounter sid st0 = (st1, Returned 1) /\
    incrementPromptCounter sid st1 = (st2, Returned 2) /\
    incrementPromptCounter sid st2 = (st3, Returned 3).
Proof.
  intros Hn. split; [now apply incrementPromptCounter_missing|].
  pose (s0 := new_session st sid project prompt now).
  pose (st0 := with_seq (with_sessions st (sessions st ++ [s0]))
                 (next_session_rowid st)).
  assert (find_session sid (sessions st0) = Some s0) as H0
    by (apply find_session_app_new; [exact Hn | reflexivity]).
  destruct (incrementPromptCounter_existing st0 sid s0 H0) as [E1 H1].
  set (st1 := with_sessions st0 (updated bump_counter sid (sessions st0))) in *.
  change (updated bump_counter sid (sessions st0)) with (sessions st1) in H1.
  destruct (incrementPromptCounter_existing st1 sid _ H1) as [E2 H2].
  set (st2 := with_sessions st1 (updated bump_counter sid (sessions st1))) in *.
  change (updated bump_counter sid (sessions st1)) with (sessions st2) in H2.
  destruct (incrementPromptCounter_existing st2 sid _ H2) as [E3 _].
  exists st0, (next_session_rowid st), st1, st2,
    (with_sessions st2 (updated bump_counter sid (sessions st2))).
  split; [apply createSession_new; exact Hn|].
  split; [exact E1|]. split; [exact E2 | exact E3].
Qed.

Lemma incrementPromptCounter_sequence_witness :
  incrementPromptCounter "s1" empty_store = (empty_store, Returned 1) /\
  exists st0 id st1 st2 st3,
    createSession "s1" "demo" "Fix the login bug" clock0 empty_store
      = (st0, Returned (Some id)) /\
    incrementPromptCounter "s1" st0 = (st1, Returned 1) /\
    incrementPromptCounter "s1" st1 = (st2, Returned 2) /\
    incrementPromptCounter "s1" st2 = (st3, Returned 3).
Proof.
  apply (incrementPromptCounter_sequence empty_store "s1" "demo"
           "Fix the login bug" clock0).
  reflexivity.
Defined.

(** C5, as amended.  For every stored observation, [getObservationById]
    on the returned id yields a record whose four array fields are
    always present, never null, as JSON text: each holds
    [JSON.stringify] of the array given at write time, or of the empty
    array when none was given, and [parseJsonArray] reads that text back
    as the same sequence in the same order.  In particular facts
    [["a","b"]] comes back as the text of that array, and absent arrays
    come back as the text of the empty array. *)
Theorem array_fields_stored_as_json (st : Store) (sid project : string)
    (obs : ObservationFields.t) (pn : option Z) (dt : Z) (now now1 : Date) :
  Js.or_str (ObservationFields.type obs) "change" ∈ observation_types ->
  exists st' id row,
    storeObservation sid project obs pn dt now now1 st = (st', Returned (id, getTime now)) /\
    getObservationById id st' = (st', Returned (Some row)) /\
    js_text (Observation.facts row)
      = JsString (Json.stringify (Js.or_empty (ObservationFields.facts obs))) /\
    js_text (Observation.concepts row)
      = JsString (Json.stringify (Js.or_empty (ObservationFields.concepts obs))) /\
    js_text (Observation.files_read row)
      = JsString (Json.stringify (Js.or_empty (ObservationFields.files_read obs))) /\
    js_text (Observation.files_modified row)
      = JsString (Json.stringify (Js.or_empty (ObservationFields.files_modified obs))) /\
    parseJsonArray (Observation.facts row) = Js.or_empty (ObservationFields.facts obs) /\
    parseJsonArray (Observation.concepts row) = Js.or_empty (ObservationFields.concepts obs) /\
    parseJsonArray (Observation.files_read row) = Js.or_empty (ObservationFields.files_read obs) /\
    parseJsonArray (Observation.files_modified row)
      = Js.or_empty (ObservationFields.files_modified obs).
Proof.
  intros Hty. apply check_type_spec in Hty.
  destruct (storeObservation_fetch st sid project obs pn dt now now1 Hty)
    as (st' & Hs & Hg & _).
  exists st', (next_rowid (Observation.id <$> observations st)),
    (observation_row st sid project obs pn dt now).
  split; [exact Hs|]. split; [exact Hg|].
  cbn [observation_row Observation.facts Observation.concepts
       Observation.files_read Observation.files_modified js_text].
  rewrite !parseJsonArray_stringify. repeat split; reflexivity.
Qed.

Lemma array_fields_stored_as_json_witness :
  exists st' id row,
    storeObservation "s1" "demo" ab_observation None 0 clock0 clock0 empty_store
      = (st', Returned (id, getTime clock0)) /\
    getObservationById id st' = (st', Returned (Some row)) /\
    js_text (Observation.facts row) = JsString (Json.stringify ["a"; "b"]) /\
    js_text (Observation.concepts row) = JsString (Json.stringify []) /\
    js_text (Observation.files_read row) = JsString (Json.stringify []) /\
    js_text (Observation.files_modified row) = JsString (Json.stringify []) /\
    parseJsonArray (Observation.facts row) = ["a"; "b"] /\
    parseJsonArray (Observation.concepts row) = [] /\
    parseJsonArray (Observation.files_read row) = [] /\
    parseJsonArray (Observation.files_modified row) = [].
Proof.
  apply (array_fields_stored_as_json empty_store "s1" "demo" ab_observation
           None 0 clock0 clock0).
  apply check_type_spec. vm_compute. reflexivity.
Defined.

(** C5 as stated fails: the facts of the fetched record are the text
    [["a","b"]], a string of nine code units, not the sequence. *)
Lemma fetched_facts_not_a_sequence :
  exists st' row,
    storeObservation "s1" "demo" ab_observation None 0 clock0 clock0 empty_store
      = (st', Returned (1, getTime clock0)) /\
    getObservationById 1 st' = (st', Returned (Some row)) /\
    js_text (Observation.facts row)
      = JsString ("[" +:+ Json.quote "a" +:+ "," +:+ Json.quote "b" +:+ "]") /\
    isArray (js_text (Observation.facts row)) = false /\
    js_text (Observation.facts row) <> JsArray ["a"; "b"].
Proof.
  eexists _, _. split; [vm_compute; reflexivity|].
  split; [vm_compute; reflexivity|].
  cbn [Observation.facts js_text isArray].
  split; [reflexivity|]. split; [reflexivity | discriminate].
Qed.

(** C10.  For every observation stored by [storeObservation], a title,
    subtitle or narrative supplied as the empty string is held as null
    in the record [getObservationById] returns, not as the empty
    string. *)
Theorem empty_text_stored_as_null (st : Store) (sid project : string)
    (obs : ObservationFields.t) (pn : option Z) (dt : Z) (now now1 : Date) :
  Js.or_str (ObservationFields.type obs) "change" ∈ observation_types ->
  exists st' id row,
    storeObservation sid project obs pn dt now now1 st = (st', Returned (id, getTime now)) /\
    getObservationById id st' = (st', Returned (Some row)) /\
    (ObservationFields.title obs = Some EmptyString ->
       js_text (Observation.title row) = JsNull) /\
    (ObservationFields.subtitle obs = Some EmptyString ->
       js_text (Observation.subtitle row) = JsNull) /\
    (ObservationFields.narrative obs = Some EmptyString ->
       js_text (Observation.narrative row) = JsNull).
Proof.
  intros Hty. apply check_type_spec in Hty.
  destruct (storeObservation_fetch st sid project obs pn dt now now1 Hty)
    as (st' & Hs & Hg & _).
  exists st', (next_rowid (Observation.id <$> observations st)),
    (observation_row st sid project obs pn dt now).
  split; [exact Hs|]. split; [exact Hg|].
  cbn [observation_row Observation.title Observation.subtitle Observation.narrative].
  repeat split; intros ->; reflexivity.
Qed.

Lemma empty_text_stored_as_null_witness :
  exists st' id row,
    storeObservation "s1" "demo" blank_observation None 0 clock0 clock0 empty_store
      = (st', Returned (id, getTime clock0)) /\
    getObservationById id st' = (st', Returned (Some row)) /\
    (ObservationFields.title blank_observation = Some EmptyString ->
       js_text (Observation.title row) = JsNull) /\
    (ObservationFields.subtitle blank_observation = Some EmptyString ->
       js_text (Observation.subtitle row) = JsNull) /\
    (ObservationFields.narrative blank_observation = Some EmptyString ->
       js_text (Observation.narrative row) = JsNull).
Proof.
  apply (empty_text_stored_as_null empty_store "s1" "demo" blank_observation
           None 0 clock0 clock0).
  apply check_type_spec. vm_compute. reflexivity.
Defined.

(** C7, as amended.  [storeObservation] and [storeSummary] do not need
    the session row: called on a session id without one, both first
    create it with an empty prompt, so the foreign key of the INSERT is
    satisfied and [getSession] on that id is present afterwards.
    [storeObservation] then succeeds for every observation whose type
    the CHECK constraint admits (one of the six, or absent or empty),
    and [storeSummary] for every summary; the stored row carries the
    session id of the existing session row.  With any other type
    [storeObservation] throws on the CHECK constraint, never on the
    missing session, and stores no observation. *)
Theorem store_creates_missing_session (st : Store) (sid project : string)
    (obs : ObservationFields.t) (sm : SummaryFields.t) (pn : option Z) (dt : Z)
    (now now1 : Date) :
  find_session sid (sessions st) = None ->
  (exists st' out s,
     storeObservation sid project obs pn dt now now1 st = (st', out) /\
     out <> Thrown ForeignKeyConstraint /\
     getSession sid st' = (st', Returned (Some s)) /\
     Session.user_prompt s = Some EmptyString /\
     Session.project s = project /\
     (Js.or_str (ObservationFields.type obs) "change" ∈ observation_types ->
      exists id row,
        out = Returned (id, getTime now) /\
        getObservationById id st' = (st', Returned (Some row)) /\
        Observation.session_id row = Session.session_id s) /\
     (Js.or_str (ObservationFields.type obs) "change" ∉ observation_types ->
      out = Thrown CheckConstraint /\ observations st' = observations st)) /\
  (exists st' id s row,
     storeSummary sid project sm pn dt now now1 st = (st', Returned (id, getTime now)) /\
     getSession sid st' = (st', Returned (Some s)) /\
     Session.user_prompt s = Some EmptyString /\
     Session.project s = project /\
     row ∈ session_summaries st' /\
     Summary.id row = id /\
     Summary.session_id row = Session.session_id s).
Proof.
  intros Hn.
  pose proof (createSession_new st sid project "" now1 Hn) as Hc.
  pose proof (find_session_app_new sid _ (new_session st sid project "" now1)
                Hn eq_refl) as Hs.
  set (s := new_session st sid project "" now1) in *.
  split.
  - destruct (storeObservation_run st sid project obs pn dt now now1)
      as (st0 & id0 & s0 & Hc0 & _ & Hrun).
    rewrite Hc in Hc0. injection Hc0 as <- _.
    cbn [with_seq with_sessions sessions sessions_seq] in Hrun.
    destruct (check_type (Js.or_str (ObservationFields.type obs) "change")) eqn:Hty.
    + eexists _, _, s. split; [exact Hrun|]. split; [discriminate|].
      unfold getSession. cbn [sessions]. rewrite Hs.
      split; [reflexivity|]. split; [reflexivity|]. split; [reflexivity|]. split.
      * intros _.
        exists (next_rowid (Observation.id <$> observations st)),
          (observation_row st sid project obs pn dt now).
        split; [reflexivity|]. split; [|reflexivity].
        now apply getObservationById_stored.
      * intros Hout. apply check_type_spec in Hty. contradiction.
    + eexists _, _, s. split; [exact Hrun|]. split; [discriminate|].
      unfold getSession. cbn [sessions]. rewrite Hs.
      split; [reflexivity|]. split; [reflexivity|]. split; [reflexivity|]. split.
      * intros Hin. apply check_type_spec in Hin. congruence.
      * intros _. split; reflexivity.
  - destruct (storeSummary_run st sid project sm pn dt now now1)
      as (st0 & id0 & s0 & Hc0 & _ & Hrun).
    rewrite Hc in Hc0. injection Hc0 as <- _.
    cbn [with_seq with_sessions sessions sessions_seq] in Hrun.
    eexists _, _, s, (summary_row st sid project sm pn dt now).
    split; [exact Hrun|].
    unfold getSession. cbn [sessions session_summaries]. rewrite Hs.
    repeat split. apply list_elem_of_In, in_or_app. right. now left.
Qed.

Lemma store_creates_missing_session_witness :
  (exists st' out s,
     storeObservation "s1" "demo" ab_observation None 0 clock0 clock0 empty_store = (st', out) /\
     out <> Thrown ForeignKeyConstraint /\
     getSession "s1" st' = (st', Returned (Some s)) /\
     Session.user_prompt s = Some EmptyString /\
     Session.project s = "demo" /\
     (Js.or_str (ObservationFields.type ab_observation) "change" ∈ observation_types ->
      exists id row,
        out = Returned (id, getTime clock0) /\
        getObservationById id st' = (st', Returned (Some row)) /\
        Observation.session_id row = Session.session_id s) /\
     (Js.or_str (ObservationFields.type ab_observation) "change" ∉ observation_types ->
      out = Thrown CheckConstraint /\ observations st' = observations empty_store)) /\
  (exists st' id s row,
     storeSummary "s1" "demo" request_summary None 0 clock0 clock0 empty_store
       = (st', Returned (id, getTime clock0)) /\
     getSession "s1" st' = (st', Returned (Some s)) /\
     Session.user_prompt s = Some EmptyString /\
     Session.project s = "demo" /\
     row ∈ session_summaries st' /\
     Summary.id row = id /\
     Summary.session_id row = Session.session_id s).
Proof.
  apply (store_creates_missing_session empty_store "s1" "demo" ab_observation
           request_summary None 0 clock0 clock0).
  reflexivity.
Defined.

(** C7 as stated fails: with no session row and the type "foo" the
    session is created, but the call does not succeed and no
    observation is stored. *)
Lemma storeObservation_missing_session_fails :
  find_session "s1" (sessions empty_store) = None /\
  exists st',
    storeObservation "s1" "demo" foo_observation None 0 clock0 clock0 empty_store
      = (st', Thrown CheckConstraint) /\
    is_Some (find_session "s1" (sessions st')) /\
    observations st' = [].
Proof.
  split; [reflexivity|]. eexists. split; [reflexivity|].
  split; [eexists; reflexivity | reflexivity].
Qed.

(** ** The context-economics estimate *)

Section Economics.

Lemma fold_left_add {A} (f : A -> Z) (l : list A) (acc : Z) :
  fold_left (fun sum x => sum + f x) l acc = acc + foldr Z.add 0 (f <$> l).
Proof.
  revert acc. induction l as [|x l IH]; intros acc.
  - simpl. lia.
  - rewrite fmap_cons. cbn [fold_left foldr]. rewrite IH. lia.
Qed.

Lemma ceil_div_subadditive (a b : Z) :
  Js.ceil_div (a + b) 4 <= Js.ceil_div a 4 + Js.ceil_div b 4.
Proof. unfold Js.ceil_div. Z.div_mod_to_equations. lia. Qed.

Lemma ceil_div_0 : Js.ceil_div 0 4 = 0.
Proof. reflexivity. Qed.

(** [ceil_div n d] is the ceiling of the quotient: the least [k] with
    [n <= d * k]. *)
Lemma ceil_div_spec (n d : Z) :
  0 < d -> n <= d * Js.ceil_div n d < n + d.
Proof. intros Hd. unfold Js.ceil_div. Z.div_mod_to_equations. nia. Qed.

End Economics.

(** C3, as amended.  For every fetched set of observations, the
    "Loading" estimate is the sum, over the fetched observations, of
    ceil((len(title)+len(subtitle)+len(narrative)+len(facts)) / 4): one
    ceiling per observation, with an absent field counting 0.  It is
    never below the single ceiling over the total. *)
Theorem totalReadTokens_per_observation (observations : list Observation.t) :
  totalReadTokens observations = per_observation_estimate observations /\
  single_ceiling_estimate observations <= totalReadTokens observations.
Proof.
  unfold totalReadTokens. rewrite fold_left_add.
  unfold per_observation_estimate, single_ceiling_estimate.
  split; [lia|]. rewrite Z.add_0_l.
  induction observations as [|obs l IH]; [simpl; rewrite ceil_div_0; lia|].
  rewrite !fmap_cons. cbn [foldr].
  pose proof (ceil_div_subadditive (read_size obs) (foldr Z.add 0 (read_size <$> l))).
  lia.
Qed.

(** C3 as stated fails: two fetched observations whose only text is the
    two code units of an empty facts array cost 1 + 1 = 2, where the
    single ceiling over the total gives ceil(4 / 4) = 1. *)
Lemma totalReadTokens_not_single_ceiling :
  exists fetched,
    result (getRecentObservations "demo" 50) two_bare_observations = Some fetched /\
    length fetched = 2%nat /\
    totalReadTokens fetched = 2 /\
    single_ceiling_estimate fetched = 1 /\
    totalReadTokens fetched <> single_ceiling_estimate fetched.
Proof.
  eexists. split; [vm_compute; reflexivity|].
  split; [reflexivity|]. split; [reflexivity|]. split; [reflexivity|].
  vm_compute. discriminate.
Qed.

(** ** Ordering, limit and search *)

Section OrderLimit.

Context {A : Type} (key : A -> Z).

#[local] Instance newer_first_trans : Transitive (newer_first key).
Proof. unfold newer_first. intros x y z; lia. Qed.

#[local] Instance newer_first_total : Total (newer_first key).
Proof. unfold newer_first. intros x y; lia. Qed.

Lemma order_desc_perm (l : list A) : order_desc key l ≡ₚ l.
Proof. apply merge_sort_Permutation. Qed.

Lemma order_desc_sorted (l : list A) :
  StronglySorted (newer_first key) (order_desc key l).
Proof. apply StronglySorted_merge_sort; apply _. Qed.

Lemma sql_limit_split (n : Z) (l : list A) :
  exists rest, l = sql_limit n l ++ rest.
Proof.
  unfold sql_limit. destruct (n <? 0).
  - exists []. now rewrite app_nil_r.
  - exists (drop (Z.to_nat n) l). now rewrite take_drop.
Qed.

Lemma sql_limit_length (n : Z) (l : list A) :
  0 <= n -> length (sql_limit n l) = Nat.min (Z.to_nat n) (length l).
Proof.
  intros Hn. unfold sql_limit.
  destruct (Z.ltb_spec n 0); [lia | apply length_take].
Qed.

(** What [ORDER BY key DESC LIMIT n] returns: rows of the input, most
    recent first, as many as the limit allows, and none of them older
    than a row left out. *)
Lemma order_limit_spec (n : Z) (l : list A) :
  let rows := sql_limit n (order_desc key l) in
  (forall x, x ∈ rows -> x ∈ l) /\
  StronglySorted (newer_first key) rows /\
  (0 <= n -> length rows = Nat.min (Z.to_nat n) (length l)) /\
  (forall x, x ∈ l -> x ∉ rows -> forall r, r ∈ rows -> key x <= key r).
Proof.
  intros rows.
  destruct (sql_limit_split n (order_desc key l)) as [rest Hsplit].
  fold rows in Hsplit.
  pose proof (order_desc_sorted l) as Hsorted. rewrite Hsplit in Hsorted.
  apply StronglySorted_app in Hsorted as (Hcross & Hrows & _).
  assert (forall x, x ∈ l <-> x ∈ rows \/ x ∈ rest) as Hmem.
  { intros x. rewrite <- elem_of_app, <- Hsplit. now rewrite order_desc_perm. }
  split; [intros x Hx; apply Hmem; now left|].
  split; [exact Hrows|]. split.
  - intros Hn. unfold rows. rewrite sql_limit_length by exact Hn.
    now rewrite order_desc_perm.
  - intros x Hx Hout r Hr. apply Hmem in Hx as [Hx|Hx]; [contradiction|].
    exact (Hcross r x Hr Hx).
Qed.

End OrderLimit.

Section SearchFacts.

Lemma fts_join_elem (matches : Fts.t -> bool) (st : Store) (o : Observation.t) :
  o ∈ fts_join matches st <->
  o ∈ observations st /\
  exists f, f ∈ observations_fts st /\ Fts.rowid f = Observation.id o /\ matches f = true.
Proof.
  unfold fts_join. rewrite list_elem_of_bind. split.
  - intros (o' & Hin & Ho'). apply list_elem_of_bind in Hin as (f & Hin & Hf).
    destruct (Z.eqb_spec (Observation.id o') (Fts.rowid f)) as [E|]; cbn [andb] in Hin;
      [|now apply not_elem_of_nil in Hin].
    destruct (matches f) eqn:Em; [|now apply not_elem_of_nil in Hin].
    apply list_elem_of_singleton in Hin as ->. eauto.
  - intros (Ho & f & Hf & E & Em). exists o. split; [|exact Ho].
    apply list_elem_of_bind. exists f. split; [|exact Hf].
    rewrite <- E, Z.eqb_refl, Em. apply list_elem_of_singleton. reflexivity.
Qed.


(** Among rows with distinct ids, the index entries with the id of [o]
    are the one entry of [o]. *)
Lemma join_one (matches : Fts.t -> bool) (o : Observation.t) (l : list Observation.t) :
  NoDup (Observation.id <$> l) -> o ∈ l ->
  (f ← fts_of <$> l;
   if (Observation.id o =? Fts.rowid f) && matches f then [o] else [])
  = if matches (fts_of o) then [o] else [].
Proof.
  induction l as [|x l IH]; intros Hnd Hin; [now apply not_elem_of_nil in Hin|].
  rewrite fmap_cons in Hnd. apply NoDup_cons in Hnd as [Hx Hnd].
  rewrite fmap_cons. cbn [mbind list_bind]. cbn [fts_of Fts.rowid] in *.
  destruct (Z.eqb_spec (Observation.id o) (Observation.id x)) as [E|E].
  - assert (o = x) as ->.
    { apply elem_of_cons in Hin as [->|Hin]; [reflexivity|].
      exfalso. apply Hx. rewrite <- E. now apply list_elem_of_fmap_2. }
    cbn [andb].
    assert ((f ← fts_of <$> l;
             if (Observation.id x =? Fts.rowid f) && matches f then [x] else []) = [])
      as ->; [|now rewrite app_nil_r].
    clear IH Hin Hnd E. induction l as [|y l IH]; [reflexivity|].
    rewrite fmap_cons. cbn [mbind list_bind fts_of Fts.rowid].
    rewrite fmap_cons in Hx. apply not_elem_of_cons in Hx as [Hy Hx].
    destruct (Z.eqb_spec (Observation.id x) (Observation.id y)); [contradiction|].
    cbn [andb app]. apply IH, Hx.
  - cbn [andb app]. apply IH; [exact Hnd|].
    apply elem_of_cons in Hin as [->|Hin]; [contradiction | exact Hin].
Qed.

(** On an indexed store the join keeps the observations whose own text
    the query matches. *)
Lemma fts_join_indexed (matches : Fts.t -> bool) (st : Store) :
  indexed st ->
  fts_join matches st = List.filter (fun o => matches (fts_of o)) (observations st).
Proof.
  intros [Hfts Hnd]. unfold fts_join. rewrite Hfts.
  assert (forall l, l ⊆ observations st ->
            (o ← l; f ← fts_of <$> observations st;
             if (Observation.id o =? Fts.rowid f) && matches f then [o] else [])
            = List.filter (fun o => matches (fts_of o)) l) as H.
  { induction l as [|o l IH]; intros Hsub; [reflexivity|].
    rewrite bind_cons. cbn [List.filter].
    rewrite (join_one matches o _ Hnd) by (apply Hsub; left).
    rewrite IH by (intros y Hy; apply Hsub; now right).
    now destruct (matches (fts_of o)). }
  now apply H.
Qed.

Lemma indexed_empty : indexed empty_store.
Proof. split; [reflexivity | constructor]. Qed.

(** [storeObservation] keeps the store indexed, whether the row is
    accepted or not. *)
Lemma storeObservation_indexed (st : Store) (sid project : string)
    (obs : ObservationFields.t) (pn : option Z) (dt : Z) (now now1 : Date) :
  indexed st -> indexed (exec (storeObservation sid project obs pn dt now now1) st).
Proof.
  intros [Hfts Hnd].
  destruct (storeObservation_run st sid project obs pn dt now now1)
    as (st0 & id0 & s & _ & _ & Hrun).
  unfold exec. rewrite Hrun.
  destruct (check_type (Js.or_str (ObservationFields.type obs) "change"));
    cbn [fst]; split; cbn [observations observations_fts]; try assumption.
  - now rewrite fmap_app, Hfts.
  - rewrite fmap_app. apply NoDup_app. split; [exact Hnd|].
    split; [|apply NoDup_singleton].
    intros x Hx Hnew. apply list_elem_of_singleton in Hnew. subst x.
    apply list_elem_of_In, next_rowid_above in Hx.
    cbn [observation_row Observation.id] in Hx. lia.
Qed.

End SearchFacts.


(** ** The worker's fallback observation *)

Section Basename.

Lemma not_slash (c : ascii) (s : string) :
  Js.includes (String c s) "/" = false ->
  Ascii.eqb c "/" = false /\ Js.includes s "/" = false.
Proof.
  cbn [Js.includes Js.startsWith]. rewrite (Ascii.eqb_sym c).
  destruct (Ascii.eqb "/" c); cbn; [discriminate | auto].
Qed.

Lemma basename_scan_segment (last cur name : string) :
  Js.includes name "/" = false -> cur +:+ name <> EmptyString ->
  basename_scan last cur name = cur +:+ name.
Proof.
  revert cur. induction name as [|c name IH]; intros cur Hno Hne.
  - rewrite app_empty_r in *. cbn [basename_scan].
    apply truthy_true in Hne. now rewrite Hne.
  - apply not_slash in Hno as [Hc Hno]. cbn [basename_scan]. rewrite Hc.
    rewrite IH; [now rewrite app_assoc_s | exact Hno |].
    rewrite app_assoc_s. cbn. destruct cur; discriminate.
Qed.

Lemma basename_scan_last (last cur dir name : string) :
  Js.includes name "/" = false -> name <> EmptyString ->
  basename_scan last cur (dir +:+ "/" +:+ name) = name.
Proof.
  intros Hno Hne. revert last cur.
  induction dir as [|c dir IH]; intros last cur.
  - cbn [String.append basename_scan]. cbn [Ascii.eqb Bool.eqb].
    now apply basename_scan_segment.
  - cbn [String.append basename_scan]. destruct (Ascii.eqb c "/"); apply IH.
Qed.

(** The basename of a path that ends in a segment without a slash is
    that segment. *)
Lemma basename_last_segment (dir name : string) :
  Js.includes name "/" = false -> name <> EmptyString ->
  basename (dir +:+ "/" +:+ name) = name.
Proof. apply basename_scan_last. Qed.

End Basename.

(** C8.  For every raw tool tuple: a tool name that contains "Read",
    "LS" or "Glob" produces no record; every other tool use (a name
    that holds none of the three, or no name) produces one, and then an
    input with a (non-empty) file_path yields the title "Modified "
    followed by the basename of the path, which for a path ending in
    "/name" is "name", and puts the path into files_modified; otherwise
    an input with a (non-empty) command yields the title "Executed: "
    followed by the first 40 code units of the command. *)
Theorem createSimpleObservation_titles (obs : ToolUse.t) :
  (forall a b t, t = "Read" \/ t = "LS" \/ t = "Glob" ->
     ToolUse.tool_name obs = Some (a +:+ t +:+ b) ->
     createSimpleObservation obs = None) /\
  ((forall n, ToolUse.tool_name obs = Some n ->
      Js.includes n "Read" = false /\ Js.includes n "LS" = false /\
      Js.includes n "Glob" = false) ->
   (exists o, createSimpleObservation obs = Some o) /\
   forall i, ToolUse.tool_input obs = Some i ->
     (forall p, ToolInput.file_path i = Some p -> p <> EmptyString ->
        exists o fm,
          createSimpleObservation obs = Some o /\
          ObservationFields.title o = Some ("Modified " +:+ basename p) /\
          ObservationFields.files_modified o = Some fm /\ p ∈ fm /\
          (forall dir name, p = dir +:+ "/" +:+ name ->
             Js.includes name "/" = false -> name <> EmptyString ->
             ObservationFields.title o = Some ("Modified " +:+ name))) /\
     (forall c,
        ToolInput.file_path i = None \/ ToolInput.file_path i = Some EmptyString ->
        ToolInput.command i = Some c -> c <> EmptyString ->
        exists o,
          createSimpleObservation obs = Some o /\
          ObservationFields.title o = Some ("Executed: " +:+ Js.substring_to 40 c) /\
          String.length (Js.substring_to 40 c) = Nat.min 40 (String.length c) /\
          c = Js.substring_to 40 c +:+ Js.substring_from 40 c)).
Proof.
  split.
  - intros a b t Ht Hname. unfold createSimpleObservation.
    assert (existsb (name_includes (ToolUse.tool_name obs)) skipTools = true) as ->;
      [|reflexivity].
    apply existsb_exists. exists t. split.
    + unfold skipTools. cbn [In]. destruct Ht as [->|[->| ->]]; auto.
    + rewrite Hname. cbn [name_includes]. apply includes_spec. eauto.
  - intros Hname.
    assert (existsb (name_includes (ToolUse.tool_name obs)) skipTools = false) as Hskip.
    { unfold skipTools. cbn [existsb].
      destruct (ToolUse.tool_name obs) as [n|]; cbn [name_includes]; [|reflexivity].
      destruct (Hname n eq_refl) as (-> & -> & ->). reflexivity. }
    unfold createSimpleObservation. rewrite Hskip. split; [eauto|].
    intros i Hi. rewrite Hi.
    unfold input_field. cbn [mbind option_bind]. split.
    + intros p Hp Hne. rewrite Hp. cbn [Js.or_null].
      apply truthy_true in Hne. rewrite Hne.
      eexists _, _. split; [reflexivity|].
      cbn [ObservationFields.title ObservationFields.files_modified].
      split; [reflexivity|]. split; [reflexivity|].
      split; [apply list_elem_of_here|].
      intros dir name -> Hno Hname'. now rewrite basename_last_segment.
    + intros c Hfp Hc Hne. rewrite Hc.
      assert (Js.or_null (ToolInput.file_path i) = None) as ->.
      { destruct Hfp as [-> | ->]; reflexivity. }
      cbn [Js.or_null]. apply truthy_true in Hne. rewrite Hne.
      eexists. split; [reflexivity|]. cbn [ObservationFields.title].
      split; [reflexivity|].
      split; [apply length_substring_to | apply substring_split].
Qed.

Lemma createSimpleObservation_titles_witness :
  createSimpleObservation
    (ToolUse.mk (Some "MultiRead")
       (Some (ToolInput.mk (Some "src/auth.js") None None))) = None /\
  (exists o fm,
     createSimpleObservation
       (ToolUse.mk (Some "Write")
          (Some (ToolInput.mk (Some "test/example.js") None None))) = Some o /\
     ObservationFields.title o = Some ("Modified " +:+ basename "test/example.js") /\
     ObservationFields.files_modified o = Some fm /\ "test/example.js" ∈ fm /\
     (forall dir name, "test/example.js" = dir +:+ "/" +:+ name ->
        Js.includes name "/" = false -> name <> EmptyString ->
        ObservationFields.title o = Some ("Modified " +:+ name))) /\
  (exists o,
     createSimpleObservation
       (ToolUse.mk (Some "Bash") (Some (ToolInput.mk None None (Some "npm test"))))
       = Some o /\
     ObservationFields.title o = Some ("Executed: " +:+ Js.substring_to 40 "npm test") /\
     String.length (Js.substring_to 40 "npm test")
       = Nat.min 40 (String.length "npm test") /\
     "npm test" = Js.substring_to 40 "npm test" +:+ Js.substring_from 40 "npm test").
Proof.
  split; [|split].
  - apply (proj1 (createSimpleObservation_titles
                    (ToolUse.mk (Some "MultiRead")
                       (Some (ToolInput.mk (Some "src/auth.js") None None))))
             "Multi" "" "Read").
    + left. reflexivity.
    + reflexivity.
  - destruct (proj2 (createSimpleObservation_titles
                       (ToolUse.mk (Some "Write")
                          (Some (ToolInput.mk (Some "test/example.js") None None)))))
      as [_ H].
    + intros n E. injection E as <-. repeat split; reflexivity.
    + destruct (H _ eq_refl) as [Hfile _].
      apply (Hfile "test/example.js"); [reflexivity | discriminate].
  - destruct (proj2 (createSimpleObservation_titles
                       (ToolUse.mk (Some "Bash")
                          (Some (ToolInput.mk None None (Some "npm test"))))))
      as [_ H].
    + intros n E. injection E as <-. repeat split; reflexivity.
    + destruct (H _ eq_refl) as [_ Hcommand].
      apply (Hcommand "npm test"); [left; reflexivity | reflexivity | discriminate].
Defined.

Example write_tool :
  createSimpleObservation
    (ToolUse.mk (Some "Write")
       (Some (ToolInput.mk (Some "test/example.js") None None)))
  = Some (ObservationFields.mk (Some "change") (Some "Modified example.js")
            (Some "Tool: Write") (Some []) None (Some ["what-changed"]) (Some [])
            (Some ["test/example.js"])).
Proof. reflexivity. Qed.

Example bash_tool :
  ObservationFields.title <$>
    createSimpleObservation
      (ToolUse.mk (Some "Bash")
         (Some (ToolInput.mk None None
            (Some "npm run build && npm test -- --runInBand --coverage"))))
  = Some (Some "Executed: npm run build && npm test -- --runInBand").
Proof. reflexivity. Qed.

Example read_tool :
  createSimpleObservation
    (ToolUse.mk (Some "Read") (Some (ToolInput.mk (Some "src/auth.js") None None)))
  = None.
Proof. reflexivity. Qed.

(** ** The file column of the digest *)

Section FileColumn.

Lemma extractFirstFile_empty (cwd : string) :
  extractFirstFile (Some (Json.stringify [])) cwd = "(no file)".
Proof. reflexivity. Qed.

Lemma extractFirstFile_as_stored (f : string) (rest : list string) :
  f <> EmptyString ->
  extractFirstFile (Some (Json.stringify (f :: rest))) "" = f.
Proof.
  intros Hf. unfold extractFirstFile. rewrite parseJsonArray_stringify.
  cbn [Js.truthy andb]. apply truthy_true in Hf. now rewrite Hf.
Qed.

Lemma extractFirstFile_relative (cwd rel : string) (rest : list string) :
  cwd <> EmptyString -> rel <> EmptyString ->
  extractFirstFile (Some (Json.stringify ((cwd +:+ "/" +:+ rel) :: rest))) cwd = rel.
Proof.
  intros Hc Hr. unfold extractFirstFile. rewrite parseJsonArray_stringify.
  apply truthy_true in Hc. rewrite Hc, startsWith_app. cbn [andb].
  replace (String.length cwd + 1)%nat with (String.length (cwd +:+ "/"))
    by (rewrite length_app_s; reflexivity).
  rewrite <- app_assoc_s, substring_from_app.
  apply truthy_true in Hr. now rewrite Hr.
Qed.

End FileColumn.

(** C9, as amended.  In every row of a day's table the file column
    shows the first path of the observation's modified-files list as it
    is stored, and the literal "(no file)" when the list is empty or
    its first path is the empty string.  The row loop passes no working
    directory to [extractFirstFile], so no path is made relative: a
    path inside a directory is shown in full. *)
Theorem file_column_first_path (formatTime : string -> string) (lastTime : string)
    (obs : Observation.t) (files : list string) :
  Observation.files_modified obs = Some (Json.stringify files) ->
  (files = [] -> cell_file (row_cells formatTime lastTime obs) = "(no file)") /\
  (forall f rest, files = f :: rest -> f <> EmptyString ->
     cell_file (row_cells formatTime lastTime obs) = f) /\
  (forall rest, files = EmptyString :: rest ->
     cell_file (row_cells formatTime lastTime obs) = "(no file)") /\
  (forall cwd rel rest, files = (cwd +:+ "/" +:+ rel) :: rest ->
     cell_file (row_cells formatTime lastTime obs) = cwd +:+ "/" +:+ rel).
Proof.
  intros Hfiles. cbn [row_cells cell_file]. rewrite Hfiles.
  split; [intros ->; apply extractFirstFile_empty|]. split; [|split].
  - intros f rest -> Hf. now apply extractFirstFile_as_stored.
  - intros rest ->. unfold extractFirstFile. now rewrite parseJsonArray_stringify.
  - intros cwd rel rest ->. apply extractFirstFile_as_stored.
    destruct cwd; discriminate.
Qed.

Lemma file_column_first_path_witness :
  (["/test/project/src/auth.js"] = [] ->
   cell_file (row_cells utc_time "" auth_observation) = "(no file)") /\
  (forall f rest, ["/test/project/src/auth.js"] = f :: rest -> f <> EmptyString ->
     cell_file (row_cells utc_time "" auth_observation) = f) /\
  (forall rest, ["/test/project/src/auth.js"] = EmptyString :: rest ->
     cell_file (row_cells utc_time "" auth_observation) = "(no file)") /\
  (forall cwd rel rest,
     ["/test/project/src/auth.js"] = (cwd +:+ "/" +:+ rel) :: rest ->
     cell_file (row_cells utc_time "" auth_observation) = cwd +:+ "/" +:+ rel).
Proof.
  apply (file_column_first_path utc_time "" auth_observation
           ["/test/project/src/auth.js"]).
  reflexivity.
Defined.

(** C9 as stated fails: the first modified path of [auth_observation]
    lies inside "/test/project", and its row shows the path in full,
    not "src/auth.js"; the helper itself, given that directory with its
    trailing slash, cuts one code unit too many. *)
Lemma row_shows_path_in_full :
  parseJsonArray (Observation.files_modified auth_observation)
    = ["/test/project" +:+ "/" +:+ "src/auth.js"] /\
  cell_file (row_cells utc_time "" auth_observation) = "/test/project/src/auth.js" /\
  cell_file (row_cells utc_time "" auth_observation) <> "src/auth.js" /\
  extractFirstFile (Observation.files_modified auth_observation) "/test/project/"
    = "rc/auth.js".
Proof.
  split; [vm_compute; reflexivity|]. split; [vm_compute; reflexivity|].
  split; [vm_compute; discriminate | vm_compute; reflexivity].
Qed.

Example row_shows_stored_path :
  cell_file (row_cells utc_time "" auth_observation)
  = "/test/project/src/auth.js".
Proof. vm_compute. reflexivity. Qed.

Example helper_relative_path :
  extractFirstFile (Observation.files_modified auth_observation) "/test/project"
  = "src/auth.js".
Proof. vm_compute. reflexivity. Qed.

Example no_file_marker :
  cell_file (row_cells utc_time ""
    (observation_row empty_store "s1" "demo" bare_observation None 0 clock0))
  = "(no file)".
Proof. vm_compute. reflexivity. Qed.

(** * More of the store *)

Section SessionUpdates.

Lemma exec_update_sessions (f : Session.t -> Session.t) (sid : string) (st : Store) :
  exec (update_sessions f sid) st = with_sessions st (updated f sid (sessions st)).
Proof. reflexivity. Qed.

Lemma incrementPromptCounter_exec (sid : string) (st : Store) :
  exec (incrementPromptCounter sid) st
  = with_sessions st (updated bump_counter sid (sessions st)).
Proof. reflexivity. Qed.

Lemma markSessionCompleted_exec (sid : string) (now : Date) (st : Store) :
  exec (markSessionCompleted sid now) st
  = with_sessions st (updated (complete now) sid (sessions st)).
Proof. reflexivity. Qed.

Lemma find_session_updated_other (f : Session.t -> Session.t) (sid sid' : string)
    (l : list Session.t) :
  (forall s, Session.session_id (f s) = Session.session_id s) ->
  sid' <> sid ->
  find_session sid' (updated f sid l) = find_session sid' l.
Proof.
  intros Hf Hne. unfold find_session, updated.
  induction l as [|x l IH]; [reflexivity|].
  rewrite fmap_cons. cbn [List.find].
  destruct (String.eqb_spec (Session.session_id x) sid) as [E|E].
  - rewrite Hf, E. destruct (String.eqb_spec sid sid'); [congruence | exact IH].
  - destruct (String.eqb (Session.session_id x) sid'); [reflexivity | exact IH].
Qed.

Lemma updated_fmap {B} (g : Session.t -> B) (f : Session.t -> Session.t)
    (sid : string) (l : list Session.t) :
  (forall s, g (f s) = g s) -> g <$> updated f sid l = g <$> l.
Proof.
  intros Hg. unfold updated. rewrite <- list_fmap_compose.
  apply list_fmap_ext. intros _ s _. cbn.
  destruct (String.eqb (Session.session_id s) sid); [apply Hg | reflexivity].
Qed.

Lemma elem_of_updated (f : Session.t -> Session.t) (sid : string)
    (l : list Session.t) (s' : Session.t) :
  s' ∈ updated f sid l -> exists s, s ∈ l /\ (s' = s \/ s' = f s).
Proof.
  unfold updated. intros (s & -> & Hs)%list_elem_of_fmap. exists s.
  split; [exact Hs|].
  destruct (String.eqb (Session.session_id s) sid); auto.
Qed.

Lemma find_session_is_Some (sid : string) (l : list Session.t) :
  is_Some (find_session sid l) <-> sid ∈ Session.session_id <$> l.
Proof.
  unfold find_session. induction l as [|x l IH]; cbn [List.find].
  - rewrite fmap_nil. split; [intros [? ?]; discriminate | intros H; inversion H].
  - rewrite fmap_cons, elem_of_cons.
    destruct (String.eqb_spec (Session.session_id x) sid) as [E|E].
    + split; eauto.
    + rewrite IH. split; [auto | intros [?|?]; congruence].
Qed.

End SessionUpdates.

(** X1.  [markSessionCompleted] is idempotent with the last call
    winning: after two calls the session is completed with the second
    call's time, and its id, project, prompt, counter and start time are
    what they were.  On a session id without a row the call silently
    changes nothing. *)
Theorem markSessionCompleted_twice (st : Store) (sid : string) (s : Session.t)
    (now1 now2 : Date) :
  find_session sid (sessions st) = Some s ->
  (exists s',
     getSession sid (exec (markSessionCompleted sid now2)
                       (exec (markSessionCompleted sid now1) st))
       = (exec (markSessionCompleted sid now2)
            (exec (markSessionCompleted sid now1) st), Returned (Some s')) /\
     Session.status s' = completed /\
     Session.completed_at s' = Some (toISOString now2) /\
     Session.completed_at_epoch s' = Some (getTime now2) /\
     Session.id s' = Session.id s /\
     Session.project s' = Session.project s /\
     Session.user_prompt s' = Session.user_prompt s /\
     Session.prompt_counter s' = Session.prompt_counter s /\
     Session.started_at_epoch s' = Session.started_at_epoch s) /\
  (forall other, find_session other (sessions st) = None ->
     markSessionCompleted other now1 st = (st, Returned tt)).
Proof.
  intros Hs. split.
  - exists (complete now2 (complete now1 s)).
    rewrite !markSessionCompleted_exec. unfold getSession.
    cbn [with_sessions sessions].
    rewrite !find_session_updated by reflexivity. rewrite Hs.
    repeat split; reflexivity.
  - intros other Hn. unfold markSessionCompleted, update_sessions.
    fold (updated (complete now1) other (sessions st)).
    rewrite (updated_none _ _ _ Hn).
    fold (with_sessions st (sessions st)). now rewrite with_sessions_same.
Qed.

Lemma markSessionCompleted_twice_witness :
  (exists s',
     getSession "s1" (exec (markSessionCompleted "s1" clock2)
                        (exec (markSessionCompleted "s1" clock1)
                           (history [CreateSession "s1" "demo" "Fix the login bug" clock0])))
       = (exec (markSessionCompleted "s1" clock2)
            (exec (markSessionCompleted "s1" clock1)
               (history [CreateSession "s1" "demo" "Fix the login bug" clock0])),
          Returned (Some s')) /\
     Session.status s' = completed /\
     Session.completed_at s' = Some (toISOString clock2) /\
     Session.completed_at_epoch s' = Some (getTime clock2) /\
     Session.id s' = 1 /\
     Session.project s' = "demo" /\
     Session.user_prompt s' = Some "Fix the login bug" /\
     Session.prompt_counter s' = 0 /\
     Session.started_at_epoch s' = getTime clock0) /\
  (forall other,
     find_session other
       (sessions (history [CreateSession "s1" "demo" "Fix the login bug" clock0])) = None ->
     markSessionCompleted other clock1
       (history [CreateSession "s1" "demo" "Fix the login bug" clock0])
     = (history [CreateSession "s1" "demo" "Fix the login bug" clock0], Returned tt)).
Proof.
  apply (markSessionCompleted_twice
           (history [CreateSession "s1" "demo" "Fix the login bug" clock0]) "s1"
           (new_session empty_store "s1" "demo" "Fix the login bug" clock0)
           clock1 clock2).
  reflexivity.
Defined.

(** X2.  On a session whose counter is 0 (as [createSession] leaves a
    new one), [n] calls of [incrementPromptCounter] in a row return
    1, 2, ..., n, and [getPromptCounter] then reads [n] without changing
    the store. *)
Theorem increments_count (n : nat) (st : Store) (sid : string) (s : Session.t) :
  find_session sid (sessions st) = Some s ->
  Session.prompt_counter s = 0 ->
  exists st',
    increments n sid st = (st', Returned (seqZ 1 (Z.of_nat n))) /\
    getPromptCounter sid st' = (st', Returned (Z.of_nat n)).
Proof.
  intros Hs Hc.
  assert (forall n st s k,
            find_session sid (sessions st) = Some s ->
            Session.prompt_counter s = k -> 0 <= k ->
            exists st' s',
              increments n sid st = (st', Returned (seqZ (k + 1) (Z.of_nat n))) /\
              find_session sid (sessions st') = Some s' /\
              Session.prompt_counter s' = k + Z.of_nat n) as H.
  { clear. induction n as [|n IH]; intros st s k Hs Hk Hpos.
    - exists st, s. split; [reflexivity|]. split; [exact Hs | lia].
    - destruct (incrementPromptCounter_existing st sid s Hs) as [Hinc Hfind].
      destruct (IH (with_sessions st (updated bump_counter sid (sessions st)))
                  (bump_counter s) (k + 1) Hfind) as (st' & s' & Hrun & Hs' & Hk').
      { cbn. lia. } { lia. }
      exists st', s'. split; [|split; [exact Hs' | lia]].
      cbn [increments]. rewrite bind_run, Hinc, bind_run, Hrun.
      rewrite Hk. cbn [Js.or_num].
      destruct (Z.eqb_spec (k + 1) 0); [lia|].
      rewrite (seqZ_cons (k + 1) (Z.of_nat (S n))) by lia.
      replace (Z.pred (Z.of_nat (S n))) with (Z.of_nat n) by lia.
      replace (Z.succ (k + 1)) with (k + 1 + 1) by lia. reflexivity. }
  destruct (H n st s 0 Hs Hc) as (st' & s' & Hrun & Hs' & Hk'); [lia|].
  exists st'. split; [exact Hrun|].
  unfold getPromptCounter. rewrite bind_run. unfold getSession. rewrite Hs'.
  cbn [fmap option_fmap option_map]. rewrite Hk'. cbn [Js.or_num].
  unfold mret, db_ret. do 2 f_equal.
  destruct (Z.eqb_spec (0 + Z.of_nat n) 0); lia.
Qed.

Lemma increments_count_witness :
  exists st',
    increments 5 "s1" (history [CreateSession "s1" "demo" "Fix the login bug" clock0])
      = (st', Returned (seqZ 1 (Z.of_nat 5))) /\
    getPromptCounter "s1" st' = (st', Returned (Z.of_nat 5)).
Proof.
  apply (increments_count 5
           (history [CreateSession "s1" "demo" "Fix the login bug" clock0]) "s1"
           (new_session empty_store "s1" "demo" "Fix the login bug" clock0)).
  - reflexivity.
  - reflexivity.
Defined.

(** X3.  The two counter reads disagree on a missing session:
    [getPromptCounter] falls back to 0 where [incrementPromptCounter]
    falls back to 1, and neither creates the session.  On an existing
    session with a non-negative counter, [getPromptCounter] reads the
    value the last [incrementPromptCounter] returned. *)
Theorem counter_fallbacks (st : Store) (sid : string) :
  (find_session sid (sessions st) = None ->
     getPromptCounter sid st = (st, Returned 0) /\
     incrementPromptCounter sid st = (st, Returned 1)) /\
  (forall s, find_session sid (sessions st) = Some s ->
     0 <= Session.prompt_counter s ->
     exists st',
       incrementPromptCounter sid st = (st', Returned (Session.prompt_counter s + 1)) /\
       getPromptCounter sid st' = (st', Returned (Session.prompt_counter s + 1))).
Proof.
  split.
  - intros Hn. split; [|now apply incrementPromptCounter_missing].
    unfold getPromptCounter. rewrite bind_run. unfold getSession. now rewrite Hn.
  - intros s Hs Hpos.
    destruct (incrementPromptCounter_existing st sid s Hs) as [Hinc Hfind].
    eexists. split.
    + rewrite Hinc. cbn [Js.or_num].
      destruct (Z.eqb_spec (Session.prompt_counter s + 1) 0); [lia | reflexivity].
    + unfold getPromptCounter. rewrite bind_run. unfold getSession.
      cbn [with_sessions sessions]. rewrite Hfind.
      cbn [fmap option_fmap option_map bump_counter Session.prompt_counter Js.or_num].
      destruct (Z.eqb_spec (Session.prompt_counter s + 1) 0); [lia | reflexivity].
Qed.

Section Frame.

Lemma sessions_after_createSession (st : Store) (sid project prompt : string)
    (now : Date) :
  sessions (exec (createSession sid project prompt now) st) =
  match find_session sid (sessions st) with
  | None => sessions st ++ [new_session st sid project prompt now]
  | Some _ =>
      if Js.truthy project
      then updated (set_project_prompt project prompt) sid (sessions st)
      else sessions st
  end.
Proof.
  unfold exec. destruct (find_session sid (sessions st)) as [s|] eqn:E.
  - rewrite (createSession_existing _ _ _ _ _ _ E).
    now destruct (Js.truthy project).
  - now rewrite (createSession_new _ _ _ _ _ E).
Qed.

Lemma tables_after_createSession (st : Store) (sid project prompt : string)
    (now : Date) :
  observations (exec (createSession sid project prompt now) st) = observations st /\
  observations_fts (exec (createSession sid project prompt now) st)
    = observations_fts st /\
  session_summaries (exec (createSession sid project prompt now) st)
    = session_summaries st.
Proof.
  unfold exec.
  destruct (createSession_ensures st sid project prompt now)
    as (st' & id & s & -> & _ & _ & H).
  exact H.
Qed.

Lemma sessions_after_storeObservation (st : Store) (sid project : string)
    (obs : ObservationFields.t) (pn : option Z) (dt : Z) (now now1 : Date) :
  sessions (exec (storeObservation sid project obs pn dt now now1) st)
  = sessions (exec (createSession sid project "" now1) st).
Proof.
  destruct (storeObservation_run st sid project obs pn dt now now1)
    as (st0 & id0 & s & Hc & _ & Hrun).
  unfold exec. rewrite Hrun, Hc.
  now destruct (check_type (Js.or_str (ObservationFields.type obs) "change")).
Qed.

Lemma sessions_after_storeSummary (st : Store) (sid project : string)
    (sm : SummaryFields.t) (pn : option Z) (dt : Z) (now now1 : Date) :
  sessions (exec (storeSummary sid project sm pn dt now now1) st)
  = sessions (exec (createSession sid project "" now1) st).
Proof.
  destruct (storeSummary_run st sid project sm pn dt now now1)
    as (st0 & id0 & s & Hc & _ & Hrun).
  unfold exec. now rewrite Hrun, Hc.
Qed.

Lemma createSession_frame (st : Store) (sid project prompt : string) (now : Date)
    (other : string) :
  other <> sid ->
  find_session other (sessions (exec (createSession sid project prompt now) st))
  = find_session other (sessions st).
Proof.
  intros Hne. rewrite sessions_after_createSession.
  destruct (find_session sid (sessions st)).
  - destruct (Js.truthy project); [|reflexivity].
    now apply find_session_updated_other.
  - now apply (find_session_app_other other sid).
Qed.

End Frame.

(** X4.  Every writing call leaves the rows of the other sessions as
    they were: [getSession] on a session id other than the one the call
    names returns the same row before and after. *)
Theorem call_leaves_other_sessions (c : Call) (st : Store) (other : string) :
  other <> session_of c ->
  getSession other (call c st) = (call c st, Returned (find_session other (sessions st))).
Proof.
  intros Hne. unfold getSession. f_equal. f_equal.
  destruct c as [sid p u now|sid|sid now|sid p o pn dt now snow|sid p s pn dt now snow];
    cbn [call session_of] in *.
  - now apply createSession_frame.
  - rewrite incrementPromptCounter_exec. cbn [with_sessions sessions].
    now apply find_session_updated_other.
  - rewrite markSessionCompleted_exec. cbn [with_sessions sessions].
    now apply find_session_updated_other.
  - rewrite sessions_after_storeObservation. now apply createSession_frame.
  - rewrite sessions_after_storeSummary. now apply createSession_frame.
Qed.

Lemma call_leaves_other_sessions_witness :
  getSession "s2"
    (call (StoreObservation "s1" "demo" ab_observation None 0 clock2 clock2)
       (history [CreateSession "s1" "demo" "Fix the login bug" clock0;
                 CreateSession "s2" "other" "Write the docs" clock1]))
  = (call (StoreObservation "s1" "demo" ab_observation None 0 clock2 clock2)
       (history [CreateSession "s1" "demo" "Fix the login bug" clock0;
                 CreateSession "s2" "other" "Write the docs" clock1]),
     Returned (find_session "s2"
       (sessions (history [CreateSession "s1" "demo" "Fix the login bug" clock0;
                           CreateSession "s2" "other" "Write the docs" clock1])))).
Proof.
  apply (call_leaves_other_sessions
           (StoreObservation "s1" "demo" ab_observation None 0 clock2 clock2)
           (history [CreateSession "s1" "demo" "Fix the login bug" clock0;
                     CreateSession "s2" "other" "Write the docs" clock1]) "s2").
  discriminate.
Defined.

Lemma next_session_rowid_spent (st st' : Store) :
  Session.id <$> sessions st' = Session.id <$> sessions st ->
  sessions_seq st' = next_session_rowid st ->
  next_session_rowid st' = next_session_rowid st + 1.
Proof.
  intros Hids Hseq. unfold next_session_rowid in *. unfold next_rowid in *.
  cbn [foldr] in *. rewrite Hids, Hseq. lia.
Qed.

(** X5.  [createSession] on a session that exists returns its internal
    id and never touches its counter, start time, status or completion
    time, nor any observation or summary; with an empty project it
    changes no row at all, whatever prompt is supplied.  The ignored
    INSERT spends a rowid all the same: a session created afterwards
    gets an id one larger than it would have got before. *)
Theorem createSession_keeps_progress (st : Store) (sid project prompt : string)
    (now : Date) (s : Session.t) :
  find_session sid (sessions st) = Some s ->
  exists st' s',
    createSession sid project prompt now st = (st', Returned (Some (Session.id s))) /\
    getSession sid st' = (st', Returned (Some s')) /\
    Session.id s' = Session.id s /\
    Session.prompt_counter s' = Session.prompt_counter s /\
    Session.started_at s' = Session.started_at s /\
    Session.started_at_epoch s' = Session.started_at_epoch s /\
    Session.status s' = Session.status s /\
    Session.completed_at s' = Session.completed_at s /\
    Session.completed_at_epoch s' = Session.completed_at_epoch s /\
    (project = EmptyString -> sessions st' = sessions st) /\
    observations st' = observations st /\
    observations_fts st' = observations_fts st /\
    session_summaries st' = session_summaries st /\
    (forall other p u later, find_session other (sessions st) = None ->
       exists st1 st2 id,
         createSession other p u later st = (st1, Returned (Some id)) /\
         createSession other p u later st' = (st2, Returned (Some (id + 1)))).
Proof.
  intros Hs. rewrite (createSession_existing _ _ _ _ _ _ Hs).
  set (st' := with_seq _ (next_session_rowid st)).
  assert (Session.id <$> sessions st' = Session.id <$> sessions st) as Hids.
  { subst st'. destruct (Js.truthy project); cbn [with_seq with_sessions sessions];
      [now rewrite updated_fmap | reflexivity]. }
  assert (forall other, find_session other (sessions st) = None ->
                        find_session other (sessions st') = None) as Hnone.
  { intros other Hn. subst st'.
    destruct (Js.truthy project); cbn [with_seq with_sessions sessions]; [|exact Hn].
    rewrite find_session_updated_other; [exact Hn | reflexivity |].
    intros ->. congruence. }
  assert (forall other p u later, find_session other (sessions st) = None ->
            exists st1 st2 id,
              createSession other p u later st = (st1, Returned (Some id)) /\
              createSession other p u later st' = (st2, Returned (Some (id + 1))))
    as Hnext.
  { intros other p u later Hn.
    rewrite (createSession_new _ _ _ _ _ Hn), (createSession_new _ _ _ _ _ (Hnone _ Hn)).
    rewrite (next_session_rowid_spent st st' Hids eq_refl). eauto. }
  exists st'. subst st'.
  destruct project as [|c project]; cbn [Js.truthy] in *.
  - exists s. split; [reflexivity|]. unfold getSession.
    cbn [with_seq sessions observations observations_fts session_summaries].
    rewrite Hs. repeat split; try reflexivity. exact Hnext.
  - exists (set_project_prompt (String c project) prompt s).
    split; [reflexivity|]. unfold getSession.
    cbn [with_seq with_sessions sessions observations observations_fts
         session_summaries].
    rewrite find_session_updated by reflexivity. rewrite Hs.
    repeat split; try reflexivity; [discriminate | exact Hnext].
Qed.

Lemma createSession_keeps_progress_witness :
  exists st' s',
    createSession "s1" "" "Another prompt" clock2
      (history [CreateSession "s1" "demo" "Fix the login bug" clock0;
                IncrementPromptCounter "s1"; MarkSessionCompleted "s1" clock1])
      = (st', Returned (Some
           (Session.id (complete clock1 (bump_counter
              (new_session empty_store "s1" "demo" "Fix the login bug" clock0)))))) /\
    getSession "s1" st' = (st', Returned (Some s')) /\
    Session.id s' = 1 /\
    Session.prompt_counter s' = 1 /\
    Session.started_at s' = toISOString clock0 /\
    Session.started_at_epoch s' = getTime clock0 /\
    Session.status s' = completed /\
    Session.completed_at s' = Some (toISOString clock1) /\
    Session.completed_at_epoch s' = Some (getTime clock1) /\
    ("" = EmptyString ->
     sessions st'
     = sessions (history [CreateSession "s1" "demo" "Fix the login bug" clock0;
                          IncrementPromptCounter "s1"; MarkSessionCompleted "s1" clock1])) /\
    observations st' = [] /\
    observations_fts st' = [] /\
    session_summaries st' = [] /\
    (forall other p u later,
       find_session other
         (sessions (history [CreateSession "s1" "demo" "Fix the login bug" clock0;
                             IncrementPromptCounter "s1";
                             MarkSessionCompleted "s1" clock1])) = None ->
       exists st1 st2 id,
         createSession other p u later
           (history [CreateSession "s1" "demo" "Fix the login bug" clock0;
                     IncrementPromptCounter "s1"; MarkSessionCompleted "s1" clock1])
           = (st1, Returned (Some id)) /\
         createSession other p u later st' = (st2, Returned (Some (id + 1)))).
Proof.
  apply (createSession_keeps_progress
           (history [CreateSession "s1" "demo" "Fix the login bug" clock0;
                     IncrementPromptCounter "s1"; MarkSessionCompleted "s1" clock1])
           "s1" "" "Another prompt" clock2
           (complete clock1 (bump_counter
              (new_session empty_store "s1" "demo" "Fix the login bug" clock0)))).
  reflexivity.
Defined.

(** The ignored insert for "s1" spends rowid 2, so "s2" is session 3. *)
Example ignored_insert_spends_rowid :
  Session.id <$> sessions
    (history [CreateSession "s1" "demo" "" clock0; CreateSession "s1" "demo" "" clock1;
              CreateSession "s2" "demo" "" clock2])
  = [1; 3].
Proof. reflexivity. Qed.

Section Consistency.

Lemma tables_after_storeObservation (st : Store) (sid project : string)
    (obs : ObservationFields.t) (pn : option Z) (dt : Z) (now now1 : Date) :
  observations (exec (storeObservation sid project obs pn dt now now1) st)
  = observations st ++
    (if check_type (Js.or_str (ObservationFields.type obs) "change")
     then [observation_row st sid project obs pn dt now] else []) /\
  session_summaries (exec (storeObservation sid project obs pn dt now now1) st)
  = session_summaries st.
Proof.
  destruct (storeObservation_run st sid project obs pn dt now now1)
    as (st0 & id0 & s & Hc & _ & Hrun).
  unfold exec. rewrite Hrun.
  destruct (check_type (Js.or_str (ObservationFields.type obs) "change"));
    cbn [fst observations session_summaries]; [auto|].
  now rewrite app_nil_r.
Qed.

Lemma tables_after_storeSummary (st : Store) (sid project : string)
    (sm : SummaryFields.t) (pn : option Z) (dt : Z) (now now1 : Date) :
  observations (exec (storeSummary sid project sm pn dt now now1) st) = observations st /\
  observations_fts (exec (storeSummary sid project sm pn dt now now1) st)
  = observations_fts st /\
  session_summaries (exec (storeSummary sid project sm pn dt now now1) st)
  = session_summaries st ++ [summary_row st sid project sm pn dt now].
Proof.
  destruct (storeSummary_run st sid project sm pn dt now now1)
    as (st0 & id0 & s & Hc & _ & Hrun).
  unfold exec. rewrite Hrun. auto.
Qed.

Lemma NoDup_snoc_fresh {A} (key : A -> Z) (l : list A) (row : A) :
  NoDup (key <$> l) -> key row = next_rowid (key <$> l) ->
  NoDup (key <$> (l ++ [row])).
Proof.
  intros Hnd Hk. rewrite fmap_app. apply NoDup_app. split; [exact Hnd|].
  split; [|apply NoDup_singleton].
  intros x Hx Hnew. apply list_elem_of_singleton in Hnew. subst x.
  apply list_elem_of_In, next_rowid_above in Hx. lia.
Qed.

Lemma NoDup_snoc_above {A} (key : A -> Z) (l : list A) (row : A) :
  NoDup (key <$> l) -> (forall x, In x (key <$> l) -> x < key row) ->
  NoDup (key <$> (l ++ [row])).
Proof.
  intros Hnd Hk. rewrite fmap_app. apply NoDup_app. split; [exact Hnd|].
  split; [|apply NoDup_singleton].
  intros x Hx Hnew. apply list_elem_of_singleton in Hnew. subst x.
  apply list_elem_of_In, Hk in Hx. lia.
Qed.

Lemma sound_updated (f : Session.t -> Session.t) (sid : string) (l : list Session.t) :
  (forall s, session_sound s -> session_sound (f s)) ->
  (forall s, s ∈ l -> session_sound s) ->
  forall s, s ∈ updated f sid l -> session_sound s.
Proof.
  intros Hf Hl s' (s & Hs & [->| ->])%elem_of_updated; auto.
Qed.

(** The sessions table after [createSession] keeps what the constraints
    promise, and loses no session. *)
Lemma createSession_sessions (st : Store) (sid project prompt : string) (now : Date) :
  NoDup (Session.session_id <$> sessions st) ->
  NoDup (Session.id <$> sessions st) ->
  (forall s, s ∈ sessions st -> session_sound s) ->
  let l := sessions (exec (createSession sid project prompt now) st) in
  NoDup (Session.session_id <$> l) /\ NoDup (Session.id <$> l) /\
  (forall s, s ∈ l -> session_sound s) /\
  (forall x, is_Some (find_session x (sessions st)) -> is_Some (find_session x l)) /\
  is_Some (find_session sid l).
Proof.
  intros Hsid Hid Hsound l. subst l. rewrite sessions_after_createSession.
  destruct (find_session sid (sessions st)) as [s|] eqn:E.
  - destruct (Js.truthy project).
    + rewrite !updated_fmap by reflexivity.
      split; [exact Hsid|]. split; [exact Hid|]. split.
      { apply sound_updated; [|exact Hsound]. intros s0 H. exact H. }
      split.
      { intros x. rewrite !find_session_is_Some.
        now rewrite updated_fmap by reflexivity. }
      rewrite find_session_updated by reflexivity. rewrite E. eauto.
    + rewrite E. eauto 10.
  - split.
    { rewrite fmap_app. apply NoDup_app. split; [exact Hsid|].
      split; [|apply NoDup_singleton].
      intros x Hx Hnew. apply list_elem_of_singleton in Hnew. subst x.
      apply find_session_is_Some in Hx.
      cbn [new_session Session.session_id] in Hx. rewrite E in Hx.
      destruct Hx; discriminate. }
    split.
    { apply NoDup_snoc_above; [exact Hid|]. intros x Hx.
      cbn [new_session Session.id]. apply next_rowid_above. now right. }
    split.
    { intros s [Hs|Hs]%elem_of_app; [auto|].
      apply list_elem_of_singleton in Hs. subst s.
      split; cbn; [lia | auto]. }
    split.
    { intros x [s Hs]. rewrite (find_session_app_old _ _ _ _ Hs). eauto. }
    rewrite (find_session_app_new sid _ (new_session st sid project prompt now) E eq_refl).
    eauto.
Qed.

Lemma consistent_empty : consistent empty_store.
Proof.
  split; cbn [empty_store sessions observations session_summaries].
  - constructor.
  - constructor.
  - apply indexed_empty.
  - constructor.
  - intros o H. inversion H.
  - intros s H. inversion H.
  - intros s H. inversion H.
Qed.

Lemma consistent_updated (f : Session.t -> Session.t) (sid : string) (st : Store) :
  (forall s, Session.session_id (f s) = Session.session_id s) ->
  (forall s, Session.id (f s) = Session.id s) ->
  (forall s, session_sound s -> session_sound (f s)) ->
  consistent st -> consistent (with_sessions st (updated f sid (sessions st))).
Proof.
  intros Hsid Hid Hsound [H1 H2 H3 H4 H5 H6 H7].
  assert (forall x, is_Some (find_session x (sessions st)) ->
                    is_Some (find_session x (updated f sid (sessions st)))) as Hkeep.
  { intros x. rewrite !find_session_is_Some. now rewrite updated_fmap. }
  split; cbn [with_sessions sessions observations observations_fts session_summaries].
  - now rewrite updated_fmap.
  - now rewrite updated_fmap.
  - exact H3.
  - exact H4.
  - intros o Ho. destruct (H5 o Ho). auto.
  - intros s Hs. auto.
  - now apply sound_updated.
Qed.

Lemma call_consistent (c : Call) (st : Store) : consistent st -> consistent (call c st).
Proof.
  intros Hst.
  destruct c as [sid p u now|sid|sid now|sid p o pn dt now snow|sid p s pn dt now snow];
    cbn [call].
  - destruct Hst as [H1 H2 H3 H4 H5 H6 H7].
    destruct (createSession_sessions st sid p u now H1 H2 H7) as (L1 & L2 & L3 & L4 & _).
    destruct (tables_after_createSession st sid p u now) as (T1 & T2 & T3).
    split; try assumption.
    + destruct H3 as [Hsync Hnd]. split; rewrite ?T1, ?T2; assumption.
    + now rewrite T3.
    + intros x Hx. rewrite T1 in Hx. destruct (H5 x Hx). auto.
    + intros x Hx. rewrite T3 in Hx. auto.
  - rewrite incrementPromptCounter_exec.
    apply consistent_updated; try reflexivity; [|exact Hst].
    intros s [Hc Hs]. split; [cbn; lia | exact Hs].
  - rewrite markSessionCompleted_exec.
    apply consistent_updated; try reflexivity; [|exact Hst].
    intros s [Hc Hs]. split; [exact Hc | cbn; eauto].
  - pose proof (storeObservation_indexed st sid p o pn dt now snow (index_in_sync _ Hst))
      as Hidx.
    destruct Hst as [H1 H2 H3 H4 H5 H6 H7].
    destruct (createSession_sessions st sid p "" snow H1 H2 H7) as (L1 & L2 & L3 & L4 & L5).
    destruct (tables_after_storeObservation st sid p o pn dt now snow) as (T1 & T3).
    pose proof (sessions_after_storeObservation st sid p o pn dt now snow) as TS.
    split; rewrite ?TS, ?T3; try assumption.
    + intros x Hx. rewrite T1 in Hx. apply elem_of_app in Hx as [Hx|Hx].
      { destruct (H5 x Hx). auto. }
      destruct (check_type (Js.or_str (ObservationFields.type o) "change")) eqn:Hty;
        [|now apply not_elem_of_nil in Hx].
      apply list_elem_of_singleton in Hx. subst x.
      cbn [observation_row Observation.session_id Observation.type].
      split; [exact L5 | now apply check_type_spec].
    + intros x Hx. auto.
  - destruct Hst as [H1 H2 H3 H4 H5 H6 H7].
    destruct (createSession_sessions st sid p "" snow H1 H2 H7) as (L1 & L2 & L3 & L4 & L5).
    destruct (tables_after_storeSummary st sid p s pn dt now snow) as (T1 & T2 & T3).
    pose proof (sessions_after_storeSummary st sid p s pn dt now snow) as TS.
    split; rewrite ?TS, ?T3; try assumption.
    + destruct H3 as [Hsync Hnd]. split; rewrite ?T1, ?T2; assumption.
    + now apply NoDup_snoc_fresh.
    + intros x Hx. rewrite T1 in Hx. destruct (H5 x Hx). auto.
    + intros x [Hx|Hx]%elem_of_app; [auto|].
      apply list_elem_of_singleton in Hx. subst x. exact L5.
Qed.

End Consistency.

(** The calls keep the constraints from any consistent start. *)
Lemma calls_consistent (cs : list Call) (st : Store) :
  consistent st -> consistent (foldl (fun st c => call c st) st cs).
Proof.
  revert st. induction cs as [|c cs IH]; intros st H; [exact H|].
  cbn [foldl]. now apply IH, call_consistent.
Qed.

Lemma consistent_history (cs : list Call) : consistent (history cs).
Proof. apply calls_consistent, consistent_empty. Qed.

(** X6.  Every database the writing calls build from the empty one
    keeps what the schema promises: session ids and row ids are unique,
    every observation and summary belongs to an existing session, every
    observation has one of the six types, the search index mirrors the
    observations entry by entry, counters are never negative, and a
    session is either active without a completion time or completed
    with one (never failed). *)
Theorem history_consistent (cs : list Call) : consistent (history cs).
Proof.
  unfold history. rewrite <- (reverse_involutive cs).
  induction (reverse cs) as [|c l IH].
  - apply consistent_empty.
  - rewrite reverse_cons, foldl_snoc. now apply call_consistent.
Qed.

Section Recent.

Lemma elem_of_filter_bool {A} (P : A -> bool) (l : list A) (x : A) :
  x ∈ List.filter P l <-> x ∈ l /\ P x = true.
Proof. rewrite !list_elem_of_In. apply filter_In. Qed.

(** The head of [ORDER BY key DESC] is the strictly newest row, when
    there is one. *)
Lemma order_desc_head {A} (key : A -> Z) (l : list A) (x : A) :
  x ∈ l -> (forall y, y ∈ l -> key y < key x \/ y = x) ->
  exists rest, order_desc key l = x :: rest.
Proof.
  intros Hx Hmax.
  pose proof (order_desc_perm key l) as Hperm.
  pose proof (order_desc_sorted key l) as Hsorted.
  destruct (order_desc key l) as [|h t].
  - rewrite <- Hperm in Hx. now apply not_elem_of_nil in Hx.
  - assert (h ∈ l) as Hh by (rewrite <- Hperm; left).
    destruct (Hmax h Hh) as [Hlt| ->]; [|eauto].
    rewrite <- Hperm in Hx. apply elem_of_cons in Hx as [->|Hx]; [eauto|].
    apply StronglySorted_cons in Hsorted as [Hall _].
    rewrite Forall_forall in Hall. specialize (Hall x Hx).
    unfold newer_first in Hall. lia.
Qed.

Lemma sql_limit_head {A} (n : Z) (x : A) (l : list A) :
  n < 0 \/ 1 <= n -> exists rest, sql_limit n (x :: l) = x :: rest.
Proof.
  intros Hn. unfold sql_limit. destruct (Z.ltb_spec n 0); [eauto|].
  destruct (Z.to_nat n) as [|k] eqn:E; [lia|]. cbn [take]. eauto.
Qed.

Lemma sql_limit_all {A} (n : Z) (l : list A) :
  n < 0 \/ Z.of_nat (length l) <= n -> sql_limit n l = l.
Proof.
  intros Hn. unfold sql_limit. destruct (Z.ltb_spec n 0); [reflexivity|].
  apply take_ge. lia.
Qed.

End Recent.

(** The rows the two recent-rows queries return are rows of the
    project. *)
Lemma recent_rows_in (st : Store) (project : string) (limit : Z) :
  (exists rows,
     getRecentObservations project limit st = (st, Returned rows) /\
     forall o, o ∈ rows -> o ∈ observations st /\ Observation.project o = project) /\
  (exists rows,
     getRecentSummaries project limit st = (st, Returned rows) /\
     forall s, s ∈ rows -> s ∈ session_summaries st /\ Summary.project s = project).
Proof.
  split.
  - unfold getRecentObservations. eexists. split; [reflexivity|].
    intros o Ho.
    apply (order_limit_spec Observation.created_at_epoch), elem_of_filter_bool in Ho
      as [Ho E].
    apply String.eqb_eq in E. auto.
  - unfold getRecentSummaries. eexists. split; [reflexivity|].
    intros o Ho.
    apply (order_limit_spec Summary.created_at_epoch), elem_of_filter_bool in Ho
      as [Ho E].
    apply String.eqb_eq in E. auto.
Qed.

(** X7.  [getRecentObservations] and [getRecentSummaries] return rows
    of the given project only, ordered by creation epoch descending; a
    non-negative limit bounds the count (a negative one does not), and
    a row of the project that is left out is no newer than any row
    returned.  Neither changes the store. *)
Theorem recent_rows_of_project (st : Store) (project : string) (limit : Z) :
  (exists rows,
     getRecentObservations project limit st = (st, Returned rows) /\
     (forall o, o ∈ rows -> o ∈ observations st /\ Observation.project o = project) /\
     StronglySorted (newer_first Observation.created_at_epoch) rows /\
     (0 <= limit ->
        length rows = Nat.min (Z.to_nat limit)
          (length (List.filter (fun o => String.eqb (Observation.project o) project)
                     (observations st)))) /\
     (limit < 0 ->
        length rows = length (List.filter
          (fun o => String.eqb (Observation.project o) project) (observations st))) /\
     (forall o, o ∈ observations st -> Observation.project o = project -> o ∉ rows ->
        forall r, r ∈ rows ->
          Observation.created_at_epoch o <= Observation.created_at_epoch r)) /\
  (exists rows,
     getRecentSummaries project limit st = (st, Returned rows) /\
     (forall s, s ∈ rows -> s ∈ session_summaries st /\ Summary.project s = project) /\
     StronglySorted (newer_first Summary.created_at_epoch) rows /\
     (0 <= limit ->
        length rows = Nat.min (Z.to_nat limit)
          (length (List.filter (fun s => String.eqb (Summary.project s) project)
                     (session_summaries st)))) /\
     (limit < 0 ->
        length rows = length (List.filter
          (fun s => String.eqb (Summary.project s) project) (session_summaries st))) /\
     (forall s, s ∈ session_summaries st -> Summary.project s = project -> s ∉ rows ->
        forall r, r ∈ rows ->
          Summary.created_at_epoch s <= Summary.created_at_epoch r)).
Proof.
  split.
  - unfold getRecentObservations.
    set (scoped := List.filter _ (observations st)).
    destruct (order_limit_spec Observation.created_at_epoch limit scoped)
      as (Hsub & Hsorted & Hlen & Hold).
    eexists. split; [reflexivity|].
    split; [|split; [exact Hsorted|split; [exact Hlen|split]]].
    + intros o Ho. apply Hsub, elem_of_filter_bool in Ho as [Ho E].
      apply String.eqb_eq in E. auto.
    + intros Hneg. rewrite sql_limit_all by auto. now rewrite order_desc_perm.
    + intros o Ho Hp Hout. apply Hold; [|exact Hout].
      apply elem_of_filter_bool. split; [exact Ho | now apply String.eqb_eq].
  - unfold getRecentSummaries.
    set (scoped := List.filter _ (session_summaries st)).
    destruct (order_limit_spec Summary.created_at_epoch limit scoped)
      as (Hsub & Hsorted & Hlen & Hold).
    eexists. split; [reflexivity|].
    split; [|split; [exact Hsorted|split; [exact Hlen|split]]].
    + intros o Ho. apply Hsub, elem_of_filter_bool in Ho as [Ho E].
      apply String.eqb_eq in E. auto.
    + intros Hneg. rewrite sql_limit_all by auto. now rewrite order_desc_perm.
    + intros o Ho Hp Hout. apply Hold; [|exact Hout].
      apply elem_of_filter_bool. split; [exact Ho | now apply String.eqb_eq].
Qed.

(** X8.  An observation stored at a time strictly later than every
    observation of its project is what [getRecentObservations] returns
    first, for every limit of at least 1 (or negative). *)
Theorem stored_observation_comes_first (st : Store) (sid project : string)
    (obs : ObservationFields.t) (pn : option Z) (dt : Z) (now now1 : Date)
    (limit : Z) :
  Js.or_str (ObservationFields.type obs) "change" ∈ observation_types ->
  (forall o, o ∈ observations st -> Observation.project o = project ->
     Observation.created_at_epoch o < getTime now) ->
  limit < 0 \/ 1 <= limit ->
  exists st' id row rest,
    storeObservation sid project obs pn dt now now1 st = (st', Returned (id, getTime now)) /\
    getRecentObservations project limit st' = (st', Returned (row :: rest)) /\
    Observation.id row = id /\
    Observation.session_id row = sid /\
    Observation.created_at_epoch row = getTime now.
Proof.
  intros Hty Hnew Hlimit. apply check_type_spec in Hty.
  destruct (storeObservation_run st sid project obs pn dt now now1)
    as (st0 & id0 & s & _ & _ & Hrun).
  rewrite Hty in Hrun.
  set (row := observation_row st sid project obs pn dt now) in *.
  set (scoped := List.filter (fun o => String.eqb (Observation.project o) project)
                   (observations st ++ [row])).
  destruct (order_desc_head Observation.created_at_epoch scoped row) as [rest Hhead].
  { apply elem_of_filter_bool. split; [apply elem_of_app; right; left|].
    apply String.eqb_refl. }
  { intros y [Hy E]%elem_of_filter_bool. apply String.eqb_eq in E.
    apply elem_of_app in Hy as [Hy|Hy]; [left; now apply Hnew|].
    apply list_elem_of_singleton in Hy. now right. }
  destruct (sql_limit_head limit row rest Hlimit) as [rest' Hlim].
  eexists _, _, row, rest'. split; [exact Hrun|].
  unfold getRecentObservations. cbn [observations].
  fold scoped. rewrite Hhead, Hlim. repeat split; reflexivity.
Qed.

Lemma stored_observation_comes_first_witness :
  exists st' id row rest,
    storeObservation "s1" "demo" ab_observation None 0 clock2 clock2
      (history [StoreObservation "s1" "demo" bare_observation None 0 clock0 clock0;
                StoreObservation "s1" "demo" bare_observation None 0 clock1 clock1])
      = (st', Returned (id, getTime clock2)) /\
    getRecentObservations "demo" 1 st' = (st', Returned (row :: rest)) /\
    Observation.id row = id /\
    Observation.session_id row = "s1" /\
    Observation.created_at_epoch row = getTime clock2.
Proof.
  apply (stored_observation_comes_first
           (history [StoreObservation "s1" "demo" bare_observation None 0 clock0 clock0;
                     StoreObservation "s1" "demo" bare_observation None 0 clock1 clock1])
           "s1" "demo" ab_observation None 0 clock2 clock2 1).
  - apply check_type_spec. vm_compute. reflexivity.
  - intros o Ho _. vm_compute in Ho.
    repeat (apply elem_of_cons in Ho as [->|Ho]; [vm_compute; reflexivity|]).
    now apply not_elem_of_nil in Ho.
  - right. lia.
Defined.

(** X9.  [storeSummary] stores every summary, each empty-string field
    as NULL, even when no field is left; stored at a time strictly later
    than every summary of its project, it is what [getRecentSummaries]
    returns first, the "most recent" summary of the digest. *)
Theorem stored_summary_comes_first (st : Store) (sid project : string)
    (sm : SummaryFields.t) (pn : option Z) (dt : Z) (now now1 : Date) (limit : Z) :
  (forall s, s ∈ session_summaries st -> Summary.project s = project ->
     Summary.created_at_epoch s < getTime now) ->
  limit < 0 \/ 1 <= limit ->
  exists st' id row rest,
    storeSummary sid project sm pn dt now now1 st = (st', Returned (id, getTime now)) /\
    getRecentSummaries project limit st' = (st', Returned (row :: rest)) /\
    Summary.id row = id /\
    Summary.session_id row = sid /\
    Summary.prompt_number row = pn /\
    Summary.request row = Js.or_null (SummaryFields.request sm) /\
    Summary.investigated row = Js.or_null (SummaryFields.investigated sm) /\
    Summary.learned row = Js.or_null (SummaryFields.learned sm) /\
    Summary.completed row = Js.or_null (SummaryFields.completed sm) /\
    Summary.next_steps row = Js.or_null (SummaryFields.next_steps sm) /\
    Summary.notes row = Js.or_null (SummaryFields.notes sm) /\
    (forall field, Js.or_null field <> Some EmptyString).
Proof.
  intros Hnew Hlimit.
  destruct (storeSummary_run st sid project sm pn dt now now1)
    as (st0 & id0 & s & _ & _ & Hrun).
  set (row := summary_row st sid project sm pn dt now) in *.
  set (scoped := List.filter (fun o => String.eqb (Summary.project o) project)
                   (session_summaries st ++ [row])).
  destruct (order_desc_head Summary.created_at_epoch scoped row) as [rest Hhead].
  { apply elem_of_filter_bool. split; [apply elem_of_app; right; left|].
    apply String.eqb_refl. }
  { intros y [Hy E]%elem_of_filter_bool. apply String.eqb_eq in E.
    apply elem_of_app in Hy as [Hy|Hy]; [left; now apply Hnew|].
    apply list_elem_of_singleton in Hy. now right. }
  destruct (sql_limit_head limit row rest Hlimit) as [rest' Hlim].
  eexists _, _, row, rest'. split; [exact Hrun|].
  unfold getRecentSummaries. cbn [session_summaries].
  fold scoped. rewrite Hhead, Hlim. repeat split; try reflexivity.
  intros [[|c f]|]; cbn; discriminate.
Qed.

Lemma stored_summary_comes_first_witness :
  exists st' id row rest,
    storeSummary "s1" "demo" empty_summary (Some 2) 0 clock2 clock2
      (history [StoreSummary "s1" "demo" request_summary (Some 1) 0 clock0 clock0])
      = (st', Returned (id, getTime clock2)) /\
    getRecentSummaries "demo" 10 st' = (st', Returned (row :: rest)) /\
    Summary.id row = id /\
    Summary.session_id row = "s1" /\
    Summary.prompt_number row = Some 2 /\
    Summary.request row = Js.or_null (SummaryFields.request empty_summary) /\
    Summary.investigated row = Js.or_null (SummaryFields.investigated empty_summary) /\
    Summary.learned row = Js.or_null (SummaryFields.learned empty_summary) /\
    Summary.completed row = Js.or_null (SummaryFields.completed empty_summary) /\
    Summary.next_steps row = Js.or_null (SummaryFields.next_steps empty_summary) /\
    Summary.notes row = Js.or_null (SummaryFields.notes empty_summary) /\
    (forall field, Js.or_null field <> Some EmptyString).
Proof.
  apply (stored_summary_comes_first
           (history [StoreSummary "s1" "demo" request_summary (Some 1) 0 clock0 clock0])
           "s1" "demo" empty_summary (Some 2) 0 clock2 clock2 10).
  - intros s Hs _. vm_compute in Hs.
    repeat (apply elem_of_cons in Hs as [->|Hs]; [vm_compute; reflexivity|]).
    now apply not_elem_of_nil in Hs.
  - right. lia.
Defined.

(** X10.  [getAllProjects] lists exactly the non-empty project names
    that some session carries, each once, in ascending order. *)
Theorem getAllProjects_sorted_distinct (st : Store) :
  exists projects,
    getAllProjects st = (st, Returned projects) /\
    Sorted String.le projects /\
    NoDup projects /\
    (forall p, p ∈ projects <->
       p <> EmptyString /\ exists s, s ∈ sessions st /\ Session.project s = p).
Proof.
  eexists. split; [reflexivity|]. split; [|split].
  - apply Sorted_merge_sort; apply _.
  - rewrite merge_sort_Permutation. apply NoDup_remove_dups.
  - intros p. rewrite merge_sort_Permutation, elem_of_remove_dups,
      elem_of_filter_bool, list_elem_of_fmap, truthy_true.
    split.
    + intros [(s & -> & Hs) Hne]. eauto.
    + intros [Hne (s & Hs & <-)]. eauto.
Qed.

Example projects_of_two_projects :
  result getAllProjects
    (history [CreateSession "s1" "demo" "" clock0; CreateSession "s2" "alpha" "" clock0;
              CreateSession "s3" "demo" "" clock1; CreateSession "s4" "" "" clock1])
  = Some ["alpha"; "demo"].
Proof. vm_compute. reflexivity. Qed.

Section SearchOwn.

Lemma filter_filter_bool {A} (P Q : A -> bool) (l : list A) :
  List.filter P (List.filter Q l) = List.filter (fun x => P x && Q x) l.
Proof.
  induction l as [|x l IH]; [reflexivity|]. cbn [List.filter].
  destruct (Q x); cbn [List.filter]; rewrite ?andb_true_r, ?andb_false_r;
    [destruct (P x); now rewrite IH | exact IH].
Qed.

End SearchOwn.

(** C6, as amended.  On every database the writing calls build, for
    every query the engine accepts and every non-empty project,
    [searchObservations] with the project filter returns only
    observations of that project whose own title, subtitle, narrative
    or facts text the engine matches, ordered by creation epoch
    descending; the project filter comes before the limit, so a
    non-negative limit counts matching rows of that project only (a
    negative one returns them all), and a matching row of the project
    that is left out is no newer than any row returned. *)
Theorem searchObservations_project_recent
    (fts5 : string -> option (Fts.t -> bool)) (cs : list Call) (query p : string)
    (limit : Z) (matches : Fts.t -> bool) :
  fts5 query = Some matches ->
  p <> EmptyString ->
  exists rows,
    searchObservations fts5 query (Some p) limit (history cs)
      = (history cs, Returned rows) /\
    (forall o, o ∈ rows ->
       o ∈ observations (history cs) /\ Observation.project o = p /\
       matches (fts_of o) = true) /\
    StronglySorted (newer_first Observation.created_at_epoch) rows /\
    (0 <= limit ->
       length rows =
       Nat.min (Z.to_nat limit)
         (length (List.filter
                    (fun o => String.eqb (Observation.project o) p && matches (fts_of o))
                    (observations (history cs))))) /\
    (limit < 0 ->
       length rows =
       length (List.filter
                 (fun o => String.eqb (Observation.project o) p && matches (fts_of o))
                 (observations (history cs)))) /\
    (forall o, o ∈ observations (history cs) -> Observation.project o = p ->
       matches (fts_of o) = true -> o ∉ rows ->
       forall r, r ∈ rows ->
         Observation.created_at_epoch o <= Observation.created_at_epoch r).
Proof.
  intros Hq Hp. apply truthy_true in Hp.
  unfold searchObservations. rewrite Hq, Hp.
  rewrite (fts_join_indexed matches _ (index_in_sync _ (consistent_history cs))).
  rewrite filter_filter_bool.
  set (st := history cs).
  set (scoped := List.filter _ (observations st)).
  assert (forall o, o ∈ scoped <->
            o ∈ observations st /\ Observation.project o = p /\
            matches (fts_of o) = true) as Hscoped.
  { intros o. unfold scoped.
    rewrite elem_of_filter_bool, andb_true_iff, String.eqb_eq. tauto. }
  destruct (order_limit_spec Observation.created_at_epoch limit scoped)
    as (Hsub & Hsorted & Hlen & Hold).
  eexists. split; [reflexivity|]. split.
  { intros o Ho. now apply Hscoped, Hsub. }
  split; [exact Hsorted|]. split; [exact Hlen|]. split.
  { intros Hneg. rewrite sql_limit_all by auto. now rewrite order_desc_perm. }
  intros o Ho Hproj Hm Hout. apply Hold; [|exact Hout]. apply Hscoped. auto.
Qed.

Example search_token_in_demo :
  fmap (M := option) (fmap (M := list) Observation.id)
    (result (searchObservations substring_engine "token" (Some "demo") 20) two_projects)
  = Some [1].
Proof. vm_compute. reflexivity. Qed.

Example search_token_everywhere :
  fmap (M := option) (fmap (M := list) Observation.id)
    (result (searchObservations substring_engine "token" None 20) two_projects)
  = Some [2; 1].
Proof. vm_compute. reflexivity. Qed.

Lemma searchObservations_project_recent_witness :
  exists rows,
    searchObservations substring_engine "token" (Some "demo") 20
      (history two_projects_calls)
      = (history two_projects_calls, Returned rows) /\
    (forall o, o ∈ rows ->
       o ∈ observations (history two_projects_calls) /\
       Observation.project o = "demo" /\
       contains_term "token" (fts_of o) = true) /\
    StronglySorted (newer_first Observation.created_at_epoch) rows /\
    (0 <= 20 ->
       length rows =
       Nat.min (Z.to_nat 20)
         (length (List.filter
                    (fun o => String.eqb (Observation.project o) "demo"
                              && contains_term "token" (fts_of o))
                    (observations (history two_projects_calls))))) /\
    (20 < 0 ->
       length rows =
       length (List.filter
                 (fun o => String.eqb (Observation.project o) "demo"
                           && contains_term "token" (fts_of o))
                 (observations (history two_projects_calls)))) /\
    (forall o, o ∈ observations (history two_projects_calls) ->
       Observation.project o = "demo" ->
       contains_term "token" (fts_of o) = true -> o ∉ rows ->
       forall r, r ∈ rows ->
         Observation.created_at_epoch o <= Observation.created_at_epoch r).
Proof.
  apply (searchObservations_project_recent substring_engine two_projects_calls
           "token" "demo" 20 (contains_term "token")).
  - reflexivity.
  - discriminate.
Defined.

(** C6 as stated fails: the code applies the filter only to a truthy
    project, so with the project "" nothing is filtered and the search
    returns an observation of the project "other". *)
Lemma searchObservations_empty_project_unfiltered :
  history two_projects_calls = two_projects /\
  exists rows o,
    searchObservations substring_engine "token" (Some "") 20 two_projects
      = (two_projects, Returned rows) /\
    o ∈ rows /\ Observation.project o = "other" /\
    Observation.project o <> "".
Proof.
  split; [reflexivity|]. eexists _, _. split; [vm_compute; reflexivity|].
  split; [left|]. split; [reflexivity | discriminate].
Qed.

(** X11.  On every database the writing calls build, a search whose
    limit is negative or at least the number of observations finds
    exactly the observations whose own title, subtitle, narrative and
    facts text the engine matches, restricted to the project when one
    is given; an absent or empty project restricts nothing. *)
Theorem search_finds_every_match (fts5 : string -> option (Fts.t -> bool))
    (cs : list Call) (query : string) (project : option string) (limit : Z)
    (matches : Fts.t -> bool) :
  fts5 query = Some matches ->
  limit < 0 \/ Z.of_nat (length (observations (history cs))) <= limit ->
  exists rows,
    searchObservations fts5 query project limit (history cs)
      = (history cs, Returned rows) /\
    forall o, o ∈ rows <->
      o ∈ observations (history cs) /\ matches (fts_of o) = true /\
      (Js.truthy_opt project = true -> project = Some (Observation.project o)).
Proof.
  intros Hq Hlimit. unfold searchObservations. rewrite Hq.
  rewrite (fts_join_indexed matches _ (index_in_sync _ (consistent_history cs))).
  set (st := history cs) in *.
  set (joined := List.filter (fun o => matches (fts_of o)) (observations st)).
  assert (forall l : list Observation.t, l ⊆ joined ->
            (length l <= length joined)%nat ->
            sql_limit limit (order_desc Observation.created_at_epoch l) ≡ₚ l) as Hall.
  { intros l _ Hlen. rewrite sql_limit_all; [apply order_desc_perm|].
    destruct Hlimit as [?|Hlimit]; [now left | right].
    rewrite order_desc_perm.
    pose proof (filter_length_le (fun o => matches (fts_of o)) (observations st)).
    fold joined in H. lia. }
  destruct project as [p|]; [destruct (Js.truthy p) eqn:Hp|]; cbn [Js.truthy_opt].
  - eexists. split; [reflexivity|]. intros o.
    rewrite Hall.
    + rewrite !elem_of_filter_bool, Hp, String.eqb_eq. unfold joined.
      rewrite elem_of_filter_bool. split.
      * intros [[? ?] <-]. auto.
      * intros (? & ? & E). specialize (E eq_refl). injection E as ->. auto.
    + intros x [Hx _]%elem_of_filter_bool. exact Hx.
    + apply filter_length_le.
  - eexists. split; [reflexivity|]. intros o. rewrite Hall by (auto; reflexivity).
    unfold joined. rewrite elem_of_filter_bool, Hp.
    split; [intros [? ?]; repeat split; auto; discriminate | intros (? & ? & _); auto].
  - eexists. split; [reflexivity|]. intros o. rewrite Hall by (auto; reflexivity).
    unfold joined. rewrite elem_of_filter_bool.
    split; [intros [? ?]; repeat split; auto; discriminate | intros (? & ? & _); auto].
Qed.

Lemma search_finds_every_match_witness :
  exists rows,
    searchObservations substring_engine "token" (Some "demo") 20
      (history [StoreObservation "s1" "demo"
                  (narrated "Fixed login bug" "extended token lifetime") None 0 clock0 clock0;
                StoreObservation "s2" "other"
                  (narrated "Token refresh" "the token is refreshed") None 0 clock1 clock1])
      = (history [StoreObservation "s1" "demo"
                    (narrated "Fixed login bug" "extended token lifetime") None 0 clock0 clock0;
                  StoreObservation "s2" "other"
                    (narrated "Token refresh" "the token is refreshed") None 0 clock1 clock1],
         Returned rows) /\
    forall o, o ∈ rows <->
      o ∈ observations
            (history [StoreObservation "s1" "demo"
                        (narrated "Fixed login bug" "extended token lifetime")
                        None 0 clock0 clock0;
                      StoreObservation "s2" "other"
                        (narrated "Token refresh" "the token is refreshed")
                        None 0 clock1 clock1]) /\
      contains_term "token" (fts_of o) = true /\
      (Js.truthy_opt (Some "demo") = true -> Some "demo" = Some (Observation.project o)).
Proof.
  apply (search_finds_every_match substring_engine
           [StoreObservation "s1" "demo"
              (narrated "Fixed login bug" "extended token lifetime") None 0 clock0 clock0;
            StoreObservation "s2" "other"
              (narrated "Token refresh" "the token is refreshed") None 0 clock1 clock1]
           "token" (Some "demo") 20 (contains_term "token")).
  - reflexivity.
  - right. vm_compute. discriminate.
Defined.

(** * The digest *)

Section SortFacts.

Context {A : Type} (compare : A -> A -> Z).

Lemma sort_insert_perm (x : A) (l : list A) : Text.sort_insert compare x l ≡ₚ x :: l.
Proof.
  induction l as [|y l IH]; cbn [Text.sort_insert]; [reflexivity|].
  destruct (compare x y <? 0); [reflexivity|].
  rewrite IH. apply Permutation_swap.
Qed.

Lemma sort_foldl_perm (l acc : list A) :
  foldl (fun sorted x => Text.sort_insert compare x sorted) acc l ≡ₚ acc ++ l.
Proof.
  revert acc. induction l as [|x l IH]; intros acc; cbn [foldl].
  - now rewrite app_nil_r.
  - rewrite IH, sort_insert_perm. apply Permutation_middle.
Qed.

Lemma sort_perm (l : list A) : Text.sort compare l ≡ₚ l.
Proof. unfold Text.sort. now rewrite sort_foldl_perm. Qed.

End SortFacts.

Section SortByKey.

Context {A : Type} (key : A -> Z).

Lemma sort_insert_sorted (x : A) (l : list A) :
  StronglySorted (ascending key) l ->
  StronglySorted (ascending key) (Text.sort_insert (fun a b => key a - key b) x l).
Proof.
  induction l as [|y l IH]; cbn [Text.sort_insert]; intros Hl.
  - repeat constructor.
  - apply StronglySorted_cons in Hl as [Hall Hl].
    destruct (Z.ltb_spec (key x - key y) 0).
    + apply StronglySorted_cons. split; [|apply StronglySorted_cons; auto].
      constructor; [unfold ascending; lia|].
      eapply Forall_impl; [exact Hall|]. unfold ascending. intros z Hz. lia.
    + apply StronglySorted_cons. split; [|auto].
      rewrite sort_insert_perm. constructor; [unfold ascending; lia | exact Hall].
Qed.

Lemma sort_sorted (l : list A) :
  StronglySorted (ascending key) (Text.sort (fun a b => key a - key b) l).
Proof.
  unfold Text.sort.
  assert (forall acc, StronglySorted (ascending key) acc ->
            StronglySorted (ascending key)
              (foldl (fun sorted x => Text.sort_insert (fun a b => key a - key b) x sorted)
                 acc l)) as H.
  { induction l as [|x l IH]; intros acc Hacc; cbn [foldl]; [exact Hacc|].
    apply IH. now apply sort_insert_sorted. }
  apply H. constructor.
Qed.

Lemma sort_sorted_desc (l : list A) :
  StronglySorted (fun a b => key b <= key a) (Text.sort (fun a b => key b - key a) l).
Proof.
  unfold Text.sort.
  assert (forall x s, StronglySorted (fun a b => key b <= key a) s ->
            StronglySorted (fun a b => key b <= key a)
              (Text.sort_insert (fun a b => key b - key a) x s)) as Hins.
  { intros x s. induction s as [|y s IH]; cbn [Text.sort_insert]; intros Hs.
    - repeat constructor.
    - apply StronglySorted_cons in Hs as [Hall Hs].
      destruct (Z.ltb_spec (key y - key x) 0).
      + apply StronglySorted_cons. split; [|apply StronglySorted_cons; auto].
        constructor; [lia|]. eapply Forall_impl; [exact Hall|].
        intros z Hz. cbv beta in *. lia.
      + apply StronglySorted_cons. split; [|auto].
        rewrite sort_insert_perm. constructor; [cbv beta; lia | exact Hall]. }
  assert (forall acc, StronglySorted (fun a b => key b <= key a) acc ->
            StronglySorted (fun a b => key b <= key a)
              (foldl (fun sorted x => Text.sort_insert (fun a b => key b - key a) x sorted)
                 acc l)) as H.
  { induction l as [|x l IH]; intros acc Hacc; cbn [foldl]; [exact Hacc|].
    apply IH. now apply Hins. }
  apply H. constructor.
Qed.

End SortByKey.

Section Days.

Variable formatDate : string -> string.

Lemma day_insert_fst (day : string) (obs : Observation.t)
    (days : list (string * list Observation.t)) :
  fst <$> day_insert day obs days
  = if bool_decide (day ∈ fst <$> days) then fst <$> days else (fst <$> days) ++ [day].
Proof.
  induction days as [|[d l] days IH]; cbn [day_insert].
  - reflexivity.
  - rewrite !fmap_cons. cbn [fst].
    destruct (String.eqb_spec d day) as [->|Hne].
    + rewrite bool_decide_eq_true_2 by left. reflexivity.
    + rewrite fmap_cons, IH. cbn [fst].
      destruct (bool_decide (day ∈ fst <$> days)) eqn:E.
      * apply bool_decide_eq_true_1 in E.
        rewrite bool_decide_eq_true_2 by (now right). reflexivity.
      * apply bool_decide_eq_false_1 in E.
        rewrite bool_decide_eq_false_2; [reflexivity|].
        intros [?|?]%elem_of_cons; congruence.
Qed.

Lemma day_insert_elem (day : string) (obs : Observation.t)
    (days : list (string * list Observation.t)) (d : string) (l : list Observation.t) :
  (d, l) ∈ day_insert day obs days ->
  (d, l) ∈ days \/ (d = day /\ exists l0, l = l0 ++ [obs] /\ (l0 = [] \/ (d, l0) ∈ days)).
Proof.
  induction days as [|[d0 l0] days IH]; cbn [day_insert].
  - intros E%list_elem_of_singleton. injection E as -> ->.
    right. split; [reflexivity|]. exists []. auto.
  - destruct (String.eqb_spec d0 day) as [->|Hne].
    + intros [E|H]%elem_of_cons.
      * injection E as -> ->. right. split; [reflexivity|].
        exists l0. split; [reflexivity|]. right. left.
      * left. now right.
    + intros [E|H]%elem_of_cons.
      * injection E as -> ->. left. left.
      * destruct (IH H) as [?|(-> & l1 & -> & [->|?])].
        -- left. now right.
        -- right. split; [reflexivity|]. exists []. auto.
        -- right. split; [reflexivity|]. exists l1. split; [reflexivity|].
           right. now right.
Qed.

Lemma day_insert_ok (obs : Observation.t) (days : list (string * list Observation.t)) :
  days_ok formatDate days ->
  days_ok formatDate (day_insert (formatDate (Observation.created_at obs)) obs days).
Proof.
  intros [Hnd Hall]. split.
  - rewrite day_insert_fst. case_bool_decide as Hin; [exact Hnd|].
    apply NoDup_app. split; [exact Hnd|]. split; [|apply NoDup_singleton].
    intros x Hx ->%list_elem_of_singleton. contradiction.
  - intros d l [H|(-> & l0 & -> & H)]%day_insert_elem; [now apply Hall|].
    split; [now destruct l0|].
    intros o [Ho|Ho]%elem_of_app;
      [|apply list_elem_of_singleton in Ho; now subst o].
    destruct H as [->|H]; [now apply not_elem_of_nil in Ho|].
    now apply (Hall _ _ H).
Qed.

Lemma day_insert_concat (day : string) (obs : Observation.t)
    (days : list (string * list Observation.t)) :
  concat (snd <$> day_insert day obs days) ≡ₚ concat (snd <$> days) ++ [obs].
Proof.
  induction days as [|[d l] days IH]; cbn [day_insert]; [reflexivity|].
  destruct (String.eqb d day).
  - rewrite !fmap_cons. cbn [snd concat]. rewrite <- !app_assoc.
    apply Permutation_app_head. apply Permutation_app_comm.
  - rewrite !fmap_cons. cbn [snd concat]. now rewrite IH, app_assoc.
Qed.

Lemma observationsByDay_spec (observations : list Observation.t) :
  days_ok formatDate (observationsByDay formatDate observations) /\
  concat (snd <$> observationsByDay formatDate observations) ≡ₚ observations.
Proof.
  unfold observationsByDay.
  assert (forall acc, days_ok formatDate acc ->
            days_ok formatDate (foldl (fun days obs => day_insert (formatDate (Observation.created_at obs)) obs days)
                       acc observations) /\
            concat (snd <$> foldl (fun days obs => day_insert (formatDate (Observation.created_at obs)) obs days)
                                  acc observations)
            ≡ₚ concat (snd <$> acc) ++ observations) as H.
  { induction observations as [|o l IH]; intros acc Hacc; cbn [foldl].
    - now rewrite app_nil_r.
    - destruct (IH _ (day_insert_ok o acc Hacc)) as [H1 H2]. split; [exact H1|].
      rewrite H2, day_insert_concat, <- app_assoc. reflexivity. }
  destruct (H []) as [H1 H2].
  - split; [constructor | intros d l Hin; inversion Hin].
  - split; [exact H1 | exact H2].
Qed.

End Days.

Section DigestFacts.

Variable formatDate : string -> string.
Variable formatTime : string -> string.
Variable dateValue : string -> Z.

Lemma concat_sorted_days (l : list (string * list Observation.t)) :
  concat (snd <$> ((fun entry =>
     (fst entry,
      Text.sort (fun a b => Observation.created_at_epoch a - Observation.created_at_epoch b)
        (snd entry))) <$> l))
  ≡ₚ concat (snd <$> l).
Proof.
  induction l as [|[d x] l IH]; [reflexivity|].
  rewrite !fmap_cons. cbn [fst snd concat]. now rewrite IH, sort_perm.
Qed.

Lemma concat_perm {B} (l1 l2 : list (list B)) : l1 ≡ₚ l2 -> concat l1 ≡ₚ concat l2.
Proof.
  induction 1 as [|x l1 l2 _ IH|x y l|l1 l2 l3 _ IH1 _ IH2]; cbn [concat].
  - reflexivity.
  - now rewrite IH.
  - rewrite !app_assoc. apply Permutation_app_tail, Permutation_app_comm.
  - now rewrite IH1.
Qed.

Lemma day_rows_ids (lastTime : string) (l : list Observation.t) :
  cell_id <$> day_rows formatTime lastTime l = Observation.id <$> l.
Proof.
  revert lastTime. induction l as [|o l IH]; intros lastTime; [reflexivity|].
  cbn [day_rows]. rewrite !fmap_cons, IH. reflexivity.
Qed.

Lemma day_rows_elem (lastTime : string) (l : list Observation.t) (o : Observation.t) :
  o ∈ l -> exists before, row_cells formatTime before o ∈ day_rows formatTime lastTime l.
Proof.
  revert lastTime. induction l as [|x l IH]; intros lastTime Ho;
    [now apply not_elem_of_nil in Ho|].
  cbn [day_rows]. apply elem_of_cons in Ho as [->|Ho].
  - exists lastTime. left.
  - destruct (IH (formatTime (Observation.created_at x)) Ho) as [before H].
    exists before. now right.
Qed.

End DigestFacts.

(** The days of the digest hold the fetched rows, each once. *)
Lemma sortedDays_perm (formatDate : string -> string) (dateValue : string -> Z)
    (observations : list Observation.t) :
  concat (snd <$> sortedDays formatDate dateValue observations) ≡ₚ observations.
Proof.
  destruct (observationsByDay_spec formatDate observations) as [_ Hperm].
  unfold sortedDays.
  set (byDay := Text.sort _ (observationsByDay formatDate observations)).
  assert (byDay ≡ₚ observationsByDay formatDate observations) as Hsorted
    by apply sort_perm.
  rewrite concat_sorted_days, <- Hperm. apply concat_perm. now rewrite Hsorted.
Qed.

(** X12.  The tables of the digest partition the fetched observations:
    every observation lands in exactly one day's table, the day labels
    are distinct, no table is empty, each observation stands under the
    label of its own creation date, within a table the rows ascend by
    creation epoch, and the tables follow one another by the date of the
    first fetched observation of each day, latest first. *)
Theorem sortedDays_partition (formatDate : string -> string) (dateValue : string -> Z)
    (observations : list Observation.t) :
  concat (snd <$> sortedDays formatDate dateValue observations) ≡ₚ observations /\
  NoDup (fst <$> sortedDays formatDate dateValue observations) /\
  (forall d l, (d, l) ∈ sortedDays formatDate dateValue observations ->
     l <> [] /\
     (forall o, o ∈ l -> formatDate (Observation.created_at o) = d) /\
     StronglySorted (ascending Observation.created_at_epoch) l) /\
  (exists byDay,
     byDay ≡ₚ observationsByDay formatDate observations /\
     StronglySorted (fun a b => first_date dateValue b <= first_date dateValue a) byDay /\
     fst <$> sortedDays formatDate dateValue observations = fst <$> byDay).
Proof.
  destruct (observationsByDay_spec formatDate observations) as [[Hnd Hall] Hperm].
  unfold sortedDays.
  set (byDay := Text.sort _ (observationsByDay formatDate observations)).
  assert (byDay ≡ₚ observationsByDay formatDate observations) as Hsorted
    by apply sort_perm.
  assert (fst <$> ((fun entry : string * list Observation.t =>
             (fst entry,
              Text.sort (fun a b => Observation.created_at_epoch a
                                    - Observation.created_at_epoch b) (snd entry)))
            <$> byDay) = fst <$> byDay) as Hfst.
  { rewrite <- list_fmap_compose. apply list_fmap_ext. now intros ? [? ?] ?. }
  split; [|split; [|split]]; cycle 3.
  { exists byDay. split; [exact Hsorted|]. split; [|exact Hfst].
    apply (sort_sorted_desc (first_date dateValue)). }
  - rewrite concat_sorted_days, <- Hperm. apply concat_perm. now rewrite Hsorted.
  - rewrite Hfst. now rewrite Hsorted.
  - intros d l ([d0 l0] & E & Hin)%list_elem_of_fmap. cbn [fst snd] in E.
    injection E as -> ->. rewrite Hsorted in Hin.
    destruct (Hall _ _ Hin) as [Hne Hday]. split; [|split].
    + intros E. apply Hne. apply Permutation_nil_r. rewrite <- E.
      symmetry. apply sort_perm.
    + intros o Ho. rewrite sort_perm in Ho. auto.
    + apply sort_sorted.
Qed.

(** X13.  Within a day's table the ditto marks lose nothing: when no
    formatted time is the ditto mark itself, reading the time column top
    down, with each ditto standing for the time above it, gives back
    the formatted time of every row. *)
Theorem ditto_marks_read_back (formatTime : string -> string) (lastTime : string)
    (dayObs : list Observation.t) :
  (forall o, o ∈ dayObs -> formatTime (Observation.created_at o) <> ditto) ->
  read_times lastTime (cell_time <$> day_rows formatTime lastTime dayObs)
  = (fun o => formatTime (Observation.created_at o)) <$> dayObs.
Proof.
  revert lastTime. induction dayObs as [|o l IH]; intros lastTime Hno; [reflexivity|].
  cbn [day_rows]. rewrite !fmap_cons. cbn [read_times row_cells cell_time].
  assert (formatTime (Observation.created_at o) <> ditto) as Ho by (apply Hno; left).
  assert ((if String.eqb
              (if String.eqb (formatTime (Observation.created_at o)) lastTime
               then ditto else formatTime (Observation.created_at o)) ditto
           then lastTime else
             if String.eqb (formatTime (Observation.created_at o)) lastTime
             then ditto else formatTime (Observation.created_at o))
          = formatTime (Observation.created_at o)) as ->.
  { destruct (String.eqb_spec (formatTime (Observation.created_at o)) lastTime) as [E|E].
    - now rewrite String.eqb_refl.
    - now apply String.eqb_neq in Ho as ->. }
  f_equal. apply IH. intros x Hx. apply Hno. now right.
Qed.

Lemma ditto_marks_read_back_witness :
  read_times "" (cell_time <$> day_rows utc_time "" minute_apart)
  = (fun o => utc_time (Observation.created_at o)) <$> minute_apart.
Proof.
  apply (ditto_marks_read_back utc_time "" minute_apart).
  intros o Ho. vm_compute in Ho.
  repeat (apply elem_of_cons in Ho as [->|Ho]; [vm_compute; discriminate|]).
  now apply not_elem_of_nil in Ho.
Defined.

Example ditto_marks_shown :
  cell_time <$> day_rows utc_time "" minute_apart = ["00:00"; ditto; "00:01"].
Proof. vm_compute. reflexivity. Qed.

Section TextFacts.

Lemma totalReadTokens_nonneg (observations : list Observation.t) :
  0 <= totalReadTokens observations.
Proof.
  unfold totalReadTokens. rewrite fold_left_add, Z.add_0_l.
  induction observations as [|o l IH]; [reflexivity|].
  rewrite fmap_cons. cbn [foldr].
  assert (0 <= Js.ceil_div (read_size o) 4); [|lia].
  assert (0 <= read_size o).
  { unfold read_size, length_or_0.
    destruct (Observation.title o), (Observation.subtitle o),
      (Observation.narrative o), (Observation.facts o); lia. }
  unfold Js.ceil_div. Z.div_mod_to_equations. lia.
Qed.

Lemma trimEnd_keeps (a : string) (c : ascii) (b : string) :
  Text.is_space c = false ->
  exists t, Text.trimEnd (a +:+ String c b) = a +:+ String c t.
Proof.
  intros Hc. induction a as [|x a [t IH]].
  - cbn [String.append Text.trimEnd]. destruct (Text.trimEnd b) as [|d t].
    + rewrite Hc. now exists EmptyString.
    + now exists (String d t).
  - cbn [String.append Text.trimEnd]. rewrite IH.
    destruct a as [|y a]; cbn [String.append]; eauto.
Qed.

Lemma join_lines_elem (line : string) (lines : list string) :
  line ∈ lines -> exists a b, Text.join_lines lines = a +:+ line +:+ b.
Proof.
  unfold Text.join_lines.
  induction lines as [|x lines IH]; intros Hin; [now apply not_elem_of_nil in Hin|].
  destruct lines as [|y lines].
  - apply list_elem_of_singleton in Hin as ->. exists EmptyString, EmptyString.
    cbn [String.concat String.append]. now rewrite app_empty_r.
  - change (String.concat Text.newline (x :: y :: lines))
      with (x +:+ Text.newline +:+ String.concat Text.newline (y :: lines)).
    apply elem_of_cons in Hin as [->|Hin].
    + now exists EmptyString, (Text.newline +:+ String.concat Text.newline (y :: lines)).
    + destruct (IH Hin) as (a & b & ->). exists (x +:+ Text.newline +:+ a), b.
      now rewrite !app_assoc_s.
Qed.

(** A line that ends in a character that is no space survives the
    final [trimEnd] of the joined text. *)
Lemma line_in_text (body : string) (c : ascii) (lines : list string) :
  Text.is_space c = false ->
  body +:+ String c EmptyString ∈ lines ->
  Js.includes (Text.trimEnd (Text.join_lines lines)) (body +:+ String c EmptyString) = true.
Proof.
  intros Hc Hin. destruct (join_lines_elem _ _ Hin) as (a & b & ->).
  rewrite !app_assoc_s. cbn [String.append]. rewrite <- app_assoc_s.
  destruct (trimEnd_keeps (a +:+ body) c b Hc) as [t ->].
  apply includes_spec. exists a, t. now rewrite !app_assoc_s.
Qed.

End TextFacts.

(** X14.  The footer of the digest appears exactly when the savings
    line does: the read estimate is never negative, so positive savings
    already make the discovery total positive, and the footer's first
    test never decides. *)
Theorem footer_iff_savings (toLocaleString : Z -> string) (roundPercent : Z -> Z -> Z)
    (observations : list Observation.t) :
  0 <= totalReadTokens observations /\
  (footer_lines toLocaleString observations <> [] <-> 0 < savings observations) /\
  (length (economics_lines toLocaleString roundPercent observations)
   = if 0 <? savings observations then 5%nat else 4%nat) /\
  (0 < savings observations ->
   totalReadTokens observations < totalDiscoveryTokens observations).
Proof.
  pose proof (totalReadTokens_nonneg observations) as Hread.
  split; [exact Hread|]. unfold footer_lines, economics_lines, savings in *.
  split; [|split].
  - destruct (Z.ltb_spec 0 (totalDiscoveryTokens observations));
      destruct (Z.ltb_spec 0 (totalDiscoveryTokens observations
                              - totalReadTokens observations));
      cbn [andb]; split; intros H'; try lia; try congruence; discriminate.
  - destruct (0 <? totalDiscoveryTokens observations - totalReadTokens observations);
      reflexivity.
  - lia.
Qed.

(** X15.  For a project without observations and without summaries
    [generateContext] returns exactly the two-line message with the
    project name, for every setting of the observation limit; the
    store is not changed. *)
Theorem generateContext_empty_state (formatDate formatTime : string -> string)
    (dateValue : string -> Z) (toLocaleString : Z -> string)
    (roundPercent : Z -> Z -> Z) (st : Store) (project : string)
    (CONTEXT_OBSERVATIONS : option Z) :
  (forall o, o ∈ observations st -> Observation.project o <> project) ->
  (forall s, s ∈ session_summaries st -> Summary.project s <> project) ->
  generateContext formatDate formatTime dateValue toLocaleString roundPercent
    project CONTEXT_OBSERVATIONS st
  = (st, Returned ("# [" +:+ project +:+ "] recent context" +:+ Text.newline
                   +:+ Text.newline
                   +:+ "No previous sessions found for this project yet.")).
Proof.
  intros Hobs Hsum. unfold generateContext.
  destruct (recent_rows_in st project (Js.or_num CONTEXT_OBSERVATIONS 50))
    as [(rows & Hrows & Hin) _].
  destruct (recent_rows_in st project 10) as [_ (sums & Hsums & Hins)].
  rewrite bind_run, Hrows, bind_run, Hsums.
  destruct rows as [|o rows].
  - destruct sums as [|s sums]; [reflexivity|].
    destruct (Hins s) as [Hs Hp]; [left|]. now apply Hsum in Hs.
  - destruct (Hin o) as [Ho Hp]; [left|]. now apply Hobs in Ho.
Qed.

Lemma generateContext_empty_state_witness :
  generateContext utc_time utc_time (fun _ => 0) pretty (fun _ _ => 0)
    "empty" (Some 50) two_projects
  = (two_projects,
     Returned ("# [" +:+ "empty" +:+ "] recent context" +:+ Text.newline
               +:+ Text.newline
               +:+ "No previous sessions found for this project yet.")).
Proof.
  apply (generateContext_empty_state utc_time utc_time (fun _ => 0) pretty
           (fun _ _ => 0) two_projects "empty" (Some 50)).
  - intros o Ho. vm_compute in Ho.
    repeat (apply elem_of_cons in Ho as [->|Ho]; [vm_compute; discriminate|]).
    now apply not_elem_of_nil in Ho.
  - intros s Hs. vm_compute in Hs. now apply not_elem_of_nil in Hs.
Defined.

(** X16.  Every observation [generateContext] fetches is in the digest
    text as one table row with its id, its title (or "Untitled"), the
    icon of its type and its first modified file; the text begins with
    the header of the project. *)
Theorem generateContext_shows_every_row (formatDate formatTime : string -> string)
    (dateValue : string -> Z) (toLocaleString : Z -> string)
    (roundPercent : Z -> Z -> Z) (st : Store) (project : string)
    (CONTEXT_OBSERVATIONS : option Z) (fetched : list Observation.t)
    (o : Observation.t) :
  getRecentObservations project (Js.or_num CONTEXT_OBSERVATIONS 50) st
    = (st, Returned fetched) ->
  o ∈ fetched ->
  exists text before,
    generateContext formatDate formatTime dateValue toLocaleString roundPercent
      project CONTEXT_OBSERVATIONS st = (st, Returned text) /\
    Js.startsWith text ("# [" +:+ project +:+ "] recent context") = true /\
    Js.includes text (row_line (row_cells formatTime before o)) = true /\
    cell_id (row_cells formatTime before o) = Observation.id o /\
    cell_title (row_cells formatTime before o)
      = Js.or_str (Observation.title o) "Untitled" /\
    cell_icon (row_cells formatTime before o) = type_icon (Observation.type o) /\
    cell_file (row_cells formatTime before o)
      = extractFirstFile (Observation.files_modified o) "".
Proof.
  intros Hfetch Ho. unfold generateContext.
  destruct (recent_rows_in st project 10) as [_ (sums & Hsums & _)].
  rewrite bind_run, Hfetch, bind_run, Hsums.
  pose proof (sortedDays_perm formatDate dateValue fetched) as Hperm.
  assert (exists d l, (d, l) ∈ sortedDays formatDate dateValue fetched /\ o ∈ l)
    as (d & l & Hday & Hol).
  { rewrite <- Hperm in Ho. apply list_elem_of_In, in_concat in Ho as (l & Hl & Hin).
    apply list_elem_of_In, list_elem_of_fmap in Hl as ([d l'] & -> & Hl).
    exists d, l'. split; [exact Hl | now apply list_elem_of_In]. }
  destruct (day_rows_elem formatTime "" l o Hol) as [before Hrow].
  set (lines := output_lines formatDate formatTime dateValue toLocaleString
                  roundPercent project fetched sums).
  assert (row_line (row_cells formatTime before o) ∈ lines) as Hline.
  { unfold lines, output_lines. rewrite !elem_of_app. right. right. left.
    apply list_elem_of_bind. exists (d, l). split; [|exact Hday].
    unfold day_lines. cbn [snd]. rewrite !elem_of_app. right. left.
    apply list_elem_of_fmap. eauto. }
  exists (Text.trimEnd (Text.join_lines lines)), before.
  split.
  { destruct fetched as [|x xs]; [now apply not_elem_of_nil in Ho | reflexivity]. }
  split.
  { assert (Text.join_lines lines
            = ("# [" +:+ project +:+ "] recent contex")
              +:+ String "t" (Text.newline
                   +:+ String.concat Text.newline (tail lines))) as ->.
    { unfold lines, output_lines, header_lines, Text.join_lines.
      cbn [app tail String.concat]. now rewrite !app_assoc_s. }
    destruct (trimEnd_keeps ("# [" +:+ project +:+ "] recent contex") "t"
                (Text.newline +:+ String.concat Text.newline (tail lines)) eq_refl)
      as [t' ->].
    apply startsWith_spec. exists t'. rewrite !app_assoc_s. reflexivity. }
  split.
  { assert (forall body, body +:+ " |" = (body +:+ " ") +:+ String "|" EmptyString)
      as Hsplit by (intros; now rewrite app_assoc_s).
    unfold row_line in *. rewrite <- !app_assoc_s in Hline |- *.
    rewrite Hsplit in Hline |- *.
    now apply (line_in_text _ "|" lines eq_refl). }
  repeat split; reflexivity.
Qed.

Lemma generateContext_shows_every_row_witness :
  exists text before,
    generateContext iso_day utc_time (fun _ => 0) pretty (fun _ _ => 0)
      "demo" (Some 50) two_projects = (two_projects, Returned text) /\
    Js.startsWith text ("# [" +:+ "demo" +:+ "] recent context") = true /\
    Js.includes text (row_line (row_cells utc_time before demo_newest)) = true /\
    cell_id (row_cells utc_time before demo_newest) = Observation.id demo_newest /\
    cell_title (row_cells utc_time before demo_newest)
      = Js.or_str (Observation.title demo_newest) "Untitled" /\
    cell_icon (row_cells utc_time before demo_newest)
      = type_icon (Observation.type demo_newest) /\
    cell_file (row_cells utc_time before demo_newest)
      = extractFirstFile (Observation.files_modified demo_newest) "".
Proof.
  apply (generateContext_shows_every_row iso_day utc_time (fun _ => 0) pretty
           (fun _ _ => 0) two_projects "demo" (Some 50) demo_fetched demo_newest).
  - vm_compute. reflexivity.
  - left.
Defined.

Example digest_of_demo :
  Js.includes
    (default EmptyString
       (result (generateContext iso_day utc_time (fun _ => 0) pretty (fun _ _ => 0)
                  "demo" (Some 50)) two_projects))
    "| #1 | 00:00 | 🔴 | Fixed login bug | (no file) |" = true.
Proof. vm_compute. reflexivity. Qed.

(** X17.  The file column is never empty for a text the store wrote:
    whatever list of paths was stored and whatever the working
    directory, [extractFirstFile] returns a non-empty string, the
    marker "(no file)" standing in when the list is empty or nothing
    is left of its first path; an absent or empty text gives the marker
    too. *)
Theorem extractFirstFile_never_empty (files : list string) (cwd : string) :
  extractFirstFile (Some (Json.stringify files)) cwd <> EmptyString /\
  (files = [] -> extractFirstFile (Some (Json.stringify files)) cwd = "(no file)") /\
  extractFirstFile None cwd = "(no file)" /\
  extractFirstFile (Some EmptyString) cwd = "(no file)".
Proof.
  split; [|split; [intros ->; reflexivity | split; reflexivity]].
  unfold extractFirstFile. rewrite parseJsonArray_stringify.
  destruct files as [|file files]; [discriminate|].
  destruct (Js.truthy cwd && Js.startsWith file cwd).
  - destruct (Js.substring_from (String.length cwd + 1) file); discriminate.
  - destruct file; discriminate.
Qed.

(** X18.  [extractFirstFile] tests only that the path starts with the
    working directory and then drops one more code unit, whatever it
    is: for a first path [cwd ++ rest] it returns [rest] without its
    first code unit, and "(no file)" when nothing is left, as for the
    directory itself. *)
Theorem extractFirstFile_cuts_prefix (cwd rest : string) (others : list string) :
  cwd <> EmptyString ->
  extractFirstFile (Some (Json.stringify ((cwd +:+ rest) :: others))) cwd
  = if Js.truthy (Js.substring_from 1 rest)
    then Js.substring_from 1 rest else "(no file)".
Proof.
  intros Hc. unfold extractFirstFile. rewrite parseJsonArray_stringify.
  apply truthy_true in Hc. rewrite Hc, startsWith_app. cbn [andb].
  assert (Js.substring_from (String.length cwd + 1) (cwd +:+ rest)
          = Js.substring_from 1 rest) as ->; [|reflexivity].
  clear Hc. induction cwd as [|c cwd IH]; [reflexivity | exact IH].
Qed.

Lemma extractFirstFile_cuts_prefix_witness :
  extractFirstFile (Some (Json.stringify (("/test/project" +:+ "2/src/auth.js") :: [])))
    "/test/project"
  = if Js.truthy (Js.substring_from 1 "2/src/auth.js")
    then Js.substring_from 1 "2/src/auth.js" else "(no file)".
Proof.
  apply (extractFirstFile_cuts_prefix "/test/project" "2/src/auth.js" []).
  discriminate.
Defined.

Example sibling_directory_cut :
  extractFirstFile (Some (Json.stringify ["/test/project2/src/auth.js"])) "/test/project"
  = "/src/auth.js".
Proof. vm_compute. reflexivity. Qed.

Example directory_itself :
  extractFirstFile (Some (Json.stringify ["/test/project"])) "/test/project"
  = "(no file)".
Proof. vm_compute. reflexivity. Qed.

(** X19.  The bullet, the icon of an unknown type, never shows for an
    observation of a database the writing calls built, and the six
    types have six different icons. *)
Theorem stored_types_have_icons (cs : list Call) :
  (forall o, o ∈ observations (history cs) ->
     type_icon (Observation.type o) <> Bullet) /\
  (forall t1 t2, t1 ∈ observation_types -> t2 ∈ observation_types ->
     type_icon t1 = type_icon t2 -> t1 = t2).
Proof.
  assert (forall t, t ∈ observation_types ->
            t = "decision" \/ t = "bugfix" \/ t = "feature" \/ t = "refactor"
            \/ t = "discovery" \/ t = "change") as Hsix.
  { intros t Ht. unfold observation_types in Ht.
    repeat (apply elem_of_cons in Ht as [Ht|Ht]; [auto 10|]).
    now apply not_elem_of_nil in Ht. }
  split.
  - intros o Ho.
    destruct (observations_owned _ (consistent_history cs) o Ho) as [_ Ht].
    destruct (Hsix _ Ht) as [E|[E|[E|[E|[E|E]]]]]; rewrite E; discriminate.
  - intros t1 t2 H1 H2.
    destruct (Hsix _ H1) as [E|[E|[E|[E|[E|E]]]]]; rewrite E;
      destruct (Hsix _ H2) as [F|[F|[F|[F|[F|F]]]]]; rewrite F;
      cbn; intros; congruence.
Qed.

(** * The worker *)

Section SummaryFacts.

Lemma includes_app_false (a b t : string) :
  Js.includes (a +:+ b) t = false -> Js.includes a t = false.
Proof.
  intros H. destruct (Js.includes a t) eqn:E; [|reflexivity].
  apply includes_spec in E as (x & y & ->).
  assert (Js.includes ((x +:+ t +:+ y) +:+ b) t = true) as H'; [|congruence].
  apply includes_spec. exists x, (y +:+ b). now rewrite !app_assoc_s.
Qed.

Lemma first_line_no_newline (s : string) :
  Js.includes (first_line s) Text.newline = false.
Proof.
  induction s as [|c s IH]; [reflexivity|]. cbn [first_line].
  destruct (N.eqb_spec (N_of_ascii c) 10) as [E|E]; [reflexivity|].
  cbn [Js.includes Js.startsWith Text.newline]. rewrite IH.
  destruct (Ascii.eqb_spec (ascii_of_N 10) c) as [<-|_]; [|reflexivity].
  now contradiction E.
Qed.

Lemma first_line_prefix (s : string) :
  exists rest,
    s = first_line s +:+ rest /\
    (rest = EmptyString \/ Js.startsWith rest Text.newline = true).
Proof.
  induction s as [|c s (rest & IH & Hrest)]; [exists EmptyString; auto|].
  cbn [first_line]. destruct (N.eqb_spec (N_of_ascii c) 10) as [E|E].
  - exists (String c s). split; [reflexivity|]. right.
    rewrite <- (ascii_N_embedding c), E. cbn [Text.newline Js.startsWith].
    now rewrite Ascii.eqb_refl.
  - exists rest. cbn [String.append]. now rewrite <- IH.
Qed.

Lemma substring_from_all (n : nat) (s : string) :
  (String.length s <= n)%nat -> Js.substring_from n s = EmptyString.
Proof.
  revert s. induction n as [|n IH]; intros [|c s] H; cbn in *; try reflexivity; try lia.
  apply IH. lia.
Qed.

End SummaryFacts.

(** X20.  [createSimpleSummary] yields nothing for an absent or empty
    assistant message.  Otherwise the request is the first line of the
    user message (of the assistant message when the user message is
    absent or empty) cut to 100 code units: a prefix without a line
    feed that stops at 100 code units, at the end of the message or
    before a line feed; the completed text is the first 200 code units
    of the assistant message, and the other four fields are absent. *)
Theorem createSimpleSummary_fields (assistantMessage userMessage : option string) :
  (Js.truthy_opt assistantMessage = false ->
     createSimpleSummary assistantMessage userMessage = None) /\
  (forall assistant, assistantMessage = Some assistant -> assistant <> EmptyString ->
     exists request done,
       createSimpleSummary assistantMessage userMessage
         = Some (SummaryFields.mk (Some request) None None (Some done) None None) /\
       (String.length request <= 100)%nat /\
       Js.includes request Text.newline = false /\
       (exists rest,
          Js.or_str userMessage assistant = request +:+ rest /\
          (String.length request = 100%nat \/ rest = EmptyString \/
           Js.startsWith rest Text.newline = true)) /\
       String.length done = Nat.min 200 (String.length assistant) /\
       assistant = done +:+ Js.substring_from 200 assistant).
Proof.
  split.
  - unfold createSimpleSummary. now destruct assistantMessage as [[|c s]|].
  - intros assistant -> Hne. unfold createSimpleSummary. cbn [Js.or_null].
    apply truthy_true in Hne. rewrite Hne.
    set (source := Js.or_str userMessage assistant).
    exists (Js.substring_to 100 (first_line source)), (Js.substring_to 200 assistant).
    split; [reflexivity|]. split; [rewrite length_substring_to; lia|]. split.
    { apply (includes_app_false _ (Js.substring_from 100 (first_line source))).
      rewrite <- substring_split. apply first_line_no_newline. }
    split.
    { destruct (first_line_prefix source) as (rest & Hsplit & Hrest).
      exists (Js.substring_from 100 (first_line source) +:+ rest). split.
      - rewrite <- app_assoc_s, <- substring_split. exact Hsplit.
      - rewrite length_substring_to.
        destruct (le_lt_dec (String.length (first_line source)) 100) as [Hle|Hgt].
        + right. now rewrite (substring_from_all _ _ Hle).
        + left. lia. }
    split; [apply length_substring_to | apply substring_split].
Qed.

Example summary_of_e2e :
  createSimpleSummary
    (Some "I tested the memory system by writing example.js. All tests passed.")
    (Some "Test the memory system")
  = Some (SummaryFields.mk (Some "Test the memory system") None None
            (Some "I tested the memory system by writing example.js. All tests passed.")
            None None).
Proof. reflexivity. Qed.

(** X21.  Whatever [createSimpleObservation] makes of a tool use, the
    store accepts: the row is stored with type "change", a title that
    is never absent, the facts text of the empty array and no
    narrative, and its modified-files text reads back as the file_path
    and the target_file of the input, those of the two that are
    present. *)
Theorem simple_observation_is_stored (st : Store) (sid project : string)
    (obs : ToolUse.t) (made : ObservationFields.t) (pn : option Z) (dt : Z)
    (now now1 : Date) :
  createSimpleObservation obs = Some made ->
  exists st' id row title,
    storeObservation sid project made pn dt now now1 st
      = (st', Returned (id, getTime now)) /\
    getObservationById id st' = (st', Returned (Some row)) /\
    Observation.type row = "change" /\
    Observation.title row = Some title /\ title <> EmptyString /\
    Observation.narrative row = None /\
    parseJsonArray (Observation.facts row) = [] /\
    parseJsonArray (Observation.concepts row) = ["what-changed"] /\
    parseJsonArray (Observation.files_modified row)
    = option_list (input_field ToolInput.file_path (ToolUse.tool_input obs))
      ++ option_list (input_field ToolInput.target_file (ToolUse.tool_input obs)).
Proof.
  unfold createSimpleObservation.
  destruct (existsb _ skipTools); [discriminate|]. intros E. injection E as <-.
  set (made := ObservationFields.mk _ _ _ _ _ _ _ _).
  assert (check_type (Js.or_str (ObservationFields.type made) "change") = true) as Hty.
  { unfold made. cbn [ObservationFields.type].
    destruct (_ || _); [reflexivity|]. now destruct (name_includes _ "Bash"). }
  destruct (storeObservation_fetch st sid project made pn dt now now1 Hty)
    as (st' & Hs & Hg & _).
  assert (exists title, ObservationFields.title made = Some title /\ title <> EmptyString)
    as (title & Ht & Hne).
  { unfold made. cbn [ObservationFields.title]. eexists. split; [reflexivity|].
    destruct (input_field ToolInput.file_path _); [discriminate|].
    destruct (input_field ToolInput.command _); [discriminate|].
    destruct (ToolUse.tool_name obs) as [[|c n]|]; discriminate. }
  exists st', (next_rowid (Observation.id <$> observations st)),
    (observation_row st sid project made pn dt now), title.
  split; [exact Hs|]. split; [exact Hg|].
  cbn [observation_row Observation.type Observation.title Observation.narrative
       Observation.facts Observation.concepts Observation.files_modified].
  rewrite !parseJsonArray_stringify, Ht.
  split.
  { unfold made. cbn [ObservationFields.type].
    destruct (_ || _); [reflexivity|]. now destruct (name_includes _ "Bash"). }
  split.
  { cbn [Js.or_null]. apply truthy_true in Hne. now rewrite Hne. }
  split; [exact Hne|]. split; [reflexivity|]. split; [reflexivity|].
  split; [reflexivity|].
  unfold made. cbn [ObservationFields.files_modified Js.or_empty].
  destruct (input_field ToolInput.file_path _), (input_field ToolInput.target_file _);
    reflexivity.
Qed.

Lemma simple_observation_is_stored_witness :
  exists st' id row title,
    storeObservation "s1" "demo"
      (ObservationFields.mk (Some "change") (Some "Modified example.js")
         (Some "Tool: Write") (Some []) None (Some ["what-changed"]) (Some [])
         (Some ["test/example.js"]))
      (Some 1) 0 clock0 clock0 empty_store
      = (st', Returned (id, getTime clock0)) /\
    getObservationById id st' = (st', Returned (Some row)) /\
    Observation.type row = "change" /\
    Observation.title row = Some title /\ title <> EmptyString /\
    Observation.narrative row = None /\
    parseJsonArray (Observation.facts row) = [] /\
    parseJsonArray (Observation.concepts row) = ["what-changed"] /\
    parseJsonArray (Observation.files_modified row)
    = option_list (input_field ToolInput.file_path
        (ToolUse.tool_input (ToolUse.mk (Some "Write")
           (Some (ToolInput.mk (Some "test/example.js") None None)))))
      ++ option_list (input_field ToolInput.target_file
        (ToolUse.tool_input (ToolUse.mk (Some "Write")
           (Some (ToolInput.mk (Some "test/example.js") None None))))).
Proof.
  apply (simple_observation_is_stored empty_store "s1" "demo"
           (ToolUse.mk (Some "Write")
              (Some (ToolInput.mk (Some "test/example.js") None None)))
           (ObservationFields.mk (Some "change") (Some "Modified example.js")
              (Some "Tool: Write") (Some []) None (Some ["what-changed"]) (Some [])
              (Some ["test/example.js"]))
           (Some 1) 0 clock0 clock0).
  reflexivity.
Defined.

Section Routes.

Lemma route_bind_run {A B} (m : Route A) (k : A -> Route B) (w : Worker) :
  (m ≫= k) w =
  match m w with
  | (w', Returned a) => k a w'
  | (w', Thrown e) => (w', Thrown e)
  end.
Proof. reflexivity. Qed.

Lemma on_db_run {A} (m : Db A) (w : Worker) (st : Store) (out : Outcome A) :
  m (database w) = (st, out) ->
  on_db m w = (mkWorker st (user_prompts w) (pendingObservations w), out).
Proof. intros H. unfold on_db. now rewrite H. Qed.

Lemma ensured_lookup (sid : string) (q : gmap string (list Queued.t)) :
  ensured sid q !! sid = Some (default [] (q !! sid)).
Proof.
  unfold ensured. destruct (q !! sid) eqn:E; [now rewrite E|].
  now rewrite lookup_insert_eq.
Qed.

(** What [init_route] does when both identifiers are given. *)
Lemma init_route_run (w : Worker) (sid proj : string) (prompt : option string)
    (now pnow : Date) :
  sid <> EmptyString -> proj <> EmptyString ->
  exists s,
    find_session sid
      (sessions (exec (createSession sid proj (Js.or_str prompt "") now) (database w)))
      = Some s /\
    init_route (Some sid) (Some proj) prompt now pnow w
    = (mkWorker
         (exec (incrementPromptCounter sid)
            (exec (createSession sid proj (Js.or_str prompt "") now) (database w)))
         (user_prompts w ++
            match Js.or_null prompt with
            | Some text =>
                [UserPrompt.mk (next_rowid (UserPrompt.id <$> user_prompts w)) sid
                   (Js.or_num (Some (Session.prompt_counter s + 1)) 1) text
                   (toISOString pnow) (getTime pnow)]
            | None => []
            end)
         (ensured sid (pendingObservations w)),
       InitOk (Some (Session.id s)) (Js.or_num (Some (Session.prompt_counter s + 1)) 1)).
Proof.
  intros Hsid Hproj. apply truthy_true in Hsid, Hproj.
  destruct (createSession_ensures (database w) sid proj (Js.or_str prompt "") now)
    as (st1 & id & s & Hc & Hs & Hid & _).
  destruct (incrementPromptCounter_existing st1 sid s Hs) as [Hinc Hfind].
  exists s. unfold exec. rewrite Hc. cbn [fst]. split; [exact Hs|].
  unfold init_route, respond. cbn [Js.or_null]. rewrite Hsid, Hproj.
  unfold mbind, route_bind, on_db, mret, route_ret.
  rewrite Hc. cbn [database user_prompts pendingObservations]. rewrite Hinc.
  cbn [fst database user_prompts pendingObservations]. subst id.
  destruct (Js.or_null prompt) as [text|].
  - unfold saveUserPrompt, ensure_queue.
    cbn [database user_prompts pendingObservations with_sessions sessions].
    rewrite Hfind. reflexivity.
  - unfold ensure_queue. cbn [database user_prompts pendingObservations].
    now rewrite app_nil_r.
Qed.

Lemma ensure_enqueue (sid : string) (q : gmap string (list Queued.t)) (x : Queued.t) :
  <[sid := default [] (ensured sid q !! sid) ++ [x]]> (ensured sid q)
  = <[sid := default [] (q !! sid) ++ [x]]> q.
Proof.
  rewrite ensured_lookup. simpl. unfold ensured.
  destruct (q !! sid); [reflexivity|]. now rewrite insert_insert_eq.
Qed.

Lemma simple_type_ok (obs : ToolUse.t) (o : ObservationFields.t) :
  createSimpleObservation obs = Some o ->
  ObservationFields.type o = Some "change".
Proof.
  unfold createSimpleObservation.
  destruct (existsb _ skipTools); [discriminate|]. intros E. injection E as <-.
  cbn [ObservationFields.type].
  destruct (_ || _); [reflexivity|]. now destruct (name_includes _ "Bash").
Qed.

(** What [observations_route] does when the session id is given. *)
Lemma observations_route_run (w : Worker) (sid : string) (obs : ToolUse.t)
    (cwd : option string) (cnow : Date) (ts : Z) (now snow : Date) :
  sid <> EmptyString ->
  observations_route (Some sid) obs cwd cnow ts now snow w
  = (mkWorker
       (let session := find_session sid (sessions (database w)) in
        let st1 :=
          match session with
          | Some _ => database w
          | None => exec (createSession sid (project_of_cwd cwd) "" cnow) (database w)
          end in
        match createSimpleObservation obs with
        | Some o =>
            exec (storeObservation sid
                    (Js.or_str (Session.project <$> session) (project_of_cwd cwd)) o
                    (Some (Js.or_num (Session.prompt_counter <$> session) 1)) 0
                    now snow) st1
        | None => st1
        end)
       (user_prompts w)
       (<[sid := default [] (pendingObservations w !! sid) ++ [Queued.mk obs cwd ts]]>
          (pendingObservations w)),
     QueuedOk).
Proof.
  intros Hsid. apply truthy_true in Hsid.
  unfold observations_route, respond. cbn [Js.or_null]. rewrite Hsid.
  unfold mbind, route_bind, on_db, mret, route_ret, getSession.
  cbn [database user_prompts pendingObservations].
  rewrite <- (ensure_enqueue sid (pendingObservations w) (Queued.mk obs cwd ts)).
  unfold exec.
  destruct (find_session sid (sessions (database w))) as [s|] eqn:E.
  - unfold ensure_queue, enqueue, processObservation.
    cbn [database user_prompts pendingObservations fst].
    destruct (createSimpleObservation obs) as [o|]; [|reflexivity].
    unfold on_db. cbn [database user_prompts pendingObservations fmap option_fmap option_map].
    destruct (storeObservation _ _ _ _ _ _ _ _) as [st' out]. reflexivity.
  - destruct (createSession_ensures (database w) sid (project_of_cwd cwd) "" cnow)
      as (st1 & id & s & Hc & _).
    cbv beta iota. cbn [database user_prompts pendingObservations].
    rewrite Hc. unfold ensure_queue, enqueue, processObservation.
    cbn [database user_prompts pendingObservations fst].
    destruct (createSimpleObservation obs) as [o|]; [|reflexivity].
    unfold on_db. cbn [database user_prompts pendingObservations fmap option_fmap option_map].
    destruct (storeObservation _ _ _ _ _ _ _ _) as [st' out]. reflexivity.
Qed.

(** What [summarize_route] does on a session the table holds. *)
Lemma summarize_route_run (w : Worker) (sid : string) (user assistant : option string)
    (now snow cnow : Date) (s : Session.t) :
  sid <> EmptyString ->
  find_session sid (sessions (database w)) = Some s ->
  summarize_route (Some sid) user assistant now snow cnow w
  = (mkWorker
       (exec (markSessionCompleted sid cnow)
          match createSimpleSummary assistant user with
          | Some sm =>
              exec (storeSummary sid (Session.project s) sm
                      (Some (Session.prompt_counter s)) 0 now snow) (database w)
          | None => database w
          end)
       (user_prompts w) (pendingObservations w),
     SuccessOk).
Proof.
  intros Hsid Hs. apply truthy_true in Hsid.
  unfold summarize_route, respond. cbn [Js.or_null]. rewrite Hsid.
  unfold mbind, route_bind, on_db, mret, route_ret, getSession.
  cbn [database user_prompts pendingObservations]. rewrite Hs.
  destruct (createSimpleSummary assistant user) as [sm|].
  - destruct (storeSummary_run (database w) sid (Session.project s) sm
                (Some (Session.prompt_counter s)) 0 now snow)
      as (st0 & id0 & s0 & _ & _ & Hrun).
    unfold exec. cbv beta iota. cbn [database user_prompts pendingObservations].
    rewrite Hrun. reflexivity.
  - reflexivity.
Qed.

(** A route called without its session id. *)
Lemma summarize_route_unknown (w : Worker) (sid : string) (user assistant : option string)
    (now snow cnow : Date) :
  sid <> EmptyString ->
  find_session sid (sessions (database w)) = None ->
  summarize_route (Some sid) user assistant now snow cnow w
  = (w, NotFound "Session not found").
Proof.
  intros Hsid Hs. apply truthy_true in Hsid.
  unfold summarize_route, respond. cbn [Js.or_null]. rewrite Hsid.
  unfold mbind, route_bind, on_db, mret, route_ret, getSession.
  cbn [database user_prompts pendingObservations]. rewrite Hs.
  now destruct w.
Qed.

End Routes.

Section RouteFacts.

Lemma createSession_row (st : Store) (sid proj prompt : string) (now : Date) :
  proj <> EmptyString ->
  find_session sid (sessions (exec (createSession sid proj prompt now) st))
  = Some match find_session sid (sessions st) with
         | Some s => set_project_prompt proj prompt s
         | None => new_session st sid proj prompt now
         end.
Proof.
  intros Hp. apply truthy_true in Hp. rewrite sessions_after_createSession.
  destruct (find_session sid (sessions st)) as [s|] eqn:E.
  - rewrite Hp, find_session_updated by reflexivity. now rewrite E.
  - now apply find_session_app_new.
Qed.

Lemma call_keeps_sessions (c : Call) (st : Store) (sid : string) :
  is_Some (find_session sid (sessions st)) ->
  is_Some (find_session sid (sessions (call c st))).
Proof.
  assert (forall x p u now,
            is_Some (find_session sid (sessions st)) ->
            is_Some (find_session sid (sessions (exec (createSession x p u now) st))))
    as Hcreate.
  { intros x p u now H. rewrite sessions_after_createSession.
    destruct (find_session x (sessions st)) eqn:E.
    - destruct (Js.truthy p); [|exact H].
      apply find_session_is_Some. rewrite updated_fmap by reflexivity.
      now apply find_session_is_Some.
    - destruct H as [s Hs]. rewrite (find_session_app_old _ _ _ _ Hs). eauto. }
  intros H.
  destruct c as [x p u now|x|x now|x p o pn dt now snow|x p s pn dt now snow];
    cbn [call].
  - now apply Hcreate.
  - rewrite incrementPromptCounter_exec. cbn [with_sessions sessions].
    apply find_session_is_Some. rewrite updated_fmap by reflexivity.
    now apply find_session_is_Some.
  - rewrite markSessionCompleted_exec. cbn [with_sessions sessions].
    apply find_session_is_Some. rewrite updated_fmap by reflexivity.
    now apply find_session_is_Some.
  - rewrite sessions_after_storeObservation. now apply Hcreate.
  - rewrite sessions_after_storeSummary. now apply Hcreate.
Qed.

Lemma ensured_other (sid other : string) (q : gmap string (list Queued.t)) :
  other <> sid -> ensured sid q !! other = q !! other.
Proof.
  intros Hne. unfold ensured. destruct (q !! sid); [reflexivity|].
  now rewrite lookup_insert_ne.
Qed.

End RouteFacts.

(** X22.  A request that lacks its required field is answered with
    status 400 and changes nothing: no session is created, nothing is
    queued or logged.  The field counts as lacking when it is absent
    or the empty string; for the init route either of the session id
    and the project is required. *)
Theorem request_without_id_rejected (w : Worker) (missing : option string) :
  Js.or_null missing = None ->
  (forall other prompt now pnow,
     init_route missing other prompt now pnow w
       = (w, BadRequest "sessionId and project are required") /\
     init_route other missing prompt now pnow w
       = (w, BadRequest "sessionId and project are required")) /\
  (forall obs cwd cnow ts now snow,
     observations_route missing obs cwd cnow ts now snow w
       = (w, BadRequest "claudeSessionId is required")) /\
  (forall user assistant now snow cnow,
     summarize_route missing user assistant now snow cnow w
       = (w, BadRequest "claudeSessionId is required")) /\
  (forall fts5 project limit,
     search_route fts5 missing project limit w
       = (w, BadRequest "Query parameter q is required")).
Proof.
  intros H.
  unfold init_route, observations_route, summarize_route, search_route, respond.
  rewrite H. repeat split.
  now destruct (Js.or_null other).
Qed.

Lemma request_without_id_rejected_witness :
  (forall other prompt now pnow,
     init_route (Some "") other prompt now pnow new_worker
       = (new_worker, BadRequest "sessionId and project are required") /\
     init_route other (Some "") prompt now pnow new_worker
       = (new_worker, BadRequest "sessionId and project are required")) /\
  (forall obs cwd cnow ts now snow,
     observations_route (Some "") obs cwd cnow ts now snow new_worker
       = (new_worker, BadRequest "claudeSessionId is required")) /\
  (forall user assistant now snow cnow,
     summarize_route (Some "") user assistant now snow cnow new_worker
       = (new_worker, BadRequest "claudeSessionId is required")) /\
  (forall fts5 project limit,
     search_route fts5 (Some "") project limit new_worker
       = (new_worker, BadRequest "Query parameter q is required")).
Proof.
  apply (request_without_id_rejected new_worker (Some "")).
  reflexivity.
Defined.

(** X23.  The init route, given a session id and a project, always
    answers with success (never 500): afterwards the session exists
    with the project and the prompt of this request, its counter is one
    more than before (1 for a new session), the answer carries the
    session's row id and that counter, a non-empty prompt is logged
    once under that counter and an absent or empty one is not logged,
    and the session has a queue, which keeps what it held. *)
Theorem init_route_registers (w : Worker) (sid proj : string) (prompt : option string)
    (now pnow : Date) :
  sid <> EmptyString -> proj <> EmptyString ->
  exists w' s,
    init_route (Some sid) (Some proj) prompt now pnow w
      = (w', InitOk (Some (Session.id s))
               (Js.or_num (Some (Session.prompt_counter s)) 1)) /\
    find_session sid (sessions (database w')) = Some s /\
    Session.project s = proj /\
    Session.user_prompt s = Some (Js.or_str prompt "") /\
    Session.prompt_counter s
      = 1 + default 0 (Session.prompt_counter
                         <$> find_session sid (sessions (database w))) /\
    user_prompts w'
      = user_prompts w ++
        match Js.or_null prompt with
        | Some text =>
            [UserPrompt.mk (next_rowid (UserPrompt.id <$> user_prompts w)) sid
               (Js.or_num (Some (Session.prompt_counter s)) 1) text
               (toISOString pnow) (getTime pnow)]
        | None => []
        end /\
    pendingObservations w' !! sid = Some (default [] (pendingObservations w !! sid)) /\
    (forall other, other <> sid ->
       pendingObservations w' !! other = pendingObservations w !! other).
Proof.
  intros Hsid Hproj.
  destruct (init_route_run w sid proj prompt now pnow Hsid Hproj) as (s0 & Hs0 & Hrun).
  rewrite (createSession_row _ _ _ _ _ Hproj) in Hs0.
  eexists _, (bump_counter s0). rewrite Hrun.
  split; [reflexivity|]. cbn [database user_prompts pendingObservations].
  split.
  { rewrite incrementPromptCounter_exec. cbn [with_sessions sessions].
    rewrite find_session_updated by reflexivity.
    rewrite (createSession_row _ _ _ _ _ Hproj). now rewrite Hs0. }
  injection Hs0 as <-.
  split; [now destruct (find_session sid (sessions (database w)))|].
  split; [now destruct (find_session sid (sessions (database w)))|].
  split.
  { destruct (find_session sid (sessions (database w))); cbn; lia. }
  split; [reflexivity|]. split; [apply ensured_lookup|].
  intros other Hne. now apply ensured_other.
Qed.

Lemma init_route_registers_witness :
  exists w' s,
    init_route (Some "s1") (Some "demo") (Some "Fix the login bug") clock0 clock1
      new_worker
      = (w', InitOk (Some (Session.id s))
               (Js.or_num (Some (Session.prompt_counter s)) 1)) /\
    find_session "s1" (sessions (database w')) = Some s /\
    Session.project s = "demo" /\
    Session.user_prompt s = Some (Js.or_str (Some "Fix the login bug") "") /\
    Session.prompt_counter s
      = 1 + default 0 (Session.prompt_counter
                         <$> find_session "s1" (sessions (database new_worker))) /\
    user_prompts w'
      = user_prompts new_worker ++
        match Js.or_null (Some "Fix the login bug") with
        | Some text =>
            [UserPrompt.mk (next_rowid (UserPrompt.id <$> user_prompts new_worker)) "s1"
               (Js.or_num (Some (Session.prompt_counter s)) 1) text
               (toISOString clock1) (getTime clock1)]
        | None => []
        end /\
    pendingObservations w' !! "s1"
      = Some (default [] (pendingObservations new_worker !! "s1")) /\
    (forall other, other <> "s1" ->
       pendingObservations w' !! other = pendingObservations new_worker !! other).
Proof.
  apply (init_route_registers new_worker "s1" "demo" (Some "Fix the login bug")
           clock0 clock1).
  - discriminate.
  - discriminate.
Defined.

Section RouteSteps.

Lemma createSession_present (st : Store) (sid p u : string) (now : Date) :
  is_Some (find_session sid (sessions (exec (createSession sid p u now) st))).
Proof.
  unfold exec.
  destruct (createSession_ensures st sid p u now) as (st' & id & s & -> & Hs & _).
  cbn [fst]. eauto.
Qed.

Lemma observation_row_ext (st st' : Store) (sid project : string)
    (o : ObservationFields.t) (pn : option Z) (dt : Z) (now : Date) :
  observations st = observations st' ->
  observation_row st sid project o pn dt now
  = observation_row st' sid project o pn dt now.
Proof. intros H. unfold observation_row. now rewrite H. Qed.

Lemma summary_row_ext (st st' : Store) (sid project : string)
    (sm : SummaryFields.t) (pn : option Z) (dt : Z) (now : Date) :
  session_summaries st = session_summaries st' ->
  summary_row st sid project sm pn dt now = summary_row st' sid project sm pn dt now.
Proof. intros H. unfold summary_row. now rewrite H. Qed.

Lemma or_null_Some (v : option string) (x : string) :
  Js.or_null v = Some x -> v = Some x /\ x <> EmptyString.
Proof.
  destruct v as [[|c s]|]; cbn; intros H; try discriminate.
  injection H as <-. split; [reflexivity | discriminate].
Qed.

(** The store the observations route leaves. *)
Lemma observed_tables (st : Store) (sid : string) (obs : ToolUse.t)
    (cwd : option string) (cnow now snow : Date) :
  let session := find_session sid (sessions st) in
  let st1 :=
    match session with
    | Some _ => st
    | None => exec (createSession sid (project_of_cwd cwd) "" cnow) st
    end in
  let project := Js.or_str (Session.project <$> session) (project_of_cwd cwd) in
  let number := Js.or_num (Session.prompt_counter <$> session) 1 in
  let st2 :=
    match createSimpleObservation obs with
    | Some o => exec (storeObservation sid project o (Some number) 0 now snow) st1
    | None => st1
    end in
  is_Some (find_session sid (sessions st2)) /\
  session_summaries st2 = session_summaries st /\
  observations st2
  = observations st ++
    match createSimpleObservation obs with
    | Some o => [observation_row st sid project o (Some number) 0 now]
    | None => []
    end.
Proof.
  intros session st1 project number st2.
  assert (is_Some (find_session sid (sessions st1)) /\
          observations st1 = observations st /\
          session_summaries st1 = session_summaries st) as (P1 & O1 & S1).
  { subst st1 session. destruct (find_session sid (sessions st)) eqn:E.
    - rewrite E. eauto.
    - split; [apply createSession_present|].
      destruct (tables_after_createSession st sid (project_of_cwd cwd) "" cnow)
        as (T1 & _ & T3). auto. }
  subst st2. destruct (createSimpleObservation obs) as [o|] eqn:Ho.
  - destruct (tables_after_storeObservation st1 sid project o (Some number) 0 now snow)
      as (T1 & T3).
    rewrite sessions_after_storeObservation, T1, T3, O1, S1.
    rewrite (simple_type_ok _ _ Ho). cbn [Js.or_str Js.truthy].
    change (check_type "change") with true. cbv iota.
    rewrite (observation_row_ext st1 st) by exact O1.
    split; [apply createSession_present | auto].
  - rewrite app_nil_r. auto.
Qed.

End RouteSteps.

(** X24.  The observations route, given a session id, always answers
    that the observation is queued, whatever the store does: afterwards
    the session exists (it is created when unknown), the tool use is
    appended to the session's queue and no other queue changes, no
    prompt is logged and no summary written, and exactly one
    observation row is added unless the tool is a skipped one (Read,
    LS, Glob), in which case none is.  The row carries the session's
    project, or the last segment of the working directory when the
    session is unknown or has an empty project, and the session's
    prompt counter, or 1 when the session is unknown or its counter is
    0. *)
Theorem observations_route_queues (w : Worker) (sid : string) (obs : ToolUse.t)
    (cwd : option string) (cnow : Date) (ts : Z) (now snow : Date) :
  sid <> EmptyString ->
  exists w',
    observations_route (Some sid) obs cwd cnow ts now snow w = (w', QueuedOk) /\
    is_Some (find_session sid (sessions (database w'))) /\
    pendingObservations w' !! sid
      = Some (default [] (pendingObservations w !! sid) ++ [Queued.mk obs cwd ts]) /\
    (forall other, other <> sid ->
       pendingObservations w' !! other = pendingObservations w !! other) /\
    user_prompts w' = user_prompts w /\
    session_summaries (database w') = session_summaries (database w) /\
    observations (database w')
      = observations (database w) ++
        match createSimpleObservation obs with
        | Some o =>
            [observation_row (database w) sid
               (Js.or_str (Session.project <$> find_session sid (sessions (database w)))
                  (project_of_cwd cwd))
               o
               (Some (Js.or_num (Session.prompt_counter
                                   <$> find_session sid (sessions (database w))) 1))
               0 now]
        | None => []
        end.
Proof.
  intros Hsid. eexists. rewrite (observations_route_run _ _ _ _ _ _ _ _ Hsid).
  split; [reflexivity|]. cbn [database user_prompts pendingObservations].
  destruct (observed_tables (database w) sid obs cwd cnow now snow) as (P & S & O).
  split; [exact P|]. split; [apply lookup_insert_eq|].
  split; [intros other Hne; now apply lookup_insert_ne|].
  split; [reflexivity|]. split; [exact S | exact O].
Qed.

Lemma observations_route_queues_witness :
  exists w',
    observations_route (Some "s1")
      (ToolUse.mk (Some "Write") (Some (ToolInput.mk (Some "src/app.js") None None)))
      (Some "/home/dev/demo") clock0 1735689600000 clock1 clock2 new_worker
      = (w', QueuedOk) /\
    is_Some (find_session "s1" (sessions (database w'))) /\
    pendingObservations w' !! "s1"
      = Some (default [] (pendingObservations new_worker !! "s1") ++
              [Queued.mk
                 (ToolUse.mk (Some "Write")
                    (Some (ToolInput.mk (Some "src/app.js") None None)))
                 (Some "/home/dev/demo") 1735689600000]) /\
    (forall other, other <> "s1" ->
       pendingObservations w' !! other = pendingObservations new_worker !! other) /\
    user_prompts w' = user_prompts new_worker /\
    session_summaries (database w') = session_summaries (database new_worker) /\
    observations (database w')
      = observations (database new_worker) ++
        match createSimpleObservation
                (ToolUse.mk (Some "Write")
                   (Some (ToolInput.mk (Some "src/app.js") None None))) with
        | Some o =>
            [observation_row (database new_worker) "s1"
               (Js.or_str
                  (Session.project
                     <$> find_session "s1" (sessions (database new_worker)))
                  (project_of_cwd (Some "/home/dev/demo")))
               o
               (Some (Js.or_num
                        (Session.prompt_counter
                           <$> find_session "s1" (sessions (database new_worker))) 1))
               0 clock1]
        | None => []
        end.
Proof.
  apply (observations_route_queues new_worker "s1"
           (ToolUse.mk (Some "Write") (Some (ToolInput.mk (Some "src/app.js") None None)))
           (Some "/home/dev/demo") clock0 1735689600000 clock1 clock2).
  discriminate.
Defined.

(** X25.  The summarize route, given a session id: for an unknown
    session it answers 404 and changes nothing; for a known one it
    always answers with success, the session is marked completed with
    the time of the call and keeps its row id, project and prompt
    counter, a summary row is added exactly when the assistant message
    is non-empty, under the session's project and counter, and
    observations, logged prompts and queues stay as they were. *)
Theorem summarize_route_completes (w : Worker) (sid : string)
    (user assistant : option string) (now snow cnow : Date) :
  sid <> EmptyString ->
  match find_session sid (sessions (database w)) with
  | None =>
      summarize_route (Some sid) user assistant now snow cnow w
      = (w, NotFound "Session not found")
  | Some s =>
      exists w' s',
        summarize_route (Some sid) user assistant now snow cnow w = (w', SuccessOk) /\
        find_session sid (sessions (database w')) = Some s' /\
        Session.status s' = completed /\
        Session.completed_at s' = Some (toISOString cnow) /\
        Session.completed_at_epoch s' = Some (getTime cnow) /\
        Session.id s' = Session.id s /\
        Session.project s' = Session.project s /\
        Session.prompt_counter s' = Session.prompt_counter s /\
        session_summaries (database w')
          = session_summaries (database w) ++
            match createSimpleSummary assistant user with
            | Some sm =>
                [summary_row (database w) sid (Session.project s) sm
                   (Some (Session.prompt_counter s)) 0 now]
            | None => []
            end /\
        (is_Some (createSimpleSummary assistant user)
           <-> exists text, assistant = Some text /\ text <> EmptyString) /\
        observations (database w') = observations (database w) /\
        user_prompts w' = user_prompts w /\
        pendingObservations w' = pendingObservations w
  end.
Proof.
  intros Hsid. destruct (find_session sid (sessions (database w))) as [s|] eqn:E.
  2: { now apply summarize_route_unknown. }
  rewrite (summarize_route_run _ _ _ _ _ _ _ s Hsid E).
  set (st1 := match createSimpleSummary assistant user with
              | Some sm => exec (storeSummary sid (Session.project s) sm
                                   (Some (Session.prompt_counter s)) 0 now snow)
                             (database w)
              | None => database w
              end).
  assert (exists s1, find_session sid (sessions st1) = Some s1 /\
            Session.id s1 = Session.id s /\ Session.project s1 = Session.project s /\
            Session.prompt_counter s1 = Session.prompt_counter s) as (s1 & F1 & I1 & P1 & C1).
  { subst st1. destruct (createSimpleSummary assistant user) as [sm|]; [|eauto].
    rewrite sessions_after_storeSummary, sessions_after_createSession, E.
    destruct (Js.truthy (Session.project s)); [|eauto].
    rewrite find_session_updated by reflexivity. rewrite E.
    eexists. split; [reflexivity|]. auto. }
  assert (observations st1 = observations (database w) /\
          session_summaries st1
          = session_summaries (database w) ++
            match createSimpleSummary assistant user with
            | Some sm =>
                [summary_row (database w) sid (Session.project s) sm
                   (Some (Session.prompt_counter s)) 0 now]
            | None => []
            end) as (O1 & S1).
  { subst st1. destruct (createSimpleSummary assistant user) as [sm|].
    - destruct (tables_after_storeSummary (database w) sid (Session.project s) sm
                  (Some (Session.prompt_counter s)) 0 now snow) as (T1 & _ & T3).
      auto.
    - now rewrite app_nil_r. }
  eexists _, (complete cnow s1). split; [reflexivity|].
  cbn [database user_prompts pendingObservations].
  rewrite markSessionCompleted_exec.
  cbn [with_sessions sessions observations session_summaries].
  rewrite find_session_updated by reflexivity. rewrite F1.
  split; [reflexivity|]. split; [reflexivity|]. split; [reflexivity|].
  split; [reflexivity|]. split; [exact I1|]. split; [exact P1|]. split; [exact C1|].
  split; [exact S1|]. split.
  { unfold createSimpleSummary. destruct assistant as [[|c t]|]; cbn [Js.or_null Js.truthy].
    - split; [intros [? H]; discriminate | intros (t & H & Hne); congruence].
    - split; [intros _; eexists; split; [reflexivity | discriminate] | eauto].
    - split; [intros [? H]; discriminate | intros (t & H & _); discriminate]. }
  auto.
Qed.

Lemma summarize_route_completes_witness :
  exists w' s',
    summarize_route (Some "s1") None (Some "Done") clock0 clock1 clock2 started_worker
      = (w', SuccessOk) /\
    find_session "s1" (sessions (database w')) = Some s' /\
    Session.status s' = completed /\
    Session.completed_at s' = Some (toISOString clock2) /\
    Session.completed_at_epoch s' = Some (getTime clock2) /\
    Session.id s' = Session.id started_session /\
    Session.project s' = Session.project started_session /\
    Session.prompt_counter s' = Session.prompt_counter started_session /\
    session_summaries (database w')
      = session_summaries (database started_worker) ++
        match createSimpleSummary (Some "Done") None with
        | Some sm =>
            [summary_row (database started_worker) "s1"
               (Session.project started_session) sm
               (Some (Session.prompt_counter started_session)) 0 clock0]
        | None => []
        end /\
    (is_Some (createSimpleSummary (Some "Done") None)
       <-> exists text, Some "Done" = Some text /\ text <> EmptyString) /\
    observations (database w') = observations (database started_worker) /\
    user_prompts w' = user_prompts started_worker /\
    pendingObservations w' = pendingObservations started_worker.
Proof.
  apply (summarize_route_completes started_worker "s1" None (Some "Done")
           clock0 clock1 clock2).
  discriminate.
Defined.

Section WorkerInvariant.

Lemma find_session_elem (sid : string) (l : list Session.t) (s : Session.t) :
  find_session sid l = Some s -> s ∈ l.
Proof.
  unfold find_session. intros H. apply find_some in H as [H _].
  now apply list_elem_of_In.
Qed.

Lemma or_num_positive (c : option Z) :
  (forall n, c = Some n -> 0 <= n) -> 0 < Js.or_num c 1.
Proof.
  intros H. destruct c as [n|]; cbn [Js.or_num]; [|lia].
  specialize (H n eq_refl). destruct (Z.eqb_spec n 0); lia.
Qed.

(** A call of the store that adds only fallback observations keeps the
    worker sound. *)
Lemma sound_call (c : Call) (st : Store) (ups : list UserPrompt.t)
    (q : gmap string (list Queued.t)) :
  (forall o, o ∈ observations (call c st) ->
     o ∈ observations st \/
     (Observation.type o = "change" /\
      exists n, Observation.prompt_number o = Some n /\ 0 < n)) ->
  worker_sound (mkWorker st ups q) -> worker_sound (mkWorker (call c st) ups q).
Proof.
  intros Hobs [H1 H2 H3 H4 H5]. cbn [database user_prompts pendingObservations] in *.
  split; cbn [database user_prompts pendingObservations].
  - now apply call_consistent.
  - intros p Hp. destruct (H2 p Hp) as (Hs & Ht & Hn).
    split; [now apply call_keeps_sessions | auto].
  - exact H3.
  - intros sid Hq. apply call_keeps_sessions. auto.
  - intros o Ho. destruct (Hobs o Ho) as [Hold|Hnew]; auto.
Qed.

Lemma sound_prompt (st : Store) (ups : list UserPrompt.t)
    (q : gmap string (list Queued.t)) (sid text : string) (n : Z) (now : Date) :
  is_Some (find_session sid (sessions st)) -> text <> EmptyString -> 0 < n ->
  worker_sound (mkWorker st ups q) ->
  worker_sound
    (mkWorker st
       (ups ++ [UserPrompt.mk (next_rowid (UserPrompt.id <$> ups)) sid n text
                  (toISOString now) (getTime now)]) q).
Proof.
  intros Hs Ht Hn [H1 H2 H3 H4 H5]. cbn [database user_prompts pendingObservations] in *.
  split; cbn [database user_prompts pendingObservations]; try assumption.
  - intros p [Hp|Hp]%elem_of_app; [auto|].
    apply list_elem_of_singleton in Hp. subst p. cbn. auto.
  - now apply NoDup_snoc_fresh.
Qed.

Lemma sound_queue (st : Store) (ups : list UserPrompt.t)
    (q q' : gmap string (list Queued.t)) (sid : string) :
  is_Some (find_session sid (sessions st)) ->
  (forall other, other <> sid -> q' !! other = q !! other) ->
  worker_sound (mkWorker st ups q) -> worker_sound (mkWorker st ups q').
Proof.
  intros Hs Hq [H1 H2 H3 H4 H5]. cbn [database user_prompts pendingObservations] in *.
  split; cbn [database user_prompts pendingObservations]; try assumption.
  intros x Hx. destruct (decide (x = sid)) as [->|Hne]; [exact Hs|].
  apply H4. now rewrite <- Hq.
Qed.

Lemma sound_eta (w : Worker) :
  worker_sound w ->
  worker_sound (mkWorker (database w) (user_prompts w) (pendingObservations w)).
Proof. now destruct w. Qed.

Lemma new_worker_sound : worker_sound new_worker.
Proof.
  split; cbn [new_worker database user_prompts pendingObservations].
  - apply consistent_empty.
  - intros p H. inversion H.
  - constructor.
  - intros sid [x H]. now rewrite lookup_empty in H.
  - intros o H. inversion H.
Qed.

Lemma init_route_sound (w : Worker) (sid proj prompt : option string)
    (now pnow : Date) :
  worker_sound w -> worker_sound (fst (init_route sid proj prompt now pnow w)).
Proof.
  intros Hw.
  destruct (Js.or_null sid) as [x|] eqn:Ex.
  2: { unfold init_route, respond. now rewrite Ex. }
  destruct (Js.or_null proj) as [p|] eqn:Ep.
  2: { unfold init_route, respond. now rewrite Ex, Ep. }
  apply or_null_Some in Ex as [-> Hx]. apply or_null_Some in Ep as [-> Hp].
  destruct (init_route_run w x p prompt now pnow Hx Hp) as (s & Hs & ->). cbn [fst].
  set (u := Js.or_str prompt "") in *.
  apply sound_eta in Hw.
  apply (sound_call (CreateSession x p u now)) in Hw.
  2: { intros o Ho. left. cbn [call] in Ho.
       now rewrite (proj1 (tables_after_createSession _ _ _ _ _)) in Ho. }
  cbn [call] in Hw.
  assert (0 <= Session.prompt_counter s) as Hc.
  { apply (sessions_sound _ (database_consistent _ Hw)).
    cbn [database]. now apply find_session_elem in Hs. }
  apply (sound_call (IncrementPromptCounter x)) in Hw.
  2: { intros o Ho. left. exact Ho. }
  cbn [call] in Hw.
  assert (is_Some (find_session x
            (sessions (exec (incrementPromptCounter x)
                         (exec (createSession x p u now) (database w)))))) as Hx'.
  { apply (call_keeps_sessions (IncrementPromptCounter x)). rewrite Hs. eauto. }
  apply (sound_queue _ _ _ (ensured x (pendingObservations w)) x Hx') in Hw.
  2: { intros other Hne. now apply ensured_other. }
  destruct (Js.or_null prompt) as [text|] eqn:Et.
  - apply or_null_Some in Et as [_ Ht].
    apply sound_prompt; try assumption.
    apply or_num_positive. intros n E. injection E as <-. lia.
  - now rewrite app_nil_r.
Qed.

Lemma observations_route_sound (w : Worker) (sid : option string) (obs : ToolUse.t)
    (cwd : option string) (cnow : Date) (ts : Z) (now snow : Date) :
  worker_sound w ->
  worker_sound (fst (observations_route sid obs cwd cnow ts now snow w)).
Proof.
  intros Hw.
  destruct (Js.or_null sid) as [x|] eqn:Ex.
  2: { unfold observations_route, respond. now rewrite Ex. }
  apply or_null_Some in Ex as [-> Hx].
  rewrite (observations_route_run _ _ _ _ _ _ _ _ Hx). cbn [fst].
  destruct (observed_tables (database w) x obs cwd cnow now snow) as (P & _ & O).
  cbv zeta in P, O |- *.
  assert (0 < Js.or_num (Session.prompt_counter
                           <$> find_session x (sessions (database w))) 1) as Hn.
  { apply or_num_positive. intros n E.
    destruct (find_session x (sessions (database w))) as [s|] eqn:Es; [|discriminate].
    injection E as <-. apply (sessions_sound _ (database_consistent _ Hw)).
    now apply find_session_elem in Es. }
  apply sound_eta in Hw.
  assert (worker_sound
            (mkWorker
               match find_session x (sessions (database w)) with
               | Some _ => database w
               | None => exec (createSession x (project_of_cwd cwd) "" cnow) (database w)
               end (user_prompts w) (pendingObservations w))) as Hw1.
  { destruct (find_session x (sessions (database w))); [exact Hw|].
    apply (sound_call (CreateSession x (project_of_cwd cwd) "" cnow)); [|exact Hw].
    intros o Ho. left. cbn [call] in Ho.
    now rewrite (proj1 (tables_after_createSession _ _ _ _ _)) in Ho. }
  set (st1 := match find_session x (sessions (database w)) with
              | Some _ => database w
              | None => exec (createSession x (project_of_cwd cwd) "" cnow) (database w)
              end) in *.
  assert (observations st1 = observations (database w)) as O1.
  { subst st1. destruct (find_session x (sessions (database w))); [reflexivity|].
    apply tables_after_createSession. }
  apply (sound_queue _ _ (pendingObservations w) _ x); [exact P | |].
  { intros other Hne. now apply lookup_insert_ne. }
  destruct (createSimpleObservation obs) as [o|] eqn:Eo; [|exact Hw1].
  apply (sound_call (StoreObservation x _ o _ 0 now snow)); [|exact Hw1].
  intros r Hr. cbn [call] in Hr. rewrite O, <- O1 in Hr.
  apply elem_of_app in Hr as [Hr|Hr]; [now left|]. right.
  apply list_elem_of_singleton in Hr. subst r.
  cbn [observation_row Observation.type Observation.prompt_number].
  rewrite (simple_type_ok _ _ Eo). split; [reflexivity | eauto].
Qed.

Lemma summarize_route_sound (w : Worker) (sid user assistant : option string)
    (now snow cnow : Date) :
  worker_sound w ->
  worker_sound (fst (summarize_route sid user assistant now snow cnow w)).
Proof.
  intros Hw.
  destruct (Js.or_null sid) as [x|] eqn:Ex.
  2: { unfold summarize_route, respond. now rewrite Ex. }
  apply or_null_Some in Ex as [-> Hx].
  destruct (find_session x (sessions (database w))) as [s|] eqn:Es.
  2: { now rewrite (summarize_route_unknown _ _ _ _ _ _ _ Hx Es). }
  rewrite (summarize_route_run _ _ _ _ _ _ _ s Hx Es). cbn [fst].
  apply sound_eta in Hw.
  apply (sound_call (MarkSessionCompleted x cnow)); [intros o Ho; now left|].
  destruct (createSimpleSummary assistant user) as [sm|]; [|exact Hw].
  apply (sound_call (StoreSummary x _ sm _ 0 now snow)); [|exact Hw].
  intros o Ho. left. cbn [call] in Ho.
  now rewrite (proj1 (tables_after_storeSummary _ _ _ _ _ _ _ _)) in Ho.
Qed.

Lemma serve_sound (r : Request) (w : Worker) : worker_sound w -> worker_sound (serve r w).
Proof.
  destruct r; cbn [serve].
  - apply init_route_sound.
  - apply observations_route_sound.
  - apply summarize_route_sound.
Qed.

End WorkerInvariant.

(** X26.  Whatever requests the worker has served since its start, in
    whatever order and with whatever fields: its database keeps what
    the schema promises, every logged prompt has a non-empty text, a
    positive prompt number and an existing session, prompt row ids are
    unique, every queue belongs to an existing session, and every
    stored observation has type "change" and a positive prompt
    number. *)
Theorem served_sound (rs : list Request) : worker_sound (served rs).
Proof.
  unfold served. rewrite <- (reverse_involutive rs).
  induction (reverse rs) as [|r l IH].
  - apply new_worker_sound.
  - rewrite reverse_cons, foldl_snoc. now apply serve_sound.
Qed.

Section Queues.

Lemma serve_queue (r : Request) (w : Worker) (x : string) :
  default [] (pendingObservations (serve r w) !! x)
  = default [] (pendingObservations w !! x) ++ posted x [r].
Proof.
  destruct r as [sid p u now pnow|sid obs cwd cnow ts now snow|sid u a now snow cnow];
    cbn [serve posted omap list_omap].
  - rewrite app_nil_r.
    destruct (Js.or_null sid) as [y|] eqn:Ey.
    2: { unfold init_route, respond. now rewrite Ey. }
    destruct (Js.or_null p) as [q|] eqn:Eq.
    2: { unfold init_route, respond. now rewrite Ey, Eq. }
    apply or_null_Some in Ey as [-> Hy]. apply or_null_Some in Eq as [-> Hq].
    destruct (init_route_run w y q u now pnow Hy Hq) as (s & _ & ->).
    cbn [fst pendingObservations].
    destruct (decide (x = y)) as [->|Hne].
    + now rewrite ensured_lookup.
    + now rewrite ensured_other.
  - destruct (Js.or_null sid) as [y|] eqn:Ey.
    2: { unfold observations_route, respond. rewrite Ey.
         rewrite decide_False by discriminate. cbn [fst]. now rewrite app_nil_r. }
    apply or_null_Some in Ey as [-> Hy].
    rewrite (observations_route_run _ _ _ _ _ _ _ _ Hy). cbn [fst pendingObservations].
    destruct (decide (Some y = Some x)) as [E|Hne].
    + injection E as ->. now rewrite lookup_insert_eq.
    + rewrite lookup_insert_ne by congruence. now rewrite app_nil_r.
  - rewrite app_nil_r.
    destruct (Js.or_null sid) as [y|] eqn:Ey.
    2: { unfold summarize_route, respond. now rewrite Ey. }
    apply or_null_Some in Ey as [-> Hy].
    destruct (find_session y (sessions (database w))) as [s|] eqn:Es.
    + now rewrite (summarize_route_run _ _ _ _ _ _ _ s Hy Es).
    + now rewrite (summarize_route_unknown _ _ _ _ _ _ _ Hy Es).
Qed.

Lemma serve_rows (r : Request) (w : Worker) (x : string) :
  length (rows_for x (database (serve r w)))
  = (length (rows_for x (database w)) + length (List.filter kept (posted x [r])))%nat.
Proof.
  unfold rows_for.
  destruct r as [sid p u now pnow|sid obs cwd cnow ts now snow|sid u a now snow cnow];
    cbn [serve posted omap list_omap List.filter length].
  - rewrite Nat.add_0_r.
    destruct (Js.or_null sid) as [y|] eqn:Ey.
    2: { unfold init_route, respond. now rewrite Ey. }
    destruct (Js.or_null p) as [q|] eqn:Eq.
    2: { unfold init_route, respond. now rewrite Ey, Eq. }
    apply or_null_Some in Ey as [-> Hy]. apply or_null_Some in Eq as [-> Hq].
    destruct (init_route_run w y q u now pnow Hy Hq) as (s & _ & ->).
    cbn [fst database]. rewrite incrementPromptCounter_exec.
    cbn [with_sessions observations].
    now rewrite (proj1 (tables_after_createSession _ _ _ _ _)).
  - destruct (Js.or_null sid) as [y|] eqn:Ey.
    2: { unfold observations_route, respond. rewrite Ey.
         rewrite decide_False by discriminate. cbn. lia. }
    apply or_null_Some in Ey as [-> Hy].
    rewrite (observations_route_run _ _ _ _ _ _ _ _ Hy). cbn [fst database].
    destruct (observed_tables (database w) y obs cwd cnow now snow) as (_ & _ & O).
    cbv zeta in O |- *. rewrite O, List.filter_app, length_app. f_equal.
    destruct (decide (Some y = Some x)) as [E|Hne].
    + injection E as ->. unfold kept. cbn [List.filter Queued.tool].
      destruct (createSimpleObservation obs); [|reflexivity].
      cbn [List.filter observation_row Observation.session_id].
      now rewrite String.eqb_refl.
    + cbn [List.filter length].
      destruct (createSimpleObservation obs); [|reflexivity].
      cbn [List.filter observation_row Observation.session_id].
      destruct (String.eqb_spec y x); [congruence | reflexivity].
  - rewrite Nat.add_0_r.
    destruct (Js.or_null sid) as [y|] eqn:Ey.
    2: { unfold summarize_route, respond. now rewrite Ey. }
    apply or_null_Some in Ey as [-> Hy].
    destruct (find_session y (sessions (database w))) as [s|] eqn:Es.
    2: { now rewrite (summarize_route_unknown _ _ _ _ _ _ _ Hy Es). }
    rewrite (summarize_route_run _ _ _ _ _ _ _ s Hy Es). cbn [fst database].
    rewrite markSessionCompleted_exec. cbn [with_sessions observations].
    destruct (createSimpleSummary a u) as [sm|]; [|reflexivity].
    now rewrite (proj1 (tables_after_storeSummary _ _ _ _ _ _ _ _)).
Qed.

Lemma posted_snoc (x : string) (rs : list Request) (r : Request) :
  posted x (rs ++ [r]) = posted x rs ++ posted x [r].
Proof. unfold posted. apply omap_app. Qed.

End Queues.

(** X27.  The queue of a session is never consumed: after any
    requests it holds every tool use posted for the session, oldest
    first, skipped tools included; and the session has as many
    observation rows as its queue has tool uses that are not
    skipped. *)
Theorem queue_never_drained (rs : list Request) (x : string) :
  default [] (pendingObservations (served rs) !! x) = posted x rs /\
  length (rows_for x (database (served rs))) = length (List.filter kept (posted x rs)).
Proof.
  unfold served. rewrite <- (reverse_involutive rs).
  induction (reverse rs) as [|r l [IHq IHr]].
  - cbn [reverse rev_append foldl new_worker pendingObservations].
    rewrite lookup_empty. split; reflexivity.
  - rewrite reverse_cons, foldl_snoc, posted_snoc. split.
    + now rewrite serve_queue, IHq.
    + now rewrite serve_rows, IHr, List.filter_app, length_app.
Qed.



(** ** The response parser *)

Example parseObservations_two_blocks :
  Parser.parseObservations two_blocks
  = [ObservationFields.mk (Some "change") (Some "Fixed login") None
       (Some ["tokens expire"; ""]) None (Some []) (Some []) (Some []);
     ObservationFields.mk (Some "bugfix") None None (Some []) None (Some []) (Some [])
       (Some [])].
Proof. vm_compute. reflexivity. Qed.

Section ParserFacts.

Lemma extractField_nonempty (content : string) (name : Parser.Name.t) (v : string) :
  Parser.extractField content name = Some v -> v <> EmptyString.
Proof.
  unfold Parser.extractField.
  destruct (Parser.element _ _ 0 content) as [[body rest]|]; [|discriminate].
  cbv zeta. destruct (String.eqb_spec (Text.trim body) EmptyString); [discriminate|].
  intros E. now injection E as <-.
Qed.

Lemma or_null_extractField (content : string) (name : Parser.Name.t) :
  Js.or_null (Parser.extractField content name) = Parser.extractField content name.
Proof.
  destruct (Parser.extractField content name) as [v|] eqn:E; [|reflexivity].
  apply extractField_nonempty, truthy_true in E. cbn [Js.or_null]. now rewrite E.
Qed.

Lemma includes_validTypes (x : string) :
  Parser.includes Parser.validTypes x = true ->
  x ∈ Parser.validTypes /\ check_type x = true /\ x <> EmptyString.
Proof.
  unfold Parser.includes. intros H. apply existsb_exists in H as (y & Hy & E).
  apply String.eqb_eq in E. subst y. split; [now apply list_elem_of_In|].
  unfold Parser.validTypes in Hy. cbn [In] in Hy.
  repeat (destruct Hy as [<-|Hy]; [split; [reflexivity | discriminate]|]).
  destruct Hy.
Qed.

(** The type [parseObservations] settles on. *)
Lemma parseObservation_type (content : string) :
  exists ty,
    ObservationFields.type (Parser.parseObservation content) = Some ty /\
    ty ∈ Parser.validTypes /\ check_type ty = true /\ ty <> EmptyString.
Proof.
  unfold Parser.parseObservation. cbn [ObservationFields.type].
  eexists. split; [reflexivity|].
  destruct (Js.or_null (Parser.extractField content Parser.Name.type)) as [t|].
  - destruct (Parser.includes Parser.validTypes (Text.trim t)) eqn:E.
    + now apply includes_validTypes.
    + split; [|split; [reflexivity | discriminate]].
      unfold Parser.validTypes. repeat constructor.
  - split; [|split; [reflexivity | discriminate]].
    unfold Parser.validTypes. repeat constructor.
Qed.

End ParserFacts.

(** X29.  Every observation [parseObservations] reads from a response,
    whatever the response, has one of the six types (a type outside
    them, or none, is read as "change"), and the store accepts it
    without a constraint error and gives it back as parsed: type,
    title, subtitle and narrative as they are (a parsed text is never
    the empty string), and the four lists in their order. *)
Theorem parsed_observations_are_stored (text : string) :
  Forall
    (fun o =>
       (exists ty, ObservationFields.type o = Some ty /\ ty ∈ Parser.validTypes) /\
       forall st sid project pn dt now now1,
         exists st' id row,
           storeObservation sid project o pn dt now now1 st
             = (st', Returned (id, getTime now)) /\
           getObservationById id st' = (st', Returned (Some row)) /\
           Some (Observation.type row) = ObservationFields.type o /\
           Observation.title row = ObservationFields.title o /\
           Observation.title row <> Some EmptyString /\
           Observation.subtitle row = ObservationFields.subtitle o /\
           Observation.narrative row = ObservationFields.narrative o /\
           Some (parseJsonArray (Observation.facts row)) = ObservationFields.facts o /\
           Some (parseJsonArray (Observation.concepts row))
             = ObservationFields.concepts o /\
           Some (parseJsonArray (Observation.files_read row))
             = ObservationFields.files_read o /\
           Some (parseJsonArray (Observation.files_modified row))
             = ObservationFields.files_modified o)
    (Parser.parseObservations text).
Proof.
  unfold Parser.parseObservations. apply Forall_fmap, Forall_forall.
  intros content _. cbn [compose].
  destruct (parseObservation_type content) as (ty & Hty & Hin & Hcheck & Hne).
  split; [eauto|]. intros st sid project pn dt now now1.
  assert (Js.or_str (ObservationFields.type (Parser.parseObservation content)) "change"
          = ty) as Hor.
  { rewrite Hty. cbn [Js.or_str]. apply truthy_true in Hne. now rewrite Hne. }
  destruct (storeObservation_fetch st sid project (Parser.parseObservation content)
              pn dt now now1) as (st' & Hs & Hg & _).
  { now rewrite Hor. }
  eexists st', _, _. split; [exact Hs|]. split; [exact Hg|].
  cbn [observation_row Observation.type Observation.title Observation.subtitle
       Observation.narrative Observation.facts Observation.concepts
       Observation.files_read Observation.files_modified].
  rewrite Hor, !parseJsonArray_stringify. split; [now rewrite Hty|].
  unfold Parser.parseObservation.
  cbn [ObservationFields.title ObservationFields.subtitle ObservationFields.narrative
       ObservationFields.facts ObservationFields.concepts ObservationFields.files_read
       ObservationFields.files_modified Js.or_empty].
  rewrite !or_null_extractField. repeat split.
  intros E. now apply extractField_nonempty in E.
Qed.

Section Scans.

Lemma includes_cons (c : ascii) (s t : string) :
  Js.includes (String c s) t = false ->
  Js.startsWith (String c s) t = false /\ Js.includes s t = false.
Proof. cbn [Js.includes]. intros H. now apply orb_false_iff in H. Qed.

Lemma no_lt_cons (c : ascii) (s : string) :
  Js.includes (String c s) "<" = false ->
  Ascii.eqb c Parser.lt = false /\ Js.includes s "<" = false.
Proof.
  intros [H1 H2]%includes_cons. split; [|exact H2].
  cbn [Js.startsWith] in H1. rewrite Ascii.eqb_sym. unfold Parser.lt.
  now destruct (Ascii.eqb "<" c).
Qed.

Lemma no_lt_app (a b : string) :
  Js.includes a "<" = false -> Js.includes b "<" = false ->
  Js.includes (a +:+ b) "<" = false.
Proof.
  intros Ha Hb. induction a as [|c a IH]; [exact Hb|].
  apply no_lt_cons in Ha as [Hc Ha]. cbn [String.append Js.includes].
  rewrite (IH Ha). cbn [Js.startsWith]. rewrite Ascii.eqb_sym in Hc.
  unfold Parser.lt in Hc. now rewrite Hc.
Qed.

Lemma run_split (s body rest : string) :
  Parser.run s = (body, rest) -> s = body +:+ rest.
Proof.
  revert body rest. induction s as [|c s IH]; intros body rest; cbn [Parser.run].
  - intros E. now injection E as <- <-.
  - destruct (Ascii.eqb c Parser.lt).
    + intros E. now injection E as <- <-.
    + destruct (Parser.run s) as [b r]. intros E. injection E as <- <-.
      cbn [String.append]. now rewrite <- (IH b r eq_refl).
Qed.

Lemma run_text (v rest : string) :
  Js.includes v "<" = false ->
  Parser.run (v +:+ String Parser.lt rest) = (v, String Parser.lt rest).
Proof.
  intros Hv. induction v as [|c v IH]; cbn [String.append Parser.run].
  - now rewrite Ascii.eqb_refl.
  - apply no_lt_cons in Hv as [Hc Hv]. now rewrite Hc, (IH Hv).
Qed.

(** A tag does not begin inside a text and end past a [<] that follows
    the text. *)
Lemma startsWith_straddle (p s rest : string) :
  Js.includes p "<" = false ->
  Js.startsWith (s +:+ String Parser.lt rest) p = true -> Js.startsWith s p = true.
Proof.
  revert s. induction p as [|a p IH]; intros s Hp H; [reflexivity|].
  apply no_lt_cons in Hp as [Ha Hp].
  destruct s as [|b s]; cbn [String.append Js.startsWith] in *.
  - now rewrite Ha in H.
  - destruct (Ascii.eqb a b); [now apply IH | discriminate].
Qed.

Lemma length_substring_from (n : nat) (s : string) :
  (String.length (Js.substring_from n s) <= String.length s)%nat.
Proof.
  revert s. induction n as [|n IH]; intros [|c s]; cbn; try lia.
  specialize (IH s). lia.
Qed.

Lemma find_split (tag s before after : string) :
  Parser.find tag s = Some (before, after) -> s = before +:+ tag +:+ after.
Proof.
  revert before. induction s as [|c s IH]; intros before; cbn [Parser.find].
  - destruct tag; [|discriminate]. intros H. now injection H as <- <-.
  - destruct (Js.startsWith (String c s) tag) eqn:E.
    + intros H. injection H as <- <-. apply startsWith_spec in E as [r E].
      rewrite E. now rewrite substring_from_app.
    + destruct (Parser.find tag s) as [[b a]|]; [|discriminate].
      intros H. injection H as <- <-. cbn [String.append]. now rewrite (IH b eq_refl).
Qed.

Lemma lazy_block_shorter (open close s content rest : string) :
  Parser.lazy_block open close s = Some (content, rest) ->
  (String.length rest + String.length open <= String.length s)%nat.
Proof.
  unfold Parser.lazy_block.
  destruct (Parser.find open s) as [[b a]|] eqn:E1; [|discriminate].
  intros E2. apply find_split in E1, E2. subst.
  rewrite !length_app_s. lia.
Qed.

Lemma element_here_shorter (open close : string) (least : nat)
    (s body rest : string) :
  Parser.element_here open close least s = Some (body, rest) ->
  (String.length rest + String.length open <= String.length s)%nat.
Proof.
  unfold Parser.element_here.
  destruct (Js.startsWith s open) eqn:E; [|discriminate].
  apply startsWith_spec in E as [r ->]. rewrite substring_from_app.
  destruct (Parser.run r) as [b t] eqn:Er. apply run_split in Er. subst r.
  destruct (_ && _); [|discriminate]. intros H. injection H as <- <-.
  pose proof (length_substring_from (String.length close) t).
  rewrite !length_app_s. lia.
Qed.

Lemma element_shorter (open close : string) (least : nat) (s body rest : string) :
  Parser.element open close least s = Some (body, rest) ->
  (String.length rest + String.length open <= String.length s)%nat.
Proof.
  induction s as [|c s IH]; cbn [Parser.element].
  - destruct (Parser.element_here open close least EmptyString) as [[b r]|] eqn:E;
      [|discriminate].
    intros H. injection H as <- <-. now apply element_here_shorter in E.
  - destruct (Parser.element_here open close least (String c s)) as [[b r]|] eqn:E.
    + intros H. injection H as <- <-. now apply element_here_shorter in E.
    + intros H. specialize (IH H). cbn [String.length]. lia.
Qed.

Lemma element_found (open close : string) (least : nat) (s : string)
    (r : string * string) :
  Parser.element_here open close least s = Some r ->
  Parser.element open close least s = Some r.
Proof. intros H. destruct s; cbn [Parser.element]; now rewrite H. Qed.

(** The text before the first opening tag is passed over. *)
Lemma element_skip (name close : string) (least : nat) (pre rest : string) :
  Js.includes name "<" = false ->
  Js.includes pre (Parser.tag name) = false ->
  Parser.element (Parser.tag name) close least (pre +:+ Parser.tag name +:+ rest)
  = Parser.element (Parser.tag name) close least (Parser.tag name +:+ rest).
Proof.
  intros Hname. induction pre as [|a pre IH]; intros Hpre; [reflexivity|].
  apply includes_cons in Hpre as [Hhere Hpre].
  cbn [String.append Parser.element]. rewrite (IH Hpre).
  assert (Parser.element_here (Parser.tag name) close least
            (String a (pre +:+ Parser.tag name +:+ rest)) = None) as ->; [|reflexivity].
  unfold Parser.element_here.
  destruct (Js.startsWith (String a (pre +:+ Parser.tag name +:+ rest)) (Parser.tag name))
    eqn:E; [|reflexivity].
  exfalso. unfold Parser.tag in E, Hhere.
  cbn [String.append Js.startsWith] in E, Hhere.
  destruct (Ascii.eqb "<" a); [|discriminate].
  apply startsWith_straddle in E; [congruence|].
  apply no_lt_app; [exact Hname | reflexivity].
Qed.

(** The loops stop before their fuel runs out. *)
Lemma elements_enough (name : Parser.Name.t) (fuel fuel' : nat) (s : string) :
  (String.length s <= fuel)%nat -> (String.length s <= fuel')%nat ->
  Parser.elements fuel name s = Parser.elements fuel' name s.
Proof.
  assert (Parser.element (Parser.tag (Parser.Name.text name))
            (Parser.end_tag (Parser.Name.text name)) 1 EmptyString = None)
    as Hempty by reflexivity.
  revert fuel' s. induction fuel as [|fuel IH]; intros fuel' s H1 H2.
  - destruct s; [|cbn in H1; lia].
    destruct fuel'; [reflexivity|]. cbn [Parser.elements]. now rewrite Hempty.
  - destruct fuel' as [|fuel'].
    + destruct s; [|cbn in H2; lia]. cbn [Parser.elements]. now rewrite Hempty.
    + cbn [Parser.elements].
      destruct (Parser.element _ _ 1 s) as [[body rest]|] eqn:E; [|reflexivity].
      apply element_shorter in E. unfold Parser.tag in E.
      cbn [String.append String.length] in E.
      f_equal. apply IH; lia.
Qed.

Lemma observation_blocks_enough (fuel fuel' : nat) (s : string) :
  (String.length s <= fuel)%nat -> (String.length s <= fuel')%nat ->
  Parser.observation_blocks fuel s = Parser.observation_blocks fuel' s.
Proof.
  revert fuel' s. induction fuel as [|fuel IH]; intros fuel' s H1 H2.
  - destruct s; [|cbn in H1; lia]. now destruct fuel'.
  - destruct fuel' as [|fuel'].
    + destruct s; [|cbn in H2; lia]. reflexivity.
    + cbn [Parser.observation_blocks].
      destruct (Parser.lazy_block _ _ s) as [[content rest]|] eqn:E; [|reflexivity].
      apply lazy_block_shorter in E. cbn [String.length] in E.
      f_equal. apply IH; lia.
Qed.

End Scans.

(** X30.  [extractField] reads a field back, for each of the names the
    parser uses: when the content holds the field's opening tag for the
    first time, then a text without [<], then the field's closing tag,
    the result is that text without the white space around it, and it
    is absent when nothing but white space is left; what follows the
    closing tag does not matter. *)
Theorem extractField_reads_back (pre : string) (name : Parser.Name.t)
    (v post : string) :
  Js.includes pre (Parser.tag (Parser.Name.text name)) = false ->
  Js.includes v "<" = false ->
  Parser.extractField
    (pre +:+ Parser.tag (Parser.Name.text name) +:+ v
     +:+ Parser.end_tag (Parser.Name.text name) +:+ post) name
  = Js.or_null (Some (Text.trim v)).
Proof.
  intros Hpre Hv. unfold Parser.extractField.
  assert (Js.includes (Parser.Name.text name) "<" = false) as Hname
    by (destruct name; reflexivity).
  rewrite (element_skip _ _ 0 pre _ Hname Hpre).
  rewrite (element_found _ _ _ _ (v, post)).
  - cbv zeta. cbn [Js.or_null]. now destruct (Text.trim v).
  - unfold Parser.element_here. rewrite startsWith_app, substring_from_app.
    assert (Parser.end_tag (Parser.Name.text name) +:+ post
            = String Parser.lt (String "/" (Parser.Name.text name +:+ ">") +:+ post))
      as Hend by reflexivity.
    rewrite Hend, (run_text _ _ Hv), <- Hend.
    now rewrite startsWith_app, substring_from_app.
Qed.

Lemma extractField_reads_back_witness :
  Parser.extractField
    ("<type>bugfix</type> " +:+ Parser.tag (Parser.Name.text Parser.Name.title)
     +:+ " Fixed login " +:+ Parser.end_tag (Parser.Name.text Parser.Name.title)
     +:+ "<subtitle>tokens</subtitle>") Parser.Name.title
  = Js.or_null (Some (Text.trim " Fixed login ")).
Proof.
  apply (extractField_reads_back "<type>bugfix</type> " Parser.Name.title
           " Fixed login " "<subtitle>tokens</subtitle>").
  - reflexivity.
  - reflexivity.
Defined.
